(** * Workspace analysis and query pipeline of the AI Code Snippet RAG
      VS Code extension (extension.ts): a shallow embedding and its properties.

    The development follows the source file top-down: the ECMAScript and
    Node primitives the extension calls ([JS]), the extension's own types,
    tables and functions ([Extension]), the handlers of the webview provider
    (webviewProvider.ts), the vocabulary of the properties, and then the
    properties themselves.

    Modelling conventions.
    - A JavaScript string is a [string]; one character stands for one code
      unit.  On ASCII text the code-unit order used by [Array.prototype.sort],
      the length used by [substring] and the UTF-8 bytes fed to the digest all
      coincide with the byte view taken here.
    - Integral JavaScript numbers (sizes, timestamps, configuration values,
      HTTP status codes) are [Z].  Numbers that arrive in a backend response
      are kept abstract behind the class [JSNumber], because their printing
      ([Number.prototype.toFixed], [Number::toString]) is floating point.
    - TypeScript types are erased at run time: what [response.json()] yields
      is any JSON value ([JS.Value]), and the renderer is modelled on values.
    - The editor, the file system and the network are an explicit environment
      ([Workspace.t], the [fetch] argument); an operation that can throw or
      reject returns [option] or [Result].
    - [async] functions are first modelled as run to completion one at a
      time ([step], [run]).  Calls of [analyzeWorkspace] can overlap: the
      function awaits between reading the cache and writing it, and
      [activate] starts a call it does not await.  [Action] and [act] model
      that, with the calls in flight as part of the state.
    - The output channel is not part of the state ([activate] has created
      it); an argument of a log line is modelled where evaluating it can
      throw. *)

From Stdlib Require Import ZArith Ascii String List Bool Lia DecimalString.
From Stdlib Require DecimalPos DecimalZ.
From stdpp Require Import base option list gmap strings sorting.

Local Open Scope string_scope.

(** ** ECMAScript and Node primitives *)

Module JS.

(** [String.prototype.toLowerCase], on the ASCII range. *)
Definition lowerChar (c : ascii) : ascii :=
  let n := nat_of_ascii c in
  if (65 <=? n)%nat && (n <=? 90)%nat then ascii_of_nat (n + 32) else c.

Fixpoint toLowerCase (s : string) : string :=
  match s with
  | EmptyString => EmptyString
  | String c r => String (lowerChar c) (toLowerCase r)
  end.

(** [s.replace(/\\/g, '/')] *)
Fixpoint replaceBackslashes (s : string) : string :=
  match s with
  | EmptyString => EmptyString
  | String c r =>
      String (if Ascii.eqb c "\" then "/"%char else c) (replaceBackslashes r)
  end.

(** [String.prototype.trim] strips white space and line terminators at both
    ends.  Among the code units below 256 these are tab, line feed, vertical
    tab, form feed, carriage return, space and the no-break space (U+00A0);
    the others (U+FEFF, U+2028, U+2029 and the rest of the category Zs) lie
    above the code units a [string] holds. *)
Definition isWhiteSpace (c : ascii) : bool :=
  let n := nat_of_ascii c in
  ((9 <=? n)%nat && (n <=? 13)%nat) || (n =? 32)%nat || (n =? 160)%nat.

Fixpoint trimStart (s : string) : string :=
  match s with
  | EmptyString => EmptyString
  | String c r => if isWhiteSpace c then trimStart r else s
  end.

Definition trim (s : string) : string :=
  String.rev (trimStart (String.rev (trimStart s))).

(** [s.startsWith(p)] *)
Definition startsWith (s p : string) : bool := String.prefix p s.

(** [s.includes(p)]: [p] is a prefix of some suffix of [s]. *)
Fixpoint includes (s p : string) : bool :=
  String.prefix p s ||
  match s with
  | EmptyString => false
  | String _ r => includes r p
  end.

(** [s.endsWith(p)]: some suffix of [s] is [p]. *)
Fixpoint endsWith (s p : string) : bool :=
  String.eqb s p ||
  match s with
  | EmptyString => false
  | String _ r => endsWith r p
  end.

(** [s.substring(0, e)]: a negative end is clamped to 0, an end beyond the
    string to its length. *)
Definition substring0 (s : string) (e : Z) : string :=
  String.substring 0 (Z.to_nat e) s.

(** [Number::toString] on an integral number (below 10^21 in magnitude). *)
Definition numberToString (z : Z) : string :=
  NilZero.string_of_int (Z.to_int z).

(** [Array.prototype.slice(0, e)]: a negative end counts from the back. *)
Definition slice0 {A} (l : list A) (e : Z) : list A :=
  let len := Z.of_nat (length l) in
  let final := if (e <? 0)%Z then Z.max (len + e) 0 else Z.min e len in
  take (Z.to_nat final) l.

(** [Array.prototype.sort()] with the default comparator, on an array of
    strings: ascending code-unit order.  ECMAScript fixes the result (a
    sorted, stable rearrangement), not the algorithm; a merge sort is used. *)
Definition sort (l : list string) : list string := merge_sort String.le l.

(** [Array.prototype.join(sep)] on an array of strings. *)
Definition join (sep : string) (l : list string) : string := String.concat sep l.

Definition newline : string := String "010" EmptyString.

(** The double quote character, for messages that quote a name. *)
Definition dquote : string := String "034" EmptyString.

(** *** Node's [path] module (POSIX flavour) *)

Module path.

Definition isSlash (c : ascii) : bool := Ascii.eqb c "/".

(** Skip the separators at the front of a (reversed) path. *)
Fixpoint dropSlashes (s : string) : string :=
  match s with
  | String c r => if isSlash c then dropSlashes r else s
  | EmptyString => EmptyString
  end.

(** The characters up to the first separator, and what follows them. *)
Fixpoint takePart (s : string) : string :=
  match s with
  | String c r => if isSlash c then EmptyString else String c (takePart r)
  | EmptyString => EmptyString
  end.

Fixpoint dropPart (s : string) : string :=
  match s with
  | String c r => if isSlash c then s else dropPart r
  | EmptyString => EmptyString
  end.

(** The last path component, read right to left: trailing separators are
    ignored and the scan stops at the separator before the component. *)
Definition lastPartRev (p : string) : string :=
  takePart (dropSlashes (String.rev p)).

(** [path.basename(p)] *)
Definition basename (p : string) : string := String.rev (lastPartRev p).

(** [path.dirname(p)]: the scan runs from the last index down to index 1. *)
Definition dirname (p : string) : string :=
  match p with
  | EmptyString => "."
  | String c0 rest =>
      let hasRoot := isSlash c0 in
      match dropPart (dropSlashes (String.rev rest)) with
      | EmptyString => if hasRoot then "/" else "."
      | String _ before =>
          match before with
          | EmptyString => if hasRoot then "//" else String c0 EmptyString
          | _ => String c0 (String.rev before)
          end
      end
  end.

(** The characters up to the first dot of a (reversed) component, and what
    follows them. *)
Fixpoint takeExt (s : string) : string :=
  match s with
  | String c r => if Ascii.eqb c "." then EmptyString else String c (takeExt r)
  | EmptyString => EmptyString
  end.

Fixpoint dropExt (s : string) : string :=
  match s with
  | String c r => if Ascii.eqb c "." then s else dropExt r
  | EmptyString => EmptyString
  end.

(** [path.extname(p)]: from the last dot of the last component to its end;
    empty when there is no dot, when the dot opens the component, and for
    the component [".."]. *)
Definition extname (p : string) : string :=
  let comp := lastPartRev p in
  match dropExt comp with
  | EmptyString => ""
  | String _ pre =>
      match pre, takeExt comp with
      | EmptyString, _ => ""
      | String "." EmptyString, EmptyString => ""
      | _, ext => String "." (String.rev ext)
      end
  end.

End path.

(** *** Node's [crypto.createHash('sha256')] (FIPS 180-4) *)

Module sha256.

Local Open Scope Z_scope.

Definition w32 (x : Z) : Z := Z.land x 0xffffffff.
Definition add32 (x y : Z) : Z := w32 (x + y).
Definition rotr (n x : Z) : Z := Z.lor (Z.shiftr x n) (w32 (Z.shiftl x (32 - n))).
Definition not32 (x : Z) : Z := Z.lxor x 0xffffffff.

Definition Ch (x y z : Z) : Z := Z.lxor (Z.land x y) (Z.land (not32 x) z).
Definition Maj (x y z : Z) : Z :=
  Z.lxor (Z.lxor (Z.land x y) (Z.land x z)) (Z.land y z).
Definition bsig0 (x : Z) : Z := Z.lxor (Z.lxor (rotr 2 x) (rotr 13 x)) (rotr 22 x).
Definition bsig1 (x : Z) : Z := Z.lxor (Z.lxor (rotr 6 x) (rotr 11 x)) (rotr 25 x).
Definition ssig0 (x : Z) : Z := Z.lxor (Z.lxor (rotr 7 x) (rotr 18 x)) (Z.shiftr x 3).
Definition ssig1 (x : Z) : Z := Z.lxor (Z.lxor (rotr 17 x) (rotr 19 x)) (Z.shiftr x 10).

(** The first 64 primes, by trial division. *)
Definition isPrime (n : nat) : bool :=
  forallb (fun d => negb (n mod d =? 0)%nat) (seq 2 (n - 2)).

Definition primes : list Z :=
  map Z.of_nat (take 64 (List.filter isPrime (seq 2 310))).

(** The integer cube root, one bit at a time from bit [bits - 1] down. *)
Fixpoint cbrtFrom (bits : nat) (n r : Z) : Z :=
  match bits with
  | O => r
  | S k =>
      let c := r + Z.shiftl 1 (Z.of_nat k) in
      cbrtFrom k n (if c * c * c <=? n then c else r)
  end.

(** The round constants: the first 32 bits of the fractional parts of the
    cube roots of the first 64 primes. *)
Definition K : list Z :=
  map (fun p => w32 (cbrtFrom 40 (Z.shiftl p 96) 0)) primes.

(** The initial hash value: the first 32 bits of the fractional parts of
    the square roots of the first 8 primes. *)
Definition H0 : list Z :=
  map (fun p => w32 (Z.sqrt (Z.shiftl p 64))) (take 8 primes).

(** Big-endian bytes of a word of [n] bytes. *)
Fixpoint bytesBE (n : nat) (x : Z) : list Z :=
  match n with
  | O => []
  | S k => Z.land (Z.shiftr x (8 * Z.of_nat k)) 0xff :: bytesBE k x
  end.

(** The message, a 1 bit, zeros up to 56 modulo 64, the bit length on 8 bytes. *)
Definition pad (msg : list Z) : list Z :=
  let len := Z.of_nat (length msg) in
  let zeros := Z.to_nat ((55 - len) mod 64) in
  msg ++ [0x80] ++ replicate zeros 0 ++ bytesBE 8 (8 * len).

Fixpoint wordsBE (n : nat) (bs : list Z) : list Z :=
  match n, bs with
  | S k, b0 :: b1 :: b2 :: b3 :: r =>
      (Z.shiftl b0 24 + Z.shiftl b1 16 + Z.shiftl b2 8 + b3) :: wordsBE k r
  | _, _ => []
  end.

(** One step of the message schedule; the schedule is kept newest first. *)
Definition scheduleStep (ws : list Z) : list Z :=
  add32 (add32 (add32 (ssig1 (nth 1 ws 0)) (nth 6 ws 0)) (ssig0 (nth 14 ws 0)))
        (nth 15 ws 0) :: ws.

Definition schedule (block : list Z) : list Z :=
  rev (Nat.iter 48 scheduleStep (rev (wordsBE 16 block))).

Definition round (st : list Z) (kw : Z * Z) : list Z :=
  match st with
  | [a; b; c; d; e; f; g; h] =>
      let t1 := add32 (add32 (add32 (add32 h (bsig1 e)) (Ch e f g)) (fst kw)) (snd kw) in
      let t2 := add32 (bsig0 a) (Maj a b c) in
      [add32 t1 t2; a; b; c; add32 d t1; e; f; g]
  | _ => st
  end.

Definition compress (h : list Z) (block : list Z) : list Z :=
  zip_with add32 h (fold_left round (zip K (schedule block)) h).

Fixpoint blocks (fuel : nat) (bs : list Z) : list (list Z) :=
  match fuel, bs with
  | S k, _ :: _ => take 64 bs :: blocks k (drop 64 bs)
  | _, _ => []
  end.

Definition digest (msg : list Z) : list Z :=
  let padded := pad msg in
  flat_map (bytesBE 4) (fold_left compress (blocks (length padded) padded) H0).

Definition hexDigit (x : Z) : ascii :=
  if x <? 10 then ascii_of_nat (48 + Z.to_nat x) else ascii_of_nat (87 + Z.to_nat x).

Fixpoint hex (bs : list Z) : string :=
  match bs with
  | [] => EmptyString
  | b :: r => String (hexDigit (Z.shiftr b 4)) (String (hexDigit (Z.land b 0xf)) (hex r))
  end.

Fixpoint bytesOf (s : string) : list Z :=
  match s with
  | EmptyString => []
  | String c r => Z.of_nat (nat_of_ascii c) :: bytesOf r
  end.

(** [crypto.createHash('sha256').update(s).digest('hex')] *)
Definition hashHex (s : string) : string := hex (digest (bytesOf s)).

End sha256.

(** *** Exceptions *)

(** What a [catch (error: any)] clause inspects of the thrown value. *)
Module Error.
Record t := mk {
  name : string;
  message : option string;
  code : option string
}.
End Error.

(** [new Error(message)] *)
Definition newError (message : string) : Error.t :=
  Error.mk "Error" (Some message) None.

(** A [TypeError] raised by the runtime itself.  The message texts of such
    errors are the engine's; the model keeps them in a short form. *)
Definition typeError (message : string) : Error.t :=
  Error.mk "TypeError" (Some message) None.

Inductive Result (A : Type) : Type :=
| Ok (a : A)
| Throw (e : Error.t).
Arguments Ok {A} a.
Arguments Throw {A} e.

(** Sequencing: a [Throw] skips the rest ([x ← r; k]). *)
#[export] Instance Result_bind : MBind Result := fun A B k r =>
  match r with
  | Ok a => k a
  | Throw e => Throw e
  end.

(** *** Numbers and values that come out of [JSON.parse] *)

(** The operations the extension applies to a number of a response.  How a
    double prints is left to the instance. *)
Class JSNumber (Num : Type) := {
  num_toString : Num -> string;   (* Number::toString, as in a template literal *)
  num_toFixed2 : Num -> string;   (* toFixed(2) *)
  num_isZero : Num -> bool;       (* x === 0 *)
  num_isNaN : Num -> bool
}.

(** Integral numbers below 10^21 in magnitude. *)
#[export] Instance JSNumber_Z : JSNumber Z := {
  num_toString := numberToString;
  num_toFixed2 := fun z => numberToString z +:+ ".00";
  num_isZero := fun z => (z =? 0)%Z;
  num_isNaN := fun _ => false
}.

#[warnings="-register-all"]
Inductive Value (Num : Type) : Type :=
| VNull
| VBool (b : bool)
| VNumber (n : Num)
| VString (s : string)
| VArray (items : list (Value Num))
| VObject (fields : list (string * Value Num)).
Arguments VNull {Num}.
Arguments VBool {Num} b.
Arguments VNumber {Num} n.
Arguments VString {Num} s.
Arguments VArray {Num} items.
Arguments VObject {Num} fields.

Section Values.
Context {Num : Type} `{JSNumber Num}.

(** Own property of a parsed object; the first binding of a key counts. *)
Fixpoint lookupField (fields : list (string * Value Num)) (key : string)
  : option (Value Num) :=
  match fields with
  | [] => None
  | (k, v) :: rest => if String.eqb k key then Some v else lookupField rest key
  end.

(** [v.key] for a key that no prototype defines ([answers], [file],
    [start_line], [end_line], [code], [score], [explanation]); [None] is
    [undefined].  Reading a property of [null] throws. *)
Definition getProperty (v : Value Num) (key : string) : Result (option (Value Num)) :=
  match v with
  | VNull => Throw (typeError ("Cannot read properties of null (reading '" +:+ key +:+ "')"))
  | VObject fields => Ok (lookupField fields key)
  | _ => Ok None
  end.

(** ToBoolean *)
Definition truthy (v : option (Value Num)) : bool :=
  match v with
  | None => false
  | Some VNull => false
  | Some (VBool b) => b
  | Some (VNumber n) => negb (num_isZero n || num_isNaN n)
  | Some (VString s) => negb (String.eqb s "")
  | Some (VArray _) => true
  | Some (VObject _) => true
  end.

(** [v.length === 0] for a [v] that is neither [null] nor [undefined]. *)
Definition lengthIsZero (v : Value Num) : bool :=
  match v with
  | VArray items => match items with [] => true | _ => false end
  | VString s => String.eqb s ""
  | VObject fields =>
      match lookupField fields "length" with
      | Some (VNumber n) => num_isZero n
      | _ => false
      end
  | _ => false
  end.

(** The values a [for ... of] loop visits; only arrays and strings are
    iterable ([what] is the text of the expression, for the message). *)
Fixpoint characters (s : string) : list (Value Num) :=
  match s with
  | EmptyString => []
  | String c r => VString (String c EmptyString) :: characters r
  end.

Definition iterate (what : string) (v : Value Num) : Result (list (Value Num)) :=
  match v with
  | VArray items => Ok items
  | VString s => Ok (characters s)
  | _ => Throw (typeError (what +:+ " is not iterable"))
  end.

(** ToString, as applied to a substitution of a template literal.  An array
    prints its elements separated by commas, [null] elements as nothing; an
    object prints as [[object Object]] unless a field shadows [toString]. *)
Fixpoint toString (v : Value Num) : Result string :=
  match v with
  | VNull => Ok "null"
  | VBool b => Ok (if b then "true" else "false")
  | VNumber n => Ok (num_toString n)
  | VString s => Ok s
  | VArray items =>
      (fix elements (l : list (Value Num)) : Result string :=
         match l with
         | [] => Ok ""
         | x :: rest =>
             first ← match x with VNull => Ok "" | _ => toString x end;
             match rest with
             | [] => Ok first
             | _ => others ← elements rest; Ok (first +:+ "," +:+ others)
             end
         end) items
  | VObject fields =>
      match lookupField fields "toString" with
      | Some _ => Throw (typeError "Cannot convert object to primitive value")
      | None => Ok "[object Object]"
      end
  end.

Definition toStringOpt (v : option (Value Num)) : Result string :=
  match v with
  | None => Ok "undefined"
  | Some x => toString x
  end.

(** [v.toFixed(2)]: only a number has the method ([what] is the text of
    the expression [v], for the message). *)
Definition toFixed2 (what : string) (v : option (Value Num)) : Result string :=
  match v with
  | Some (VNumber n) => Ok (num_toFixed2 n)
  | None => Throw (typeError "Cannot read properties of undefined (reading 'toFixed')")
  | Some VNull => Throw (typeError "Cannot read properties of null (reading 'toFixed')")
  | Some _ => Throw (typeError (what +:+ ".toFixed is not a function"))
  end.

End Values.

End JS.

(** ** The extension (extension.ts) *)

Module Extension.

(** *** Types *)

Module FileInfo.
Record t := mk {
  path : string;
  size : Z;
  mtime : Z;
  languageId : option string;
  sample : option string
}.
End FileInfo.

Module WorkspaceAnalysis.
Record t := mk {
  workspaceName : string;
  workspaceRoot : string;
  fingerprint : string;
  fileCount : Z;
  files : list FileInfo.t
}.
End WorkspaceAnalysis.

(** *** The editor API the extension runs against *)

Module Uri.
Record t := mk {
  toString : string;
  fsPath : string
}.
End Uri.

Module WorkspaceFolder.
Record t := mk {
  name : string;
  uri : Uri.t
}.
End WorkspaceFolder.

Module FileStat.
Record t := mk {
  size : Z;
  mtime : Z
}.
End FileStat.

(** The values [getConfiguration('aiCodeSnippetRag').get] returns (the
    setting, or the default of the call when it is unset). *)
Module Configuration.
Record t := mk {
  serverUrl : string;
  requestTimeoutMs : Z;
  maxFiles : Z;
  maxBytesPerFile : Z
}.
Definition default : t := mk "http://localhost:8000" 20000 5000 40000.
End Configuration.

(** [vscode.workspace] at the time of a call.  [findFiles] takes the include
    pattern, the exclude pattern and the result limit; [None] is a rejected
    promise ([findFiles], [fs.stat], [fs.readFile]).  [readFile] gives the
    content already decoded as UTF-8 text. *)
Module Workspace.
Record t := mk {
  workspaceFolders : list WorkspaceFolder.t;
  configuration : Configuration.t;
  findFiles : string -> string -> Z -> option (list Uri.t);
  asRelativePath : Uri.t -> string;
  stat : Uri.t -> option FileStat.t;
  readFile : Uri.t -> option string
}.
End Workspace.

(** *** Tables *)

Definition TEXT_FILE_EXTENSIONS : gset string :=
  list_to_set
  [ ".ts"; ".tsx"; ".js"; ".jsx"; ".py"; ".cs"; ".java"; ".go"; ".rs";
    ".md"; ".json"; ".yml"; ".yaml"; ".toml"; ".xml"; ".html"; ".css";
    ".scss"; ".less"; ".sql"; ".sh"; ".bash"; ".ps1"; ".bat"; ".cmd";
    ".cpp"; ".c"; ".h"; ".hpp"; ".cc"; ".cxx"; ".m"; ".mm"; ".swift";
    ".php"; ".rb"; ".pl"; ".lua"; ".r"; ".scala"; ".kt"; ".dart";
    ".vue"; ".svelte"; ".jsx"; ".tsx" ].

Definition SENSITIVE_PATTERNS : list string :=
  [ "**/.env"; "**/.env.*"; "**/secrets*"; "**/id_rsa*"; "**/*.pfx";
    "**/*.pem"; "**/*.key"; "**/*.p12"; "**/credentials*";
    "**/config/secrets*" ].

Definition langMap : gmap string string :=
  list_to_map
  [ (".ts", "typescript"); (".tsx", "typescriptreact"); (".js", "javascript");
    (".jsx", "javascriptreact"); (".py", "python"); (".cs", "csharp");
    (".java", "java"); (".go", "go"); (".rs", "rust"); (".md", "markdown");
    (".json", "json"); (".yml", "yaml"); (".yaml", "yaml"); (".toml", "toml");
    (".xml", "xml"); (".html", "html"); (".css", "css"); (".scss", "scss");
    (".less", "less"); (".sql", "sql"); (".sh", "shellscript");
    (".bash", "shellscript"); (".ps1", "powershell"); (".bat", "bat");
    (".cmd", "bat"); (".cpp", "cpp"); (".c", "c"); (".h", "c"); (".hpp", "cpp");
    (".cc", "cpp"); (".cxx", "cpp"); (".m", "objective-c");
    (".mm", "objective-cpp"); (".swift", "swift"); (".php", "php");
    (".rb", "ruby"); (".pl", "perl"); (".lua", "lua"); (".r", "r");
    (".scala", "scala"); (".kt", "kotlin"); (".dart", "dart"); (".vue", "vue");
    (".svelte", "svelte") ].

(** *** File classifier *)

Definition getLanguageId (filePath : string) : option string :=
  let ext := JS.toLowerCase (JS.path.extname filePath) in
  langMap !! ext.

Definition isSensitiveFile (filePath : string) : bool :=
  let normalized := JS.replaceBackslashes (JS.toLowerCase filePath) in
  let fileName := JS.path.basename normalized in
  let dirName := JS.path.dirname normalized in
  if String.eqb fileName ".env" || JS.startsWith fileName ".env." then true
  else if JS.startsWith fileName "secrets" || JS.includes fileName "secrets" then true
  else if JS.startsWith fileName "id_rsa" then true
  else if JS.endsWith fileName ".pfx" || JS.endsWith fileName ".pem" ||
          JS.endsWith fileName ".key" || JS.endsWith fileName ".p12" then true
  else if JS.startsWith fileName "credentials" || JS.includes fileName "credentials" then true
  else if JS.includes dirName "secrets" || JS.includes dirName "credentials" then true
  else false.

(** *** Fingerprint *)

Definition fingerprintEntry (f : FileInfo.t) : string :=
  FileInfo.path f +:+ "|" +:+ JS.numberToString (FileInfo.size f) +:+ "|" +:+
  JS.numberToString (FileInfo.mtime f).

Definition computeFingerprint (files : list FileInfo.t) : string :=
  let entries := JS.join JS.newline (JS.sort (map fingerprintEntry files)) in
  JS.sha256.hashHex entries.

(** *** Workspace analysis *)

Abbreviation Cache := (gmap string WorkspaceAnalysis.t).

Definition excludePattern : string :=
  "{" +:+ JS.join "," SENSITIVE_PATTERNS +:+
  ",**/node_modules/**,**/.git/**,**/dist/**,**/build/**,**/out/**}".

(** The sample of a file whose text was read. *)
Definition sampleOf (text : string) (maxBytesPerFile : Z) : string :=
  if (Z.of_nat (String.length text) >? maxBytesPerFile)%Z
  then JS.substring0 text maxBytesPerFile
  else text.

(** One iteration of the loop over the found files: [None] when the
    iteration pushes nothing ([continue] on a sensitive path, or [fs.stat]
    failing into the inner [catch]). *)
Definition processFile (ws : Workspace.t) (maxBytesPerFile : Z) (fileUri : Uri.t)
  : option FileInfo.t :=
  let relativePath := Workspace.asRelativePath ws fileUri in
  if isSensitiveFile relativePath then None
  else
    match Workspace.stat ws fileUri with
    | None => None
    | Some st =>
        let ext := JS.toLowerCase (JS.path.extname relativePath) in
        let languageId := getLanguageId relativePath in
        let sample :=
          if bool_decide (ext ∈ TEXT_FILE_EXTENSIONS) &&
             (FileStat.size st >? 0)%Z &&
             (FileStat.size st <=? maxBytesPerFile * 10)%Z
          then
            match Workspace.readFile ws fileUri with
            | Some text => Some (sampleOf text maxBytesPerFile)
            | None => None
            end
          else None in
        Some (FileInfo.mk relativePath (FileStat.size st) (FileStat.mtime st)
                languageId sample)
    end.

(** The loop: [fileInfos] grows by [push]. *)
Definition collectFileInfos (ws : Workspace.t) (maxBytesPerFile : Z)
  (files : list Uri.t) : list FileInfo.t :=
  fold_left
    (fun fileInfos fileUri =>
       match processFile ws maxBytesPerFile fileUri with
       | Some fileInfo => (fileInfos ++ [fileInfo])%list
       | None => fileInfos
       end)
    files [].

(** The body of the outer [try], after a cache miss; [None] when
    [findFiles] rejects (the outer [catch]). *)
Definition buildAnalysis (ws : Workspace.t) (workspaceFolder : WorkspaceFolder.t)
  : option WorkspaceAnalysis.t :=
  let config := Workspace.configuration ws in
  let maxFiles := Configuration.maxFiles config in
  let maxBytesPerFile := Configuration.maxBytesPerFile config in
  match Workspace.findFiles ws "**/*" excludePattern maxFiles with
  | None => None
  | Some files =>
      let fileInfos := collectFileInfos ws maxBytesPerFile (JS.slice0 files maxFiles) in
      let fingerprint := computeFingerprint fileInfos in
      Some (WorkspaceAnalysis.mk
              (WorkspaceFolder.name workspaceFolder)
              (Uri.fsPath (WorkspaceFolder.uri workspaceFolder))
              fingerprint
              (Z.of_nat (length fileInfos))
              fileInfos)
  end.

(** [analyzeWorkspace]: the result ([None] is [null]) and the cache after
    the call. *)
Definition analyzeWorkspace (ws : Workspace.t) (analysisCache : Cache)
  : option WorkspaceAnalysis.t * Cache :=
  match head (Workspace.workspaceFolders ws) with
  | None => (None, analysisCache)
  | Some workspaceFolder =>
      let cacheKey := Uri.toString (WorkspaceFolder.uri workspaceFolder) in
      match analysisCache !! cacheKey with
      | Some cached => (Some cached, analysisCache)
      | None =>
          match buildAnalysis ws workspaceFolder with
          | Some analysis => (Some analysis, <[cacheKey := analysis]> analysisCache)
          | None => (None, analysisCache)
          end
      end
  end.

(** [rebuildAnalysis]: the cache after the command. *)
Definition rebuildAnalysis (ws : Workspace.t) (analysisCache : Cache) : Cache :=
  match head (Workspace.workspaceFolders ws) with
  | None => analysisCache
  | Some workspaceFolder =>
      let cacheKey := Uri.toString (WorkspaceFolder.uri workspaceFolder) in
      snd (analyzeWorkspace ws (delete cacheKey analysisCache))
  end.

(** What touches [analysisCache] during the life of the extension: calls of
    [analyzeWorkspace] (activation, every chat request), the rebuild command,
    the [onDidChangeWorkspaceFolders] handler and [deactivate].  Each call
    sees the workspace as it is at that moment. *)
Inductive Event :=
| EvAnalyze (ws : Workspace.t)
| EvRebuild (ws : Workspace.t)
| EvFoldersChanged
| EvDeactivate.

Definition step (analysisCache : Cache) (ev : Event) : Cache :=
  match ev with
  | EvAnalyze ws => snd (analyzeWorkspace ws analysisCache)
  | EvRebuild ws => rebuildAnalysis ws analysisCache
  | EvFoldersChanged => ∅
  | EvDeactivate => ∅
  end.

(** The cache after a sequence of events, from the empty map created when
    the module is loaded. *)
Definition run (evs : list Event) : Cache := fold_left step evs ∅.

(** *** Overlapping calls

    [analyzeWorkspace] reads the cache at its start ([get]) and writes it at
    its end ([set]); after a miss it awaits [findFiles], [fs.stat] and
    [fs.readFile] in between, and other handlers run during these awaits.
    Between its [get] and its [set] a call does not touch the cache, so for
    the cache its awaits count as one: a call in flight resumes once, and
    runs to its end. *)

(** A call of [analyzeWorkspace] suspended after a cache miss: the folder
    and the settings it has read before its first [await]. *)
Module InFlight.
Record t := mk {
  workspaceFolder : WorkspaceFolder.t;
  config : Configuration.t
}.

Definition cacheKey (call : t) : string :=
  Uri.toString (WorkspaceFolder.uri (workspaceFolder call)).
End InFlight.

(** The cache and the calls in flight, oldest first. *)
Module Running.
Record t := mk {
  cache : Cache;
  calls : list InFlight.t
}.

(** The module is loaded: an empty map, no call. *)
Definition initial : t := mk ∅ [].
End Running.

(** [analyzeWorkspace] from its start to its first [await]: without a
    folder, or on a hit, the call returns at once and nothing changes; on a
    miss it reads the settings and is suspended at [findFiles]. *)
Definition startCall (ws : Workspace.t) (s : Running.t) : Running.t :=
  match head (Workspace.workspaceFolders ws) with
  | None => s
  | Some workspaceFolder =>
      let cacheKey := Uri.toString (WorkspaceFolder.uri workspaceFolder) in
      match Running.cache s !! cacheKey with
      | Some cached => s
      | None =>
          Running.mk (Running.cache s)
            (Running.calls s ++ [InFlight.mk workspaceFolder (Workspace.configuration ws)])%list
      end
  end.

(** The workspace a suspended call works on: the files as its awaits find
    them in [ws], the settings as the call read them at its start.  A file
    system that changes between the awaits is a [ws] whose operations answer
    each request as it was answered. *)
Definition seenBy (call : InFlight.t) (ws : Workspace.t) : Workspace.t :=
  Workspace.mk (Workspace.workspaceFolders ws) (InFlight.config call)
    (Workspace.findFiles ws) (Workspace.asRelativePath ws)
    (Workspace.stat ws) (Workspace.readFile ws).

(** [analyzeWorkspace] from its first [await] to its end: the [set] is not
    conditional on what the cache holds by then. *)
Definition finishCall (call : InFlight.t) (ws : Workspace.t) (analysisCache : Cache)
  : Cache :=
  match buildAnalysis (seenBy call ws) (InFlight.workspaceFolder call) with
  | Some analysis => <[InFlight.cacheKey call := analysis]> analysisCache
  | None => analysisCache
  end.

(** What happens to the cache and the calls, one turn of the event loop at
    a time: [analyzeWorkspace] is called ([activate], which does not await
    it, and every chat request); the call number [i] in flight resumes, its
    awaits having seen [ws]; [rebuildAnalysis] is called, which deletes the
    entry and calls [analyzeWorkspace] in the same turn; the folders change;
    the extension is deactivated. *)
Inductive Action :=
| ActCall (ws : Workspace.t)
| ActResume (i : nat) (ws : Workspace.t)
| ActRebuild (ws : Workspace.t)
| ActFoldersChanged
| ActDeactivate.

Definition act (s : Running.t) (a : Action) : Running.t :=
  match a with
  | ActCall ws => startCall ws s
  | ActResume i ws =>
      match Running.calls s !! i with
      | Some call =>
          Running.mk (finishCall call ws (Running.cache s)) (delete i (Running.calls s))
      | None => s
      end
  | ActRebuild ws =>
      match head (Workspace.workspaceFolders ws) with
      | None => s
      | Some workspaceFolder =>
          let cacheKey := Uri.toString (WorkspaceFolder.uri workspaceFolder) in
          startCall ws (Running.mk (delete cacheKey (Running.cache s)) (Running.calls s))
      end
  | ActFoldersChanged => Running.mk ∅ (Running.calls s)
  | ActDeactivate => Running.mk ∅ (Running.calls s)
  end.

(** An event of [step] as actions: the call, and its resumption with
    nothing in between. *)
Definition actionsOf (ev : Event) : list Action :=
  match ev with
  | EvAnalyze ws => [ActCall ws; ActResume 0 ws]
  | EvRebuild ws => [ActRebuild ws; ActResume 0 ws]
  | EvFoldersChanged => [ActFoldersChanged]
  | EvDeactivate => [ActDeactivate]
  end.

(** *** Query client *)

Module Selection.
Record t := mk {
  startLine : Z;
  endLine : Z
}.
End Selection.

Module RepoContext.
Record t := mk {
  workspaceName : string;
  workspaceRoot : string;
  fingerprint : string;
  fileCount : Z;
  activeFile : option string;
  selection : option Selection.t;
  files : list FileInfo.t
}.
End RepoContext.

Module QueryRequest.
Record t := mk {
  query : string;
  repo_context : RepoContext.t
}.
End QueryRequest.

Section QueryClient.
Import JS.
Context {Num : Type} `{JSNumber Num}.

(** The [Response] of [fetch]: its status, and what [json()] and [text()]
    settle to. *)
Record Response := mkResponse {
  status : Z;
  json : Result (Value Num);
  text : Result string
}.

Definition ok (response : Response) : bool :=
  (200 <=? status response)%Z && (status response <=? 299)%Z.

(** How the [fetch] promise settles.  The abort signal armed by the timer
    rejects it with an error named [AbortError]. *)
Inductive FetchOutcome :=
| Resolved (response : Response)
| Rejected (error : Error.t).

Definition timeoutMessage (timeoutMs : Z) : string :=
  "Request timeout after " +:+ numberToString timeoutMs +:+ "ms".

Definition connectMessage (serverUrl : string) : string :=
  "Cannot connect to backend at " +:+ serverUrl +:+
  ". Make sure the backend is running. Use " +:+ dquote +:+
  "AI Code Snippet RAG: Test Connection" +:+ dquote +:+ " to verify.".

Definition notFoundMessage (fileCount : Z) : string :=
  "HTTP 404: Backend endpoint /query not found. The endpoint needs to be implemented in the backend. Context collected: " +:+
  numberToString fileCount +:+ " files.".

Definition httpMessage (status : Z) (errorText : string) : string :=
  "HTTP " +:+ numberToString status +:+ ": " +:+ errorText.

Definition messageIncludes (error : Error.t) (needle : string) : bool :=
  match Error.message error with
  | Some m => includes m needle
  | None => false
  end.

Definition codeIs (error : Error.t) (code : string) : bool :=
  match Error.code error with
  | Some c => String.eqb c code
  | None => false
  end.

(** The [catch] clause of [sendQuery]: the error it throws in turn (its two
    log lines are taken not to throw). *)
Definition queryCatch (config : Configuration.t) (error : Error.t) : Error.t :=
  if String.eqb (Error.name error) "AbortError" then
    newError (timeoutMessage (Configuration.requestTimeoutMs config))
  else if messageIncludes error "fetch failed" || codeIs error "ECONNREFUSED" ||
          codeIs error "ENOTFOUND" then
    newError (connectMessage (Configuration.serverUrl config))
  else error.

(** The log line of a successful query prints [data.answers?.length || 0].
    Reading [answers] throws on a [null] body; the length of an array or a
    string is a number, that of a number or a boolean is [undefined], and
    that of an object is its [length] field, which is printed when truthy. *)
Definition logAnswerCount (data : Value Num) : Result unit :=
  answers ← getProperty data "answers";
  match answers with
  | Some (VObject fields) =>
      match lookupField fields "length" with
      | Some len => if truthy (Some len) then _ ← toString len; Ok tt else Ok tt
      | None => Ok tt
      end
  | _ => Ok tt
  end.

(** The [try] block of [sendQuery], given how the request settles. *)
Definition queryTry (analysis : WorkspaceAnalysis.t) (outcome : FetchOutcome)
  : Result (Value Num) :=
  match outcome with
  | Rejected error => Throw error
  | Resolved response =>
      if ok response then
        data ← json response;
        _ ← logAnswerCount data;
        Ok data
      else
        errorText ← text response;
        if (status response =? 404)%Z then
          Throw (newError (notFoundMessage (WorkspaceAnalysis.fileCount analysis)))
        else
          Throw (newError (httpMessage (status response) errorText))
  end.

(** The [request] that [sendQuery] builds. *)
Definition requestOf (query : string) (analysis : WorkspaceAnalysis.t)
  (activeFile : option string) (selection : option Selection.t) : QueryRequest.t :=
  QueryRequest.mk query
    (RepoContext.mk
       (WorkspaceAnalysis.workspaceName analysis)
       (WorkspaceAnalysis.workspaceRoot analysis)
       (WorkspaceAnalysis.fingerprint analysis)
       (WorkspaceAnalysis.fileCount analysis)
       activeFile selection
       (WorkspaceAnalysis.files analysis)).

(** [sendQuery]; [fetch] is the network: how a POST of the request to the
    given URL settles. *)
Definition sendQuery (config : Configuration.t)
  (fetch : string -> QueryRequest.t -> FetchOutcome)
  (query : string) (analysis : WorkspaceAnalysis.t)
  (activeFile : option string) (selection : option Selection.t)
  : Result (Value Num) :=
  let serverUrl := Configuration.serverUrl config in
  let request := requestOf query analysis activeFile selection in
  match queryTry analysis (fetch (serverUrl +:+ "/query") request) with
  | Ok data => Ok data
  | Throw error => Throw (queryCatch config error)
  end.

(** *** Response renderer *)

(** [getLanguageId(answer.file)]: [path.extname] rejects a non-string. *)
Definition getLanguageIdOf (file : option (Value Num)) : Result (option string) :=
  match file with
  | Some (VString filePath) => Ok (getLanguageId filePath)
  | _ => Throw (typeError ("The " +:+ dquote +:+ "path" +:+ dquote +:+
                       " argument must be of type string"))
  end.

(** What one iteration of the loop appends to [markdown]. *)
Definition renderAnswer (answer : Value Num) : Result string :=
  file ← getProperty answer "file";
  language ← getLanguageIdOf file;
  let languageId := default "text" language in
  start_line ← getProperty answer "start_line";
  end_line ← getProperty answer "end_line";
  score ← getProperty answer "score";
  code ← getProperty answer "code";
  explanation ← getProperty answer "explanation";
  sFile ← toStringOpt file;
  sStart ← toStringOpt start_line;
  sEnd ← toStringOpt end_line;
  sScore ← toFixed2 "answer.score" score;
  sCode ← toStringOpt code;
  sExplanation ←
    (if truthy explanation
     then s ← toStringOpt explanation; Ok (s +:+ newline +:+ newline)
     else Ok "");
  Ok ("**" +:+ sFile +:+ "** (lines " +:+ sStart +:+ "-" +:+ sEnd +:+
      ") [score: " +:+ sScore +:+ "]" +:+ newline +:+ newline +:+
      "```" +:+ languageId +:+ newline +:+ sCode +:+ newline +:+ "```" +:+
      newline +:+ newline +:+
      sExplanation +:+
      "---" +:+ newline +:+ newline).

(** The loop over [response.answers]. *)
Fixpoint renderAnswers (markdown : string) (answers : list (Value Num))
  : Result string :=
  match answers with
  | [] => Ok markdown
  | answer :: rest =>
      block ← renderAnswer answer;
      renderAnswers (markdown +:+ block) rest
  end.

Definition renderResponse (response : Value Num) : Result string :=
  answers ← getProperty response "answers";
  match answers with
  | Some list =>
      if negb (truthy answers) || lengthIsZero list then Ok "No results found."
      else
        items ← iterate "response.answers" list;
        renderAnswers "" items
  | None => Ok "No results found."
  end.

End QueryClient.

(** A well-formed answer, and the value [JSON.parse] makes of it. *)
Module QueryAnswer.
Record t (Num : Type) := mk {
  file : string;
  start_line : Num;
  end_line : Num;
  code : string;
  score : Num;
  explanation : string
}.
Arguments mk {Num}.
Arguments file {Num}.
Arguments start_line {Num}.
Arguments end_line {Num}.
Arguments code {Num}.
Arguments score {Num}.
Arguments explanation {Num}.

Definition toValue {Num} (a : t Num) : JS.Value Num :=
  JS.VObject
    [ ("file", JS.VString (file a));
      ("start_line", JS.VNumber (start_line a));
      ("end_line", JS.VNumber (end_line a));
      ("code", JS.VString (code a));
      ("score", JS.VNumber (score a));
      ("explanation", JS.VString (explanation a)) ].
End QueryAnswer.

(** A well-formed [QueryResponse] as a value. *)
Definition responseOf {Num} (answers : list (QueryAnswer.t Num)) : JS.Value Num :=
  JS.VObject [ ("answers", JS.VArray (map QueryAnswer.toValue answers)) ].

(** *** Connection test, editor context and chat participant *)

(** What [vscode.window.show...Message] displays. *)
Inductive Notification :=
| Information (message : string)
| Warning (message : string)
| ErrorMessage (message : string).

(** [vscode.Position], [vscode.Selection] and [vscode.TextEditor], as far as
    the extension reads them.  [isEmpty] holds when start and end coincide. *)
Module Position.
Record t := mk {
  line : Z;
  character : Z
}.
End Position.

Module EditorSelection.
Record t := mk {
  start : Position.t;
  end_ : Position.t
}.
Definition isEmpty (s : t) : bool :=
  (Position.line (start s) =? Position.line (end_ s))%Z &&
  (Position.character (start s) =? Position.character (end_ s))%Z.
End EditorSelection.

Module TextEditor.
Record t := mk {
  documentUri : Uri.t;
  selection : EditorSelection.t
}.
End TextEditor.

(** [getActiveEditorContext]: the pair [{ file, selection }]; the argument
    is [vscode.window.activeTextEditor]. *)
Definition getActiveEditorContext (ws : Workspace.t)
  (activeTextEditor : option TextEditor.t) : option string * option Selection.t :=
  match activeTextEditor with
  | None => (None, None)
  | Some editor =>
      let file := Workspace.asRelativePath ws (TextEditor.documentUri editor) in
      let selection := TextEditor.selection editor in
      if negb (EditorSelection.isEmpty selection) then
        (Some file,
         Some (Selection.mk
                 (Position.line (EditorSelection.start selection) + 1)
                 (Position.line (EditorSelection.end_ selection) + 1)))
      else (Some file, None)
  end.

Section ChatParticipant.
Import JS.
Context {Num : Type} `{JSNumber Num}.

(** [error.message] inside a template literal. *)
Definition messageText (error : Error.t) : string :=
  default "undefined" (Error.message error).

(** The [catch] clause of [testConnection]. *)
Definition connectionCatch (timeoutMs : Z) (error : Error.t) : bool * Notification :=
  if String.eqb (Error.name error) "AbortError" then
    (false, ErrorMessage ("AI Code Snippet RAG: Connection timeout after " +:+
                          numberToString timeoutMs +:+ "ms"))
  else
    (false, ErrorMessage ("AI Code Snippet RAG: Connection error - " +:+
                          messageText error)).

(** [testConnection]: its result and the notification it shows; [fetch] is
    how a GET of the given URL settles. *)
Definition testConnection (config : Configuration.t)
  (fetch : string -> FetchOutcome (Num := Num)) : bool * Notification :=
  let serverUrl := Configuration.serverUrl config in
  let timeoutMs := Configuration.requestTimeoutMs config in
  match fetch (serverUrl +:+ "/health") with
  | Rejected error => connectionCatch timeoutMs error
  | Resolved response =>
      if ok response then
        match json response with
        | Ok data =>
            (true, Information ("AI Code Snippet RAG: Connection successful to " +:+
                                serverUrl))
        | Throw error => connectionCatch timeoutMs error
        end
      else
        (false, ErrorMessage ("AI Code Snippet RAG: Connection failed (HTTP " +:+
                              numberToString (status response) +:+ ")"))
  end.

(** [analysis.files.filter(f => f.sample).length]: an empty sample is falsy. *)
Definition hasSample (f : FileInfo.t) : bool :=
  match FileInfo.sample f with
  | Some s => negb (String.eqb s "")
  | None => false
  end.

Definition filesWithSamples (analysis : WorkspaceAnalysis.t) : Z :=
  Z.of_nat (length (List.filter hasSample (WorkspaceAnalysis.files analysis))).

Definition contextSection (analysis : WorkspaceAnalysis.t) (file : option string)
  : string :=
  newline +:+ newline +:+ "**Workspace Context Collected:**" +:+ newline +:+
  "- **Files analyzed:** " +:+
  numberToString (WorkspaceAnalysis.fileCount analysis) +:+ newline +:+
  "- **Workspace:** " +:+ WorkspaceAnalysis.workspaceName analysis +:+ newline +:+
  "- **Files with samples:** " +:+ numberToString (filesWithSamples analysis) +:+
  newline +:+
  match file with
  | Some f => if String.eqb f "" then "" else "- **Active file:** " +:+ f +:+ newline
  | None => ""
  end +:+
  newline +:+
  "*All file metadata and samples were collected and would be sent to the backend.*".

Definition notImplementedNote (analysis : option WorkspaceAnalysis.t) : string :=
  newline +:+ newline +:+
  "**Note:** The backend `/query` endpoint is not yet implemented (404 error)." +:+
  newline +:+ "The extension has successfully collected " +:+
  numberToString (match analysis with
                  | Some a => WorkspaceAnalysis.fileCount a
                  | None => 0%Z
                  end) +:+
  " files from your workspace." +:+
  newline +:+
  "Once the backend implements the `/query` endpoint, this context will be sent automatically.".

Definition troubleshooting : string :=
  newline +:+ newline +:+ "**Troubleshooting:**" +:+ newline +:+
  "1. Ensure your backend is running: `docker compose up`" +:+ newline +:+
  "2. Test connection: Run " +:+ dquote +:+
  "AI Code Snippet RAG: Test Connection" +:+ dquote +:+ " command" +:+ newline +:+
  "3. Check backend URL in settings (default: http://localhost:8000)".

Definition outputPanelHint : string :=
  newline +:+ newline +:+
  "Please check the Output panel (AI Code Snippet RAG) for detailed logs.".

(** The [catch] clause of [handleChatRequest]: the markdown it shows. *)
Definition errorMarkdown (error : Error.t) (analysis : option WorkspaceAnalysis.t)
  (file : option string) : string :=
  let errorMessage := "**Error:** " +:+ messageText error in
  let errorMessage :=
    match analysis with
    | Some a => errorMessage +:+ contextSection a file
    | None => errorMessage
    end in
  let errorMessage :=
    if messageIncludes error "Cannot connect to backend" || messageIncludes error "404"
    then errorMessage +:+ notImplementedNote analysis
    else if messageIncludes error "Cannot connect to backend"
    then errorMessage +:+ troubleshooting
    else errorMessage in
  errorMessage +:+ outputPanelHint.

(** [handleChatRequest]: the markdown given to [response.markdown] (once
    on every path) and the cache after the request. *)
Definition handleChatRequest (ws : Workspace.t) (analysisCache : Cache)
  (activeTextEditor : option TextEditor.t)
  (fetch : string -> QueryRequest.t -> FetchOutcome (Num := Num))
  (prompt : string) : string * Cache :=
  match analyzeWorkspace ws analysisCache with
  | (None, cache) =>
      ("Error: Could not analyze workspace. Please ensure a workspace is open.", cache)
  | (Some analysis, cache) =>
      let editorContext := getActiveEditorContext ws activeTextEditor in
      match sendQuery (Workspace.configuration ws) fetch prompt analysis
              (fst editorContext) (snd editorContext) with
      | Throw error => (errorMarkdown error (Some analysis) (fst editorContext), cache)
      | Ok queryResponse =>
          if negb (truthy (Some queryResponse)) then
            ("Error: No response from backend. Please check the connection and try again.",
             cache)
          else
            match renderResponse queryResponse with
            | Ok markdown => (markdown, cache)
            | Throw error =>
                (errorMarkdown error (Some analysis) (fst editorContext), cache)
            end
      end
  end.

End ChatParticipant.

End Extension.

(** ** The webview provider (webviewProvider.ts)

    The provider imports [analyzeWorkspace], [getActiveEditorContext],
    [sendQuery], [renderResponse], [testConnection] and [rebuildAnalysis]
    from extension.ts, which exports [activate] and [deactivate] only.  At
    run time each of these names is [undefined], and calling it throws a
    [TypeError] in the turn of the call, before anything is awaited. *)

Module HistoryEntry.
Inductive Role := user | assistant.
Record t := mk {
  role : Role;
  content : string;
  timestamp : Z
}.
End HistoryEntry.

Inductive ConnectionStatus := connected | disconnected | checking.

(** The fields of a [WebviewProvider] that its handlers read and write;
    [_webview] tells whether [resolveWebviewView] has set the view. *)
Module WebviewProvider.
Record t := mk {
  _webview : bool;
  _conversationHistory : list HistoryEntry.t;
  _connectionStatus : ConnectionStatus
}.

(** [new WebviewProvider(context)] *)
Definition new : t := mk false [] disconnected.
End WebviewProvider.

Section Webview.
Import JS Extension.
Context {Num : Type} `{JSNumber Num}.

(** [name(args)] for a [name] imported from extension.ts. *)
Definition callImported {Args A : Type} (name : string) (args : Args) : Result A :=
  Throw (typeError (name +:+ " is not a function")).

(** The messages posted to the webview, one constructor for each [type];
    the arguments are the [data].  [postMessage] serialises its argument, so
    a message holds the history as it is when it is posted. *)
Inductive WebviewMessage :=
| PostConversationHistory (data : list HistoryEntry.t)
| PostQueryLoading (data : bool)
| PostQueryResponse (response : string) (answers : option (Value Num))
| PostError (data : option string)
| PostConnectionStatus (data : ConnectionStatus)
| PostAnalysisRebuilt (data : bool).

(** [_sendToWebview]: the messages that reach the webview. *)
Definition _sendToWebview (this : WebviewProvider.t) (message : WebviewMessage)
  : list WebviewMessage :=
  if WebviewProvider._webview this then [message] else [].

(** [this._conversationHistory.push(entry)] *)
Definition push (this : WebviewProvider.t) (entry : HistoryEntry.t)
  : WebviewProvider.t :=
  WebviewProvider.mk (WebviewProvider._webview this)
    ((WebviewProvider._conversationHistory this ++ [entry])%list)
    (WebviewProvider._connectionStatus this).

(** The [catch] clause of [_handleQuery]. *)
Definition queryFailed (this : WebviewProvider.t) (error : Error.t) (now : Z)
  : WebviewProvider.t * list WebviewMessage :=
  let errorMessage := "**Error:** " +:+ messageText error in
  let this := push this (HistoryEntry.mk HistoryEntry.assistant errorMessage now) in
  (this,
   (_sendToWebview this (PostError (Error.message error)) ++
    _sendToWebview this
      (PostConversationHistory (WebviewProvider._conversationHistory this)))%list).

(** The [try] block of [_handleQuery] up to [renderResponse]: the markdown
    and the response. *)
Definition handleQueryTry (queryText : string) : Result (string * Value Num) :=
  analysis ← callImported (A := option WorkspaceAnalysis.t) "analyzeWorkspace" tt;
  match analysis with
  | None =>
      Throw (newError "Could not analyze workspace. Please ensure a workspace is open.")
  | Some analysis =>
      editorContext ←
        callImported (A := option string * option Selection.t)
          "getActiveEditorContext" tt;
      queryResponse ←
        callImported (A := Value Num) "sendQuery"
          (queryText, analysis, fst editorContext, snd editorContext);
      if negb (truthy (Some queryResponse)) then
        Throw (newError "No response from backend. Please check the connection and try again.")
      else
        markdown ← callImported (A := string) "renderResponse" queryResponse;
        Ok (markdown, queryResponse)
  end.

(** [_handleQuery]: the provider and the messages posted when the handler
    has run.  [clock n] is what the call number [n] of [Date.now()]
    returns. *)
Definition _handleQuery (clock : nat -> Z) (this : WebviewProvider.t)
  (queryText : string) : WebviewProvider.t * list WebviewMessage :=
  if String.eqb queryText "" || String.eqb (trim queryText) "" then (this, [])
  else
    let this :=
      push this (HistoryEntry.mk HistoryEntry.user queryText (clock 0%nat)) in
    let posted :=
      (_sendToWebview this
         (PostConversationHistory (WebviewProvider._conversationHistory this)) ++
       _sendToWebview this (PostQueryLoading true))%list in
    let finally (r : WebviewProvider.t * list WebviewMessage) :=
      (fst r,
       (posted ++ snd r ++ _sendToWebview (fst r) (PostQueryLoading false))%list) in
    match handleQueryTry queryText with
    | Throw error => finally (queryFailed this error (clock 1%nat))
    | Ok (markdown, queryResponse) =>
        let this :=
          push this (HistoryEntry.mk HistoryEntry.assistant markdown (clock 1%nat)) in
        match getProperty queryResponse "answers" with
        | Throw error => finally (queryFailed this error (clock 2%nat))
        | Ok answers =>
            finally
              (this,
               (_sendToWebview this (PostQueryResponse markdown answers) ++
                _sendToWebview this
                  (PostConversationHistory
                     (WebviewProvider._conversationHistory this)))%list)
        end
    end.

Definition statusOf (isConnected : bool) : ConnectionStatus :=
  if isConnected then connected else disconnected.

Definition setStatus (this : WebviewProvider.t) (status : ConnectionStatus)
  : WebviewProvider.t :=
  WebviewProvider.mk (WebviewProvider._webview this)
    (WebviewProvider._conversationHistory this) status.

(** [_handleTestConnection]: the provider, the messages posted, and how the
    promise of the handler settles. *)
Definition _handleTestConnection (this : WebviewProvider.t)
  : WebviewProvider.t * list WebviewMessage * Result unit :=
  let this := setStatus this checking in
  let posted := _sendToWebview this (PostConnectionStatus checking) in
  match callImported (A := bool) "testConnection" tt with
  | Throw error => (this, posted, Throw error)
  | Ok isConnected =>
      let this := setStatus this (statusOf isConnected) in
      (this,
       (posted ++ _sendToWebview this (PostConnectionStatus (statusOf isConnected)))%list,
       Ok tt)
  end.

(** [_updateConnectionStatus] *)
Definition _updateConnectionStatus (this : WebviewProvider.t)
  : WebviewProvider.t * list WebviewMessage * Result unit :=
  match callImported (A := bool) "testConnection" tt with
  | Throw error => (this, [], Throw error)
  | Ok isConnected =>
      let this := setStatus this (statusOf isConnected) in
      (this, _sendToWebview this (PostConnectionStatus (statusOf isConnected)), Ok tt)
  end.

(** [_handleRebuildAnalysis] *)
Definition _handleRebuildAnalysis (this : WebviewProvider.t)
  : list WebviewMessage * Result unit :=
  match callImported (A := unit) "rebuildAnalysis" tt with
  | Throw error => ([], Throw error)
  | Ok _ => (_sendToWebview this (PostAnalysisRebuilt true), Ok tt)
  end.

(** The messages of the webview that [_handleMessage] passes to the handlers
    above: [query] with its text and the clock of that turn,
    [testConnection] and [rebuildAnalysis]. *)
Inductive Incoming :=
| InQuery (clock : nat -> Z) (data : string)
| InTestConnection
| InRebuildAnalysis.

(** [_handleMessage]: the provider and the messages posted. *)
Definition _handleMessage (this : WebviewProvider.t) (message : Incoming)
  : WebviewProvider.t * list WebviewMessage :=
  match message with
  | InQuery clock data => _handleQuery clock this data
  | InTestConnection =>
      let r := _handleTestConnection this in (fst (fst r), snd (fst r))
  | InRebuildAnalysis => (this, fst (_handleRebuildAnalysis this))
  end.

(** The provider after a sequence of messages, and all that was posted, in
    order.  No handler reaches an [await] before it ends, so each message is
    handled in the turn in which it arrives. *)
Fixpoint handleMessages (this : WebviewProvider.t) (messages : list Incoming)
  : WebviewProvider.t * list WebviewMessage :=
  match messages with
  | [] => (this, [])
  | message :: rest =>
      let r := _handleMessage this message in
      let r' := handleMessages (fst r) rest in
      (fst r', (snd r ++ snd r')%list)
  end.

End Webview.

(** * Vocabulary of the properties *)

Section Vocabulary.
Import JS Extension.
Context {Num : Type} `{JSNumber Num}.

(** Two records with the same path, size and mtime. *)
Definition sameTriple (f g : FileInfo.t) : Prop :=
  FileInfo.path f = FileInfo.path g /\
  FileInfo.size f = FileInfo.size g /\
  FileInfo.mtime f = FileInfo.mtime g.

(** After the spec: a path is sensitive when, lower-cased and with forward
    slashes, its base name is [.env] or starts with [.env.], contains
    [secrets] or [credentials], starts with [id_rsa], or ends in [.pfx],
    [.pem], [.key] or [.p12], or when its directory part contains [secrets]
    or [credentials]. *)
Definition matchesSensitivePattern (filePath : string) : bool :=
  let normalized := replaceBackslashes (toLowerCase filePath) in
  let base := path.basename normalized in
  let dir := path.dirname normalized in
  String.eqb base ".env" || startsWith base ".env." ||
  includes base "secrets" || includes base "credentials" ||
  startsWith base "id_rsa" ||
  endsWith base ".pfx" || endsWith base ".pem" ||
  endsWith base ".key" || endsWith base ".p12" ||
  includes dir "secrets" || includes dir "credentials".

(** No record of the analysis has a sensitive path. *)
Definition noSensitive (a : WorkspaceAnalysis.t) : Prop :=
  Forall (fun f => isSensitiveFile (FileInfo.path f) = false) (WorkspaceAnalysis.files a).

(** [fileCount] is the number of records. *)
Definition countsFiles (a : WorkspaceAnalysis.t) : Prop :=
  WorkspaceAnalysis.fileCount a = Z.of_nat (length (WorkspaceAnalysis.files a)).

(** The key [analyzeWorkspace] and [rebuildAnalysis] compute: the URI of
    [workspaceFolders?.[0]]. *)
Definition cacheKeyOf (ws : Workspace.t) : option string :=
  match head (Workspace.workspaceFolders ws) with
  | Some workspaceFolder => Some (Uri.toString (WorkspaceFolder.uri workspaceFolder))
  | None => None
  end.

(** The events that invalidate the entry of [key]: a rebuild for that key,
    and the two handlers that clear the map. *)
Definition invalidates (key : string) (ev : Event) : Prop :=
  match ev with
  | EvAnalyze _ => False
  | EvRebuild ws => cacheKeyOf ws = Some key
  | EvFoldersChanged => True
  | EvDeactivate => True
  end.

(** The actions that invalidate the entry of [key]: a rebuild for that key,
    and the two handlers that clear the map. *)
Definition invalidatesAction (key : string) (a : Action) : Prop :=
  match a with
  | ActCall _ => False
  | ActResume _ _ => False
  | ActRebuild ws => cacheKeyOf ws = Some key
  | ActFoldersChanged => True
  | ActDeactivate => True
  end.

(** No call of [analyzeWorkspace] for [key] is in flight. *)
Definition noCallInFlight (key : string) (s : Running.t) : Prop :=
  Forall (fun call => InFlight.cacheKey call <> key) (Running.calls s).

(** A parsed response object with no answers: the field is absent, [null]
    or the empty list. *)
Definition noAnswers (data : Value Num) : Prop :=
  match data with
  | VObject fields =>
      match lookupField fields "answers" with
      | None => True
      | Some VNull => True
      | Some (VArray []) => True
      | Some _ => False
      end
  | _ => False
  end.

(** The file reference of an answer as it is printed: its path and its line
    range. *)
Definition fileReference (a : QueryAnswer.t Num) : string :=
  "**" +:+ QueryAnswer.file a +:+ "** (lines " +:+
  num_toString (QueryAnswer.start_line a) +:+ "-" +:+
  num_toString (QueryAnswer.end_line a) +:+ ")".

(** After the spec: the text of one answer is its file reference, its score,
    its code in a fence tagged with the language of the file ([text] when
    unknown), its explanation when there is one, and a separator. *)
Definition answerBlock (a : QueryAnswer.t Num) : string :=
  fileReference a +:+
  " [score: " +:+ num_toFixed2 (QueryAnswer.score a) +:+ "]" +:+ newline +:+ newline +:+
  "```" +:+ default "text" (getLanguageId (QueryAnswer.file a)) +:+ newline +:+
  QueryAnswer.code a +:+ newline +:+ "```" +:+ newline +:+ newline +:+
  (if String.eqb (QueryAnswer.explanation a) "" then ""
   else QueryAnswer.explanation a +:+ newline +:+ newline) +:+
  "---" +:+ newline +:+ newline.

(** After the spec: the blocks of the answers one after the other, in the
    order of the list; the fixed message when there is none. *)
Definition concatBlocks (blocks : list string) : string :=
  foldr String.append "" blocks.

Definition renderedText (answers : list (QueryAnswer.t Num)) : string :=
  match answers with
  | [] => "No results found."
  | _ => concatBlocks (map answerBlock answers)
  end.

(** [needle] occurs in [hay] at offset [i]. *)
Definition occursAt (needle hay : string) (i : nat) : Prop :=
  exists pre post, hay = pre +:+ needle +:+ post /\ String.length pre = i.

(** [needle] occurs somewhere in [hay]. *)
Definition occursIn (needle hay : string) : Prop :=
  exists pre post, hay = pre +:+ needle +:+ post.

(** Where the block of the [i]-th answer starts. *)
Definition blockOffset (answers : list (QueryAnswer.t Num)) (i : nat) : nat :=
  String.length (concatBlocks (map answerBlock (take i answers))).

(** An element of an answer list that cannot be rendered: [null], or a
    value whose [file] is not a string, or whose [score] is not a number. *)
Definition malformedAnswer (x : Value Num) : Prop :=
  x = VNull \/
  (forall s, getProperty x "file" <> Ok (Some (VString s))) \/
  (forall n, getProperty x "score" <> Ok (Some (VNumber n))).

End Vocabulary.

(** * Further vocabulary *)

Section Inventory.
Import JS Extension.

(** [c] occurs in [s]. *)
Fixpoint hasChar (c : ascii) (s : string) : bool :=
  match s with
  | EmptyString => false
  | String x r => Ascii.eqb x c || hasChar c r
  end.

(** A path without a line feed. *)
Definition noLineBreak (s : string) : Prop := hasChar "010" s = false.

(** A file name: not empty, no separator of either style. *)
Definition isFileName (s : string) : Prop :=
  s <> "" /\ hasChar "/" s = false /\ hasChar "\" s = false.

(** The form in which [isSensitiveFile] looks at a path. *)
Definition normalized (filePath : string) : string :=
  replaceBackslashes (toLowerCase filePath).

(** What the fingerprint reads of a record. *)
Definition tripleOf (f : FileInfo.t) : string * Z * Z :=
  (FileInfo.path f, FileInfo.size f, FileInfo.mtime f).

(** The text that [computeFingerprint] hashes. *)
Definition fingerprintText (files : list FileInfo.t) : string :=
  join newline (sort (map fingerprintEntry files)).

(** The checks [isSensitiveFile] makes on the base name. *)
Definition nameCheck (base : string) : bool :=
  String.eqb base ".env" || startsWith base ".env." ||
  includes base "secrets" || includes base "credentials" ||
  startsWith base "id_rsa" ||
  endsWith base ".pfx" || endsWith base ".pem" ||
  endsWith base ".key" || endsWith base ".p12".

(** One record that stands for two: its path is the hashed line of [f], a
    line feed and the path of [g]; size and mtime are those of [g]. *)
Definition mergedRecord (f g : FileInfo.t) : FileInfo.t :=
  FileInfo.mk (fingerprintEntry f +:+ newline +:+ FileInfo.path g)
    (FileInfo.size g) (FileInfo.mtime g) None None.

(** What can follow the first line of a text: nothing, or a line feed and
    the rest. *)
Definition lineTail (t : string) : Prop :=
  t = "" \/ exists r, t = newline +:+ r.

(** The extension of a path as the analyzer and [getLanguageId] look it up. *)
Definition extensionOf (filePath : string) : string :=
  toLowerCase (path.extname filePath).

(** What every analysis that [buildAnalysis] makes satisfies, whatever the
    configuration: the fingerprint is that of its records, each record has
    the language of its path, and a record with a sample has an extension
    of the allow-list, a language id and a size above zero. *)
Definition wellFormed (a : WorkspaceAnalysis.t) : Prop :=
  WorkspaceAnalysis.fingerprint a = computeFingerprint (WorkspaceAnalysis.files a) /\
  Forall (fun f =>
            FileInfo.languageId f = getLanguageId (FileInfo.path f) /\
            (is_Some (FileInfo.sample f) ->
             extensionOf (FileInfo.path f) ∈ TEXT_FILE_EXTENSIONS /\
             is_Some (FileInfo.languageId f) /\
             (0 < FileInfo.size f)%Z))
         (WorkspaceAnalysis.files a).

(** [u] and [p] differ at a position that both have. *)
Fixpoint mismatch (u p : string) : bool :=
  match u, p with
  | String c u', String d p' => if Ascii.eqb c d then mismatch u' p' else true
  | _, _ => false
  end.

(** No occurrence of [p] can start inside [a], whatever follows [a]: every
    suffix of [a] differs from [p] at a position that both have. *)
Fixpoint cannotStart (a p : string) : bool :=
  match a with
  | EmptyString => true
  | String _ a' => mismatch a p && cannotStart a' p
  end.

(** A character of a lower-case hexadecimal numeral. *)
Definition isHexDigit (c : ascii) : bool := hasChar c "0123456789abcdef".

Fixpoint allChars (P : ascii -> bool) (s : string) : bool :=
  match s with
  | EmptyString => true
  | String c r => P c && allChars P r
  end.

(** A text of white space only (the empty text included). *)
Definition isBlank (s : string) : bool := allChars isWhiteSpace s.

Definition roleIs (r : HistoryEntry.Role) (entry : HistoryEntry.t) : bool :=
  match HistoryEntry.role entry, r with
  | HistoryEntry.user, HistoryEntry.user
  | HistoryEntry.assistant, HistoryEntry.assistant => true
  | _, _ => false
  end.

(** A history made of exchanges: an entry of the user, then one of the
    assistant, and so on. *)
Fixpoint exchanges (history : list HistoryEntry.t) : bool :=
  match history with
  | [] => true
  | question :: rest =>
      match rest with
      | [] => false
      | answer :: rest' =>
          roleIs HistoryEntry.user question &&
          roleIs HistoryEntry.assistant answer && exchanges rest'
      end
  end.

(** An entry of the user, or an entry of the assistant that reports an
    error. *)
Definition noAnswerEntry (entry : HistoryEntry.t) : bool :=
  roleIs HistoryEntry.user entry ||
  String.prefix "**Error:** " (HistoryEntry.content entry).

End Inventory.

Section WebviewVocabulary.
Import JS Extension.
Context {Num : Type} `{JSNumber Num}.

(** What the webview is told about the outcome of a query, and the text of
    the assistant's entry that goes with it. *)
Definition outcomeText (message : WebviewMessage (Num := Num)) : option string :=
  match message with
  | PostQueryResponse response _ => Some response
  | PostError data => Some ("**Error:** " +:+ default "undefined" data)
  | _ => None
  end.

End WebviewVocabulary.

(** * A small workspace and backend to run the model on *)

Module Demo.
Import JS Extension.

Definition folder : WorkspaceFolder.t :=
  WorkspaceFolder.mk "demo" (Uri.mk "file:///demo" "/demo").

Definition uriOf (relativePath : string) : Uri.t :=
  Uri.mk ("file:///demo/" +:+ relativePath) ("/demo/" +:+ relativePath).

(** Four files are found although [maxFiles] is 2; every file holds the
    eleven characters [hello world]; samples are cut at 5 characters. *)
Definition workspace : Workspace.t :=
  Workspace.mk
    [folder]
    (Configuration.mk "http://localhost:8000" 20000%Z 2%Z 5%Z)
    (fun _ _ _ => Some [uriOf ".env"; uriOf "a.ts"; uriOf "b.ts"; uriOf "c.ts"])
    (fun fileUri =>
       String.substring 6 (String.length (Uri.fsPath fileUri) - 6) (Uri.fsPath fileUri))
    (fun _ => Some (FileStat.mk 11%Z 1000%Z))
    (fun _ => Some "hello world").

(** The same workspace with [maxFiles] set to -1, outside the documented
    range of the setting. *)
Definition negativeLimit : Workspace.t :=
  Workspace.mk
    (Workspace.workspaceFolders workspace)
    (Configuration.mk "http://localhost:8000" 20000%Z (-1)%Z 5%Z)
    (Workspace.findFiles workspace)
    (Workspace.asRelativePath workspace)
    (Workspace.stat workspace)
    (Workspace.readFile workspace).

(** The same workspace under another [maxFiles]. *)
Definition withMaxFiles (maxFiles : Z) : Workspace.t :=
  Workspace.mk
    (Workspace.workspaceFolders workspace)
    (Configuration.mk "http://localhost:8000" 20000%Z maxFiles 5%Z)
    (Workspace.findFiles workspace)
    (Workspace.asRelativePath workspace)
    (Workspace.stat workspace)
    (Workspace.readFile workspace).

(** The same workspace after its files were saved again: a later [mtime]. *)
Definition edited : Workspace.t :=
  Workspace.mk
    (Workspace.workspaceFolders workspace)
    (Workspace.configuration workspace)
    (Workspace.findFiles workspace)
    (Workspace.asRelativePath workspace)
    (fun _ => Some (FileStat.mk 11%Z 2000%Z))
    (Workspace.readFile workspace).

(** Another window: a different first folder. *)
Definition otherWorkspace : Workspace.t :=
  Workspace.mk
    [WorkspaceFolder.mk "other" (Uri.mk "file:///other" "/other")]
    Configuration.default
    (fun _ _ _ => Some [])
    Uri.fsPath
    (fun _ => None)
    (fun _ => None).

Definition fileA : FileInfo.t :=
  FileInfo.mk "a.ts" 11%Z 1000%Z (Some "typescript") (Some "hello").

Definition analysis : WorkspaceAnalysis.t :=
  WorkspaceAnalysis.mk "demo" "/demo" (computeFingerprint [fileA]) 1%Z [fileA].

(** The analysis of [edited]. *)
Definition fileAEdited : FileInfo.t :=
  FileInfo.mk "a.ts" 11%Z 2000%Z (Some "typescript") (Some "hello").

Definition editedAnalysis : WorkspaceAnalysis.t :=
  WorkspaceAnalysis.mk "demo" "/demo" (computeFingerprint [fileAEdited]) 1%Z
    [fileAEdited].

(** The two records of scenario A. *)
Definition scenarioA : list FileInfo.t :=
  [ FileInfo.mk "a.ts" 100%Z 1000%Z (Some "typescript") None;
    FileInfo.mk "b.ts" 200%Z 2000%Z (Some "typescript") (Some "export {}") ].

(** A backend that answers 200 with the given body. *)
Definition backendReturning (data : Value Z) : string -> QueryRequest.t -> FetchOutcome :=
  fun _ _ => Resolved (mkResponse 200%Z (Ok data) (Ok "")).

(** A backend that never answers: the timer aborts the request. *)
Definition backendTimingOut : string -> QueryRequest.t -> FetchOutcome (Num := Z) :=
  fun _ _ => Rejected (Error.mk "AbortError" (Some "This operation was aborted") None).

Definition emptyResponse : Value Z := VObject [("answers", VArray [])].

(** A body whose [answers] is an object, not a list. *)
Definition malformedResponse : Value Z := VObject [("answers", VObject [])].

Definition answers : list (QueryAnswer.t Z) :=
  [ QueryAnswer.mk "src/b.ts" 10%Z 20%Z "let b = 2;" 7%Z "second file first";
    QueryAnswer.mk "src/a.ts" 1%Z 3%Z "let a = 1;" 9%Z "";
    QueryAnswer.mk "src/b.ts" 10%Z 20%Z "let b = 2;" 7%Z "second file first" ].

(** No folder is open. *)
Definition noFolder : Workspace.t :=
  Workspace.mk []
    Configuration.default
    (fun _ _ _ => Some [])
    Uri.fsPath
    (fun _ => None)
    (fun _ => None).

(** The editor on [a.ts] with the lines 3 to 5 selected (2 to 4, counted
    from zero). *)
Definition editor : TextEditor.t :=
  TextEditor.mk (uriOf "a.ts")
    (EditorSelection.mk (Position.mk 2%Z 0%Z) (Position.mk 4%Z 7%Z)).

(** A backend that cannot be reached. *)
Definition backendUnreachable : string -> QueryRequest.t -> FetchOutcome (Num := Z) :=
  fun _ _ => Rejected (Error.mk "TypeError" (Some "fetch failed") None).

(** A backend that answers 500 with a text. *)
Definition failure : Response (Num := Z) :=
  mkResponse 500%Z (Throw (Error.mk "SyntaxError" (Some "Unexpected token") None))
    (Ok "Internal Server Error").

Definition backendFailing : string -> QueryRequest.t -> FetchOutcome (Num := Z) :=
  fun _ _ => Resolved failure.

(** A provider whose view is resolved, before any message. *)
Definition provider : WebviewProvider.t := WebviewProvider.mk true [] disconnected.

Definition clock (n : nat) : Z := (1700000000000 + Z.of_nat n)%Z.

End Demo.

(** * Checks of the model on concrete inputs *)


Example basename_ex1 : JS.path.basename "src/a/b.ts" = "b.ts". Proof. reflexivity. Qed.
Example basename_ex2 : JS.path.basename "a/b//" = "b". Proof. reflexivity. Qed.
Example basename_ex3 : JS.path.basename "/" = "". Proof. reflexivity. Qed.
Example dirname_ex1 : JS.path.dirname "src/a/b.ts" = "src/a". Proof. reflexivity. Qed.
Example dirname_ex2 : JS.path.dirname "b.ts" = ".". Proof. reflexivity. Qed.
Example dirname_ex3 : JS.path.dirname "/b.ts" = "/". Proof. reflexivity. Qed.
Example dirname_ex4 : JS.path.dirname "a/b/" = "a". Proof. reflexivity. Qed.
Example dirname_ex5 : JS.path.dirname "//a" = "//". Proof. reflexivity. Qed.
Example dirname_ex6 : JS.path.dirname "a//b" = "a/". Proof. reflexivity. Qed.
Example extname_ex1 : JS.path.extname "src/a/b.TS" = ".TS". Proof. reflexivity. Qed.
Example extname_ex2 : JS.path.extname ".env" = "". Proof. reflexivity. Qed.
Example extname_ex3 : JS.path.extname "a/.env.local" = ".local". Proof. reflexivity. Qed.
Example extname_ex4 : JS.path.extname "index." = ".". Proof. reflexivity. Qed.
Example extname_ex5 : JS.path.extname ".." = "". Proof. reflexivity. Qed.
Example extname_ex6 : JS.path.extname "..." = ".". Proof. reflexivity. Qed.
Example extname_ex7 : JS.path.extname "a.b/c" = "". Proof. reflexivity. Qed.
Example num_ex1 : JS.numberToString 20000 = "20000". Proof. reflexivity. Qed.
Example num_ex2 : JS.numberToString (-5) = "-5". Proof. reflexivity. Qed.
Example num_ex3 : JS.numberToString 0 = "0". Proof. reflexivity. Qed.
Example slice_ex1 : JS.slice0 [1;2;3;4] 2 = [1;2]. Proof. reflexivity. Qed.
Example slice_ex2 : JS.slice0 [1;2;3;4] (-1) = [1;2;3]. Proof. reflexivity. Qed.
Example slice_ex3 : JS.slice0 [1;2;3;4] 9 = [1;2;3;4]. Proof. reflexivity. Qed.
Example sort_ex1 : JS.sort ["b|1|2"; "a|10|3"; "B"; "a|1|3"] = ["B"; "a|10|3"; "a|1|3"; "b|1|2"].
Proof. vm_compute. reflexivity. Qed.
Example sha256_K_ends :
  head JS.sha256.K = Some 0x428a2f98%Z /\ last JS.sha256.K = Some 0xc67178f2%Z /\
  length JS.sha256.K = 64 /\
  head JS.sha256.H0 = Some 0x6a09e667%Z /\ last JS.sha256.H0 = Some 0x5be0cd19%Z.
Proof. vm_compute. repeat split. Qed.
Example sha256_empty :
  JS.sha256.hashHex "" = "e3b0c44298fc1c149afbf4c8996fb92427ae41e4649b934ca495991b7852b855".
Proof. vm_compute. reflexivity. Qed.
Example sha256_abc :
  JS.sha256.hashHex "abc" = "ba7816bf8f01cfea414140de5dae2223b00361a396177a9cb410ff61f20015ad".
Proof. vm_compute. reflexivity. Qed.
Example sha256_two_blocks :
  JS.sha256.hashHex "abcdbcdecdefdefgefghfghighijhijkijkljklmklmnlmnomnopnopq"
  = "248d6a61d20638b8e5c026930c3e6039a33ce45964ff2167f6ecedd419db06c1".
Proof. vm_compute. reflexivity. Qed.
Example lang_ex1 : Extension.getLanguageId "src/App.TSX" = Some "typescriptreact".
Proof. vm_compute. reflexivity. Qed.
Example lang_ex2 : Extension.getLanguageId "Makefile" = None.
Proof. vm_compute. reflexivity. Qed.
Example sensitive_ex1 : Extension.isSensitiveFile ".env" = true.
Proof. vm_compute. reflexivity. Qed.
Example sensitive_ex2 : Extension.isSensitiveFile "config/secrets.yaml" = true.
Proof. vm_compute. reflexivity. Qed.
Example sensitive_ex3 : Extension.isSensitiveFile "My-Credentials\notes.md" = true.
Proof. vm_compute. reflexivity. Qed.
Example sensitive_ex4 : Extension.isSensitiveFile "src/index.ts" = false.
Proof. vm_compute. reflexivity. Qed.
Example sensitive_ex5 : Extension.isSensitiveFile "certs/SERVER.PEM" = true.
Proof. vm_compute. reflexivity. Qed.

(** * Properties *)

Section Fingerprint.
Import Extension.

(** The default comparator orders strings totally, so a sorted arrangement of
    given strings is unique. *)
Lemma sort_permutation (l1 l2 : list string) :
  l1 ≡ₚ l2 -> JS.sort l1 = JS.sort l2.
Proof.
  intros Hp. unfold JS.sort.
  apply (Sorted_unique String.le).
  - apply Sorted_merge_sort; apply _.
  - apply Sorted_merge_sort; apply _.
  - rewrite !merge_sort_Permutation. exact Hp.
Qed.

Lemma fingerprintEntry_sameTriple (f g : FileInfo.t) :
  sameTriple f g -> fingerprintEntry f = fingerprintEntry g.
Proof.
  intros (Hp & Hs & Hm). unfold fingerprintEntry. by rewrite Hp, Hs, Hm.
Qed.

(** C1. The fingerprint of a list of records and of any permutation of it
    are the same digest: the order of discovery does not matter. *)
Theorem computeFingerprint_permutation (files files' : list FileInfo.t) :
  files ≡ₚ files' -> computeFingerprint files = computeFingerprint files'.
Proof.
  intros Hp. unfold computeFingerprint.
  rewrite (sort_permutation (map fingerprintEntry files) (map fingerprintEntry files')).
  - reflexivity.
  - by apply Permutation_map.
Qed.

(** C2. Two lists that agree record by record on path, size and mtime have
    the same fingerprint, whatever their samples and language ids. *)
Theorem computeFingerprint_ignores_sample (files files' : list FileInfo.t) :
  Forall2 sameTriple files files' ->
  computeFingerprint files = computeFingerprint files'.
Proof.
  intros Hall. unfold computeFingerprint.
  replace (map fingerprintEntry files') with (map fingerprintEntry files);
    [reflexivity|].
  induction Hall as [|f g l l' Hfg _ IH]; simpl; [reflexivity|].
  by rewrite (fingerprintEntry_sameTriple f g Hfg), IH.
Qed.

End Fingerprint.

Section Analysis.
Import Extension.

(** The loop pushes, in order, the record of every file it does not skip. *)
Lemma collectFileInfos_omap ws maxBytesPerFile (files : list Uri.t) :
  collectFileInfos ws maxBytesPerFile files
  = omap (processFile ws maxBytesPerFile) files.
Proof.
  unfold collectFileInfos.
  set (body := fun fileInfos fileUri => _).
  enough (forall acc, fold_left body files acc
                      = (acc ++ omap (processFile ws maxBytesPerFile) files)%list)
    as Hgen by apply (Hgen []).
  induction files as [|u files IH]; intros acc; simpl.
  - by rewrite app_nil_r.
  - rewrite IH. unfold body.
    destruct (processFile ws maxBytesPerFile u); simpl; [|done].
    by rewrite <- app_assoc.
Qed.

Lemma processFile_Some ws maxBytesPerFile fileUri f :
  processFile ws maxBytesPerFile fileUri = Some f ->
  FileInfo.path f = Workspace.asRelativePath ws fileUri /\
  isSensitiveFile (FileInfo.path f) = false.
Proof.
  unfold processFile.
  destruct (isSensitiveFile _) eqn:Hs; [discriminate|].
  destruct (Workspace.stat ws fileUri); [|discriminate].
  intros [= <-]. simpl. by rewrite Hs.
Qed.

Lemma buildAnalysis_files ws folder a :
  buildAnalysis ws folder = Some a ->
  exists files,
    Workspace.findFiles ws "**/*" excludePattern
      (Configuration.maxFiles (Workspace.configuration ws)) = Some files /\
    WorkspaceAnalysis.files a
    = omap (processFile ws (Configuration.maxBytesPerFile (Workspace.configuration ws)))
        (JS.slice0 files (Configuration.maxFiles (Workspace.configuration ws))) /\
    WorkspaceAnalysis.fileCount a = Z.of_nat (length (WorkspaceAnalysis.files a)).
Proof.
  unfold buildAnalysis.
  destruct (Workspace.findFiles _ _ _ _) as [files|]; [|discriminate].
  intros [= <-]. exists files. simpl.
  by rewrite collectFileInfos_omap.
Qed.

Lemma buildAnalysis_noSensitive ws folder a :
  buildAnalysis ws folder = Some a -> noSensitive a.
Proof.
  intros (files & _ & Hfiles & _)%buildAnalysis_files.
  unfold noSensitive. rewrite Hfiles. apply Forall_forall.
  intros f (u & _ & Hu)%list_elem_of_omap.
  by apply processFile_Some in Hu as [_ ?].
Qed.

Lemma buildAnalysis_countsFiles ws folder a :
  buildAnalysis ws folder = Some a -> countsFiles a.
Proof. by intros (files & _ & _ & ?)%buildAnalysis_files. Qed.

(** What [analyzeWorkspace] does, case by case. *)
Lemma analyzeWorkspace_no_folder ws c :
  head (Workspace.workspaceFolders ws) = None ->
  analyzeWorkspace ws c = (None, c).
Proof. unfold analyzeWorkspace. by intros ->. Qed.

Lemma analyzeWorkspace_hit ws c folder a :
  head (Workspace.workspaceFolders ws) = Some folder ->
  c !! Uri.toString (WorkspaceFolder.uri folder) = Some a ->
  analyzeWorkspace ws c = (Some a, c).
Proof. unfold analyzeWorkspace. by intros -> ->. Qed.

Lemma analyzeWorkspace_miss ws c folder :
  head (Workspace.workspaceFolders ws) = Some folder ->
  c !! Uri.toString (WorkspaceFolder.uri folder) = None ->
  analyzeWorkspace ws c
  = match buildAnalysis ws folder with
    | Some a => (Some a, <[Uri.toString (WorkspaceFolder.uri folder) := a]> c)
    | None => (None, c)
    end.
Proof. unfold analyzeWorkspace. by intros -> ->. Qed.

(** A property of every analysis that [buildAnalysis] makes holds of every
    analysis that the cache ever holds or [analyzeWorkspace] ever returns. *)
Section Invariant.
Variable P : WorkspaceAnalysis.t -> Prop.
Hypothesis P_built : forall ws folder a, buildAnalysis ws folder = Some a -> P a.

Lemma analyzeWorkspace_preserves ws (c : Cache) :
  map_Forall (fun _ => P) c ->
  map_Forall (fun _ => P) (snd (analyzeWorkspace ws c)) /\
  (forall a, fst (analyzeWorkspace ws c) = Some a -> P a).
Proof.
  intros Hc. unfold analyzeWorkspace.
  destruct (head _) as [folder|]; simpl; [|by split].
  destruct (c !! _) as [cached|] eqn:Hget; simpl.
  - split; [done|]. intros a [= <-]. by eapply Hc.
  - destruct (buildAnalysis ws folder) as [a|] eqn:Hb; simpl; [|by split].
    split.
    + apply map_Forall_insert_2; [by eapply P_built | done].
    + intros ? [= <-]. by eapply P_built.
Qed.

Lemma rebuildAnalysis_preserves ws (c : Cache) :
  map_Forall (fun _ => P) c -> map_Forall (fun _ => P) (rebuildAnalysis ws c).
Proof.
  intros Hc. unfold rebuildAnalysis.
  destruct (head _) as [folder|]; [|done].
  apply analyzeWorkspace_preserves. by apply map_Forall_delete.
Qed.

Lemma step_preserves (c : Cache) ev :
  map_Forall (fun _ => P) c -> map_Forall (fun _ => P) (step c ev).
Proof.
  intros Hc. destruct ev as [ws|ws| |]; simpl.
  - by apply analyzeWorkspace_preserves.
  - by apply rebuildAnalysis_preserves.
  - apply map_Forall_empty.
  - apply map_Forall_empty.
Qed.

Lemma run_invariant evs : map_Forall (fun _ => P) (run evs).
Proof.
  unfold run.
  enough (forall c : Cache, map_Forall (fun _ => P) c ->
                            map_Forall (fun _ => P) (fold_left step evs c)) as Hgen
    by (apply Hgen, map_Forall_empty).
  induction evs as [|ev evs IH]; intros c Hc; simpl; [done|].
  by apply IH, step_preserves.
Qed.

Lemma analyzeWorkspace_reachable evs ws a :
  fst (analyzeWorkspace ws (run evs)) = Some a -> P a.
Proof. apply analyzeWorkspace_preserves, run_invariant. Qed.

End Invariant.

Lemma includes_startsWith (s p : string) :
  JS.startsWith s p || JS.includes s p = JS.includes s p.
Proof.
  unfold JS.startsWith. destruct (String.prefix p s) eqn:Hp; [|done].
  destruct s; simpl in *; by rewrite Hp.
Qed.

(** The classifier of the source accepts exactly the paths the spec lists. *)
Lemma isSensitiveFile_spec (filePath : string) :
  isSensitiveFile filePath = matchesSensitivePattern filePath.
Proof.
  unfold isSensitiveFile, matchesSensitivePattern.
  cbv zeta. rewrite !includes_startsWith.
  set (base := JS.path.basename _). set (dir := JS.path.dirname _).
  destruct (String.eqb base ".env"); [done|].
  destruct (JS.startsWith base ".env."); [done|].
  destruct (JS.includes base "secrets"); [done|].
  destruct (JS.startsWith base "id_rsa"); [by rewrite !orb_true_r|].
  destruct (JS.endsWith base ".pfx"); [by rewrite !orb_true_r|].
  destruct (JS.endsWith base ".pem"); [by rewrite !orb_true_r|].
  destruct (JS.endsWith base ".key"); [by rewrite !orb_true_r|].
  destruct (JS.endsWith base ".p12"); [by rewrite !orb_true_r|].
  destruct (JS.includes base "credentials"); [done|].
  destruct (JS.includes dir "secrets"); [done|].
  by destruct (JS.includes dir "credentials").
Qed.

(** C3. Whatever happened to the cache before, an analysis that
    [analyzeWorkspace] returns holds no record for a path that matches a
    sensitive pattern, whatever the extension of that path; so it holds no
    sample of such a file either. *)
Theorem analyzeWorkspace_excludes_sensitive evs ws analysis (p : string) :
  fst (analyzeWorkspace ws (run evs)) = Some analysis ->
  matchesSensitivePattern p = true ->
  Forall (fun f => FileInfo.path f <> p) (WorkspaceAnalysis.files analysis).
Proof.
  intros Ha Hp. rewrite <- isSensitiveFile_spec in Hp.
  pose proof (analyzeWorkspace_reachable noSensitive buildAnalysis_noSensitive
                evs ws analysis Ha) as Hclean.
  unfold noSensitive in Hclean.
  eapply Forall_impl; [exact Hclean|].
  intros f Hf Heq. simpl in Hf. rewrite Heq, Hp in Hf. discriminate.
Qed.

End Analysis.

Section Sampling.
Import Extension.

Lemma substring0_length (s : string) (n : nat) :
  n <= String.length s -> String.length (String.substring 0 n s) = n.
Proof.
  revert n. induction s as [|c s IH]; intros [|n] Hn; simpl in *; try lia.
  rewrite IH; lia.
Qed.

Lemma substring0_prefix (s : string) (n : nat) :
  String.prefix (String.substring 0 n s) s = true.
Proof.
  revert n. induction s as [|c s IH]; intros [|n]; simpl; try done.
  destruct (ascii_dec c c); [apply IH | done].
Qed.

(** The sample of a text, by cases on its length. *)
Lemma sampleOf_spec (text : string) (maxBytesPerFile : Z) :
  (0 <= maxBytesPerFile)%Z ->
  ((Z.of_nat (String.length text) > maxBytesPerFile)%Z ->
     Z.of_nat (String.length (sampleOf text maxBytesPerFile)) = maxBytesPerFile /\
     String.prefix (sampleOf text maxBytesPerFile) text = true) /\
  ((Z.of_nat (String.length text) <= maxBytesPerFile)%Z ->
     sampleOf text maxBytesPerFile = text).
Proof.
  intros Hmax. unfold sampleOf, JS.substring0. split; intros HL.
  - destruct (Z.gtb_spec (Z.of_nat (String.length text)) maxBytesPerFile); [|lia].
    split; [|apply substring0_prefix].
    rewrite substring0_length; lia.
  - destruct (Z.gtb_spec (Z.of_nat (String.length text)) maxBytesPerFile); [lia|done].
Qed.

(** C5. A file that is not sensitive, has an extension of the allow-list and
    a size within the sampling gate, and whose content reads as [text], gets
    a record in the analysis whose sample is the first [maxBytesPerFile]
    characters of [text] when [text] is longer than that, and [text] itself
    otherwise. *)
Theorem sample_truncation ws folder (files : list Uri.t) fileUri st text :
  let maxFiles := Configuration.maxFiles (Workspace.configuration ws) in
  let maxBytesPerFile := Configuration.maxBytesPerFile (Workspace.configuration ws) in
  let relativePath := Workspace.asRelativePath ws fileUri in
  Workspace.findFiles ws "**/*" excludePattern maxFiles = Some files ->
  fileUri ∈ JS.slice0 files maxFiles ->
  isSensitiveFile relativePath = false ->
  Workspace.stat ws fileUri = Some st ->
  JS.toLowerCase (JS.path.extname relativePath) ∈ TEXT_FILE_EXTENSIONS ->
  (0 < FileStat.size st <= maxBytesPerFile * 10)%Z ->
  Workspace.readFile ws fileUri = Some text ->
  exists analysis f s,
    buildAnalysis ws folder = Some analysis /\
    f ∈ WorkspaceAnalysis.files analysis /\
    FileInfo.path f = relativePath /\
    FileInfo.sample f = Some s /\
    ((Z.of_nat (String.length text) > maxBytesPerFile)%Z ->
       Z.of_nat (String.length s) = maxBytesPerFile /\
       String.prefix s text = true) /\
    ((Z.of_nat (String.length text) <= maxBytesPerFile)%Z -> s = text).
Proof.
  intros maxFiles maxBytesPerFile relativePath Hfind Hin Hsens Hstat Hext Hsize Hread.
  set (f := FileInfo.mk relativePath (FileStat.size st) (FileStat.mtime st)
              (getLanguageId relativePath) (Some (sampleOf text maxBytesPerFile))).
  assert (Hproc : processFile ws maxBytesPerFile fileUri = Some f).
  { unfold processFile. fold relativePath. rewrite Hsens, Hstat, Hread.
    rewrite bool_decide_eq_true_2 by exact Hext.
    replace (FileStat.size st >? 0)%Z with true by (symmetry; apply Z.gtb_lt; lia).
    replace (FileStat.size st <=? maxBytesPerFile * 10)%Z with true
      by (symmetry; apply Z.leb_le; lia).
    reflexivity. }
  destruct (buildAnalysis ws folder) as [analysis|] eqn:Hb.
  2:{ unfold buildAnalysis in Hb. fold maxFiles in Hb. by rewrite Hfind in Hb. }
  exists analysis, f, (sampleOf text maxBytesPerFile).
  split; [done|].
  apply buildAnalysis_files in Hb as (files' & Hfind' & Hfiles & _).
  fold maxFiles in Hfind'. rewrite Hfind in Hfind'. injection Hfind' as <-.
  split.
  { rewrite Hfiles. apply list_elem_of_omap. by exists fileUri. }
  split; [done|]. split; [done|].
  apply sampleOf_spec. lia.
Qed.

Lemma omap_length_le {A B} (g : A -> option B) (l : list A) :
  length (omap g l) <= length l.
Proof.
  induction l as [|x l IH]; csimpl; [lia|].
  destruct (g x); csimpl; lia.
Qed.

Lemma slice0_length_le {A} (l : list A) (e : Z) :
  (0 <= e)%Z -> (Z.of_nat (length (JS.slice0 l e)) <= e)%Z.
Proof.
  intros He. unfold JS.slice0.
  destruct (Z.ltb_spec e 0); [lia|].
  rewrite length_take. lia.
Qed.

(** C6. An analysis that [analyzeWorkspace] returns has a [fileCount] equal
    to the number of its records; and when the call computes it (the cache
    holds none for the folder) under [maxFiles = N], with [N] not negative,
    it has at most [N] records, however many files the workspace has. *)
Theorem analyzeWorkspace_maxFiles evs ws analysis :
  fst (analyzeWorkspace ws (run evs)) = Some analysis ->
  WorkspaceAnalysis.fileCount analysis
  = Z.of_nat (length (WorkspaceAnalysis.files analysis)) /\
  ((0 <= Configuration.maxFiles (Workspace.configuration ws))%Z ->
   (forall key, cacheKeyOf ws = Some key -> run evs !! key = None) ->
   (Z.of_nat (length (WorkspaceAnalysis.files analysis))
    <= Configuration.maxFiles (Workspace.configuration ws))%Z).
Proof.
  intros Hrun. split.
  { exact (analyzeWorkspace_reachable countsFiles buildAnalysis_countsFiles
             evs ws analysis Hrun). }
  intros Hmax Hmiss. unfold cacheKeyOf in Hmiss.
  destruct (head (Workspace.workspaceFolders ws)) as [folder|] eqn:Hfolder.
  2:{ by rewrite (analyzeWorkspace_no_folder ws _ Hfolder) in Hrun. }
  rewrite (analyzeWorkspace_miss ws _ folder Hfolder (Hmiss _ eq_refl)) in Hrun.
  destruct (buildAnalysis ws folder) as [a|] eqn:Hb; [|discriminate].
  injection Hrun as <-.
  apply buildAnalysis_files in Hb as (files & _ & Hfiles & _).
  rewrite Hfiles.
  pose proof (omap_length_le
    (processFile ws (Configuration.maxBytesPerFile (Workspace.configuration ws)))
    (JS.slice0 files (Configuration.maxFiles (Workspace.configuration ws)))).
  pose proof (slice0_length_le files _ Hmax). lia.
Qed.

End Sampling.

Section CacheProperties.
Import Extension.

Lemma cacheKeyOf_Some ws key :
  cacheKeyOf ws = Some key ->
  exists folder, head (Workspace.workspaceFolders ws) = Some folder /\
                 Uri.toString (WorkspaceFolder.uri folder) = key.
Proof.
  unfold cacheKeyOf. destruct (head _) as [folder|]; [|discriminate].
  intros [= <-]. by exists folder.
Qed.

Lemma analyzeWorkspace_frame ws (c : Cache) (k : string) :
  cacheKeyOf ws <> Some k -> snd (analyzeWorkspace ws c) !! k = c !! k.
Proof.
  unfold cacheKeyOf, analyzeWorkspace.
  destruct (head _) as [folder|]; [|done].
  intros Hne. destruct (c !! _); [done|].
  destruct (buildAnalysis ws folder); [|done].
  simpl. apply lookup_insert_ne. congruence.
Qed.

Lemma rebuildAnalysis_frame ws (c : Cache) (k : string) :
  cacheKeyOf ws <> Some k -> rebuildAnalysis ws c !! k = c !! k.
Proof.
  intros Hne. unfold rebuildAnalysis.
  destruct (head _) as [folder|] eqn:Hhead; [|done].
  rewrite analyzeWorkspace_frame by done.
  apply lookup_delete_ne. unfold cacheKeyOf in Hne. rewrite Hhead in Hne. congruence.
Qed.

Lemma analyzeWorkspace_served ws (c : Cache) key a :
  cacheKeyOf ws = Some key -> c !! key = Some a ->
  analyzeWorkspace ws c = (Some a, c).
Proof.
  intros (folder & Hhead & <-)%cacheKeyOf_Some Hget.
  by apply analyzeWorkspace_hit with folder.
Qed.

Lemma analyzeWorkspace_stores ws (c : Cache) key a :
  cacheKeyOf ws = Some key -> fst (analyzeWorkspace ws c) = Some a ->
  snd (analyzeWorkspace ws c) !! key = Some a.
Proof.
  intros (folder & Hhead & <-)%cacheKeyOf_Some. unfold analyzeWorkspace.
  rewrite Hhead. destruct (c !! _) as [cached|] eqn:Hget; simpl.
  - by intros [= <-].
  - destruct (buildAnalysis ws folder); simpl; [|discriminate].
    intros [= <-]. apply lookup_insert_eq.
Qed.

Lemma rebuildAnalysis_entry ws (c : Cache) folder :
  head (Workspace.workspaceFolders ws) = Some folder ->
  rebuildAnalysis ws c !! Uri.toString (WorkspaceFolder.uri folder)
  = buildAnalysis ws folder.
Proof.
  intros Hhead. unfold rebuildAnalysis. rewrite Hhead.
  rewrite (analyzeWorkspace_miss ws _ folder Hhead) by apply lookup_delete_eq.
  destruct (buildAnalysis ws folder); simpl.
  - apply lookup_insert_eq.
  - apply lookup_delete_eq.
Qed.

Lemma step_keeps (c : Cache) key a ev :
  c !! key = Some a -> ~ invalidates key ev -> step c ev !! key = Some a.
Proof.
  intros Hget Hev. destruct ev as [ws|ws| |]; simpl in *; [| |tauto|tauto].
  - destruct (decide (cacheKeyOf ws = Some key)) as [Hk|Hk].
    + by rewrite (analyzeWorkspace_served ws c key a).
    + by rewrite analyzeWorkspace_frame.
  - by rewrite rebuildAnalysis_frame.
Qed.

Lemma steps_keep evs (c : Cache) key a :
  c !! key = Some a -> Forall (fun ev => ~ invalidates key ev) evs ->
  fold_left step evs c !! key = Some a.
Proof.
  revert c. induction evs as [|ev evs IH]; intros c Hget Hevs; simpl; [done|].
  inversion Hevs; subst. apply IH; [|done]. by apply step_keeps.
Qed.

Lemma startCall_hit ws (s : Running.t) key a :
  cacheKeyOf ws = Some key -> Running.cache s !! key = Some a -> startCall ws s = s.
Proof.
  intros Hk Hget. apply cacheKeyOf_Some in Hk as (folder & Hhead & <-).
  unfold startCall. by rewrite Hhead, Hget.
Qed.

Lemma startCall_keeps ws (s : Running.t) key a :
  Running.cache s !! key = Some a -> noCallInFlight key s ->
  Running.cache (startCall ws s) !! key = Some a /\ noCallInFlight key (startCall ws s).
Proof.
  intros Hget Hcalls. unfold startCall.
  destruct (head (Workspace.workspaceFolders ws)) as [folder|]; [|done].
  destruct (Running.cache s !! Uri.toString (WorkspaceFolder.uri folder)) eqn:Hmiss;
    [done|].
  split; [exact Hget|]. apply Forall_app. split; [exact Hcalls|].
  constructor; [|constructor]. unfold InFlight.cacheKey. cbn.
  intros Heq. rewrite Heq in Hmiss. congruence.
Qed.

Lemma finishCall_frame call ws (c : Cache) key :
  InFlight.cacheKey call <> key -> finishCall call ws c !! key = c !! key.
Proof.
  intros Hne. unfold finishCall.
  destruct (buildAnalysis _ _); [|done]. by apply lookup_insert_ne.
Qed.

Lemma act_keeps (s : Running.t) key a action :
  ~ invalidatesAction key action ->
  Running.cache s !! key = Some a -> noCallInFlight key s ->
  Running.cache (act s action) !! key = Some a /\ noCallInFlight key (act s action).
Proof.
  intros Hinv Hget Hcalls.
  destruct action as [ws|i ws|ws| |]; cbn [act invalidatesAction] in *;
    [| | |tauto|tauto].
  - by apply startCall_keeps.
  - destruct (Running.calls s !! i) as [call|] eqn:Hcall; [|done].
    cbn [Running.cache Running.calls]. split.
    + rewrite finishCall_frame; [exact Hget|].
      exact (proj1 (Forall_lookup _ _) Hcalls i call Hcall).
    + by apply Forall_delete.
  - unfold cacheKeyOf in Hinv.
    destruct (head (Workspace.workspaceFolders ws)) as [folder|]; [|done].
    apply startCall_keeps; [|exact Hcalls].
    cbn [Running.cache]. rewrite lookup_delete_ne; [exact Hget|].
    intros Heq. apply Hinv. by rewrite Heq.
Qed.

Lemma acts_keep acts (s : Running.t) key a :
  Forall (fun action => ~ invalidatesAction key action) acts ->
  Running.cache s !! key = Some a -> noCallInFlight key s ->
  Running.cache (fold_left act acts s) !! key = Some a /\
  noCallInFlight key (fold_left act acts s).
Proof.
  revert s. induction acts as [|action acts IH]; intros s Hacts Hget Hcalls;
    cbn [fold_left]; [done|].
  inversion Hacts; subst.
  destruct (act_keeps s key a action) as [Hget' Hcalls']; [done..|].
  by apply IH.
Qed.

(** Calls that do not overlap: an event of [step] is its actions run from
    a state with no call in flight, and leaves none in flight. *)
Lemma actionsOf_step (c : Cache) (ev : Event) :
  fold_left act (actionsOf ev) (Running.mk c []) = Running.mk (step c ev) [].
Proof.
  assert (Hcall : forall ws (c' : Cache),
            act (startCall ws (Running.mk c' [])) (ActResume 0 ws)
            = Running.mk (snd (analyzeWorkspace ws c')) []).
  { intros ws c'. unfold startCall, analyzeWorkspace. cbn [Running.cache Running.calls].
    destruct (head (Workspace.workspaceFolders ws)) as [folder|]; [|done].
    destruct (c' !! Uri.toString (WorkspaceFolder.uri folder)); [done|].
    cbn [act Running.calls Running.cache app lookup list_lookup].
    unfold finishCall, InFlight.cacheKey. cbn [InFlight.workspaceFolder].
    change (buildAnalysis (seenBy _ ws) folder) with (buildAnalysis ws folder).
    by destruct (buildAnalysis ws folder). }
  destruct ev as [ws|ws| |]; cbn [actionsOf fold_left step]; [| |done|done].
  - cbn [act]. apply Hcall.
  - cbn [act Running.cache Running.calls]. unfold rebuildAnalysis.
    destruct (head (Workspace.workspaceFolders ws)) as [folder|]; [|done].
    apply Hcall.
Qed.

Lemma actionsOf_run (evs : list Event) :
  fold_left act (concat (map actionsOf evs)) Running.initial = Running.mk (run evs) [].
Proof.
  unfold run, Running.initial. generalize (∅ : Cache) as c.
  induction evs as [|ev evs IH]; intros c; [done|].
  cbn [map concat]. rewrite fold_left_app, actionsOf_step. apply IH.
Qed.

(** C4. Calls of [analyzeWorkspace] can overlap, and rebuilds, folder
    changes and deactivation can fall between them, in any order.  If [A]
    is stored under [key] at a moment when no call for [key] is in flight,
    then, as long as no action invalidates the entry, the entry of [key]
    stays [A] and no call for [key] gets in flight: a call for that key
    returns [A], leaves the cache as it is and starts no computation.  A
    rebuild for [key] and either clear leave the key absent. *)
Theorem cache_serves_until_invalidated (key : string) (A : WorkspaceAnalysis.t)
    (s : Running.t) (acts : list Action) :
  Running.cache s !! key = Some A ->
  noCallInFlight key s ->
  Forall (fun action => ~ invalidatesAction key action) acts ->
  let s' := fold_left act acts s in
  Running.cache s' !! key = Some A /\
  noCallInFlight key s' /\
  (forall ws, cacheKeyOf ws = Some key ->
     analyzeWorkspace ws (Running.cache s') = (Some A, Running.cache s') /\
     act s' (ActCall ws) = s') /\
  (forall ws, cacheKeyOf ws = Some key ->
     Running.cache (act s' (ActRebuild ws)) !! key = None) /\
  Running.cache (act s' ActFoldersChanged) !! key = None /\
  Running.cache (act s' ActDeactivate) !! key = None.
Proof.
  intros Hget Hcalls Hacts s'.
  destruct (acts_keep acts s key A Hacts Hget Hcalls) as [Hget' Hcalls'].
  fold s' in Hget', Hcalls'.
  split; [exact Hget'|]. split; [exact Hcalls'|]. split.
  { intros ws Hk. split.
    - by apply analyzeWorkspace_served with key.
    - by apply startCall_hit with key A. }
  split.
  { intros ws Hk. apply cacheKeyOf_Some in Hk as (folder & Hhead & <-).
    cbn [act]. rewrite Hhead. unfold startCall. rewrite Hhead.
    cbn [Running.cache]. rewrite lookup_delete_eq. apply lookup_delete_eq. }
  split; apply lookup_empty.
Qed.

(** C10. [analyzeWorkspace] and the rebuild command leave the entry of every
    key other than the URI of the first workspace folder as it was, and what
    [analyzeWorkspace] returns depends on the cache through that one entry
    only; the folder-change handler and [deactivate] empty the map. *)
Theorem cache_frame ws (c : Cache) (k : string) :
  cacheKeyOf ws <> Some k ->
  snd (analyzeWorkspace ws c) !! k = c !! k /\
  rebuildAnalysis ws c !! k = c !! k /\
  (forall c2 : Cache,
      (forall key, cacheKeyOf ws = Some key -> c2 !! key = c !! key) ->
      fst (analyzeWorkspace ws c2) = fst (analyzeWorkspace ws c)) /\
  step c EvFoldersChanged = ∅ /\
  step c EvDeactivate = ∅.
Proof.
  intros Hne.
  split; [by apply analyzeWorkspace_frame|].
  split; [by apply rebuildAnalysis_frame|].
  split; [|done].
  intros c2 Hsame. unfold cacheKeyOf in Hsame. unfold analyzeWorkspace.
  destruct (head _) as [folder|]; [|done].
  rewrite (Hsame _ eq_refl).
  destruct (c !! _); [done|]. by destruct (buildAnalysis ws folder).
Qed.

End CacheProperties.

Section QueryProperties.
Import JS Extension.
Context {Num : Type} `{JSNumber Num}.

Lemma prefix_append (p s : string) : String.prefix p (p +:+ s) = true.
Proof.
  induction p as [|c p IH]; simpl; [by destruct s|].
  destruct (ascii_dec c c); [exact IH | done].
Qed.

Lemma includes_prefix (s p : string) :
  String.prefix p s = true -> includes s p = true.
Proof. intros Hp. destruct s; simpl in *; by rewrite Hp. Qed.



End QueryProperties.

Section RendererProperties.
Import JS Extension.
Context {Num : Type} `{JSNumber Num}.

Lemma logAnswerCount_noAnswers (data : Value Num) :
  noAnswers data -> logAnswerCount data = Ok tt.
Proof.
  destruct data as [| | | | |fields]; simpl; try done.
  unfold logAnswerCount. simpl.
  destruct (lookupField fields "answers") as [[| | | |[|]|]|]; simpl; done.
Qed.

Lemma sendQuery_returns_body (config : Configuration.t)
    (fetch : string -> QueryRequest.t -> FetchOutcome (Num := Num))
    query analysis activeFile selection response data :
  fetch (Configuration.serverUrl config +:+ "/query")
        (requestOf query analysis activeFile selection) = Resolved response ->
  ok response = true ->
  json response = Ok data ->
  logAnswerCount data = Ok tt ->
  sendQuery config fetch query analysis activeFile selection = Ok data.
Proof.
  intros Hfetch Hok Hjson Hlog. unfold sendQuery. rewrite Hfetch.
  unfold queryTry. rewrite Hok, Hjson. simpl. by rewrite Hlog.
Qed.

Lemma renderResponse_noAnswers (data : Value Num) :
  noAnswers data -> renderResponse data = Ok "No results found.".
Proof.
  destruct data as [| | | | |fields]; simpl; try done.
  unfold renderResponse. simpl.
  destruct (lookupField fields "answers") as [[| | | |[|]|]|]; simpl; done.
Qed.

(** C7 (as amended). For a 2xx response whose body parses to an object
    whose answers are absent, [null] or the empty list, [sendQuery] returns
    that object and throws nothing, and [renderResponse] returns exactly
    [No results found.]. *)
Theorem empty_answers_tolerated (config : Configuration.t)
    (fetch : string -> QueryRequest.t -> FetchOutcome (Num := Num))
    query analysis activeFile selection response data :
  fetch (Configuration.serverUrl config +:+ "/query")
        (requestOf query analysis activeFile selection) = Resolved response ->
  ok response = true ->
  json response = Ok data ->
  noAnswers data ->
  sendQuery config fetch query analysis activeFile selection = Ok data /\
  renderResponse data = Ok "No results found.".
Proof.
  intros Hfetch Hok Hjson Hno. split.
  - eapply sendQuery_returns_body; [done..|]. by apply logAnswerCount_noAnswers.
  - by apply renderResponse_noAnswers.
Qed.

End RendererProperties.

Section RendererOrder.
Import JS Extension.
Context {Num : Type} `{JSNumber Num}.

Lemma append_assoc (a b c : string) : (a +:+ b) +:+ c = a +:+ b +:+ c.
Proof.
  induction a as [|x a IH]; [done|].
  change ((String x a +:+ b) +:+ c) with (String x ((a +:+ b) +:+ c)).
  by rewrite IH.
Qed.

Lemma append_empty_r (a : string) : a +:+ "" = a.
Proof.
  induction a as [|x a IH]; [done|].
  change (String x a +:+ "") with (String x (a +:+ "")). by rewrite IH.
Qed.

Lemma append_length (a b : string) :
  String.length (a +:+ b) = String.length a + String.length b.
Proof.
  induction a as [|x a IH]; [done|].
  change (String x a +:+ b) with (String x (a +:+ b)). simpl. by rewrite IH.
Qed.

Lemma concatBlocks_app (l1 l2 : list string) :
  concatBlocks (l1 ++ l2) = concatBlocks l1 +:+ concatBlocks l2.
Proof.
  induction l1 as [|b l1 IH]; simpl; [done|].
  by rewrite IH, append_assoc.
Qed.

Lemma renderAnswer_wellformed (a : QueryAnswer.t Num) :
  renderAnswer (QueryAnswer.toValue a) = Ok (answerBlock a).
Proof.
  destruct a as [file start_line end_line code score explanation].
  unfold renderAnswer, answerBlock, fileReference, QueryAnswer.toValue.
  cbn [getProperty lookupField String.eqb Ascii.eqb Bool.eqb
       QueryAnswer.file QueryAnswer.start_line QueryAnswer.end_line
       QueryAnswer.code QueryAnswer.score QueryAnswer.explanation
       mbind Result_bind getLanguageIdOf toStringOpt toString toFixed2 truthy].
  rewrite !append_assoc.
  destruct (String.eqb explanation ""); cbn [negb mbind Result_bind];
    rewrite ?append_assoc; reflexivity.
Qed.

Lemma renderAnswers_wellformed (markdown : string) (answers : list (QueryAnswer.t Num)) :
  renderAnswers markdown (map QueryAnswer.toValue answers)
  = Ok (markdown +:+ concatBlocks (map answerBlock answers)).
Proof.
  revert markdown. induction answers as [|a answers IH]; intros markdown; simpl.
  - by rewrite append_empty_r.
  - rewrite renderAnswer_wellformed. unfold mbind, Result_bind.
    rewrite IH. by rewrite append_assoc.
Qed.

Lemma renderResponse_wellformed (answers : list (QueryAnswer.t Num)) :
  renderResponse (responseOf answers) = Ok (renderedText answers).
Proof.
  unfold renderResponse, responseOf.
  cbn [getProperty lookupField String.eqb Ascii.eqb Bool.eqb mbind Result_bind
       truthy negb orb].
  destruct answers as [|a answers]; [reflexivity|].
  cbn [map lengthIsZero iterate mbind Result_bind].
  change (QueryAnswer.toValue a :: map QueryAnswer.toValue answers)
    with (map QueryAnswer.toValue (a :: answers)).
  by rewrite renderAnswers_wellformed.
Qed.

Lemma answerBlock_nonempty (a : QueryAnswer.t Num) :
  0 < String.length (answerBlock a).
Proof.
  unfold answerBlock, fileReference. rewrite !append_length.
  change (String.length "**") with 2. lia.
Qed.

Lemma concatBlocks_take_lt (blocks : list string) (i j : nat) :
  Forall (fun b => 0 < String.length b) blocks ->
  i < j -> j <= length blocks ->
  String.length (concatBlocks (take i blocks))
  < String.length (concatBlocks (take j blocks)).
Proof.
  intros Hpos. revert i j.
  induction Hpos as [|b blocks Hb _ IH]; intros i j Hij Hj.
  - simpl in Hj. lia.
  - destruct j as [|j]; [lia|].
    change (take (S j) (b :: blocks)) with (b :: take j blocks).
    change (concatBlocks (b :: take j blocks)) with (b +:+ concatBlocks (take j blocks)).
    rewrite append_length.
    destruct i as [|i].
    + change (String.length (concatBlocks (take 0 (b :: blocks)))) with 0. lia.
    + change (take (S i) (b :: blocks)) with (b :: take i blocks).
      change (concatBlocks (b :: take i blocks)) with (b +:+ concatBlocks (take i blocks)).
      rewrite append_length.
      cbn [length] in Hj.
      specialize (IH i j). lia.
Qed.

Lemma blockOffset_mono (answers : list (QueryAnswer.t Num)) (i j : nat) :
  i < j -> j < length answers -> blockOffset answers i < blockOffset answers j.
Proof.
  intros Hij Hj. unfold blockOffset. rewrite <- !firstn_map.
  apply concatBlocks_take_lt; [|done|rewrite List.length_map; lia].
  apply List.Forall_map, Forall_forall. intros a _. apply answerBlock_nonempty.
Qed.

Lemma blockOffset_occurs (answers : list (QueryAnswer.t Num)) (i : nat) a :
  answers !! i = Some a ->
  occursAt (answerBlock a) (concatBlocks (map answerBlock answers))
           (blockOffset answers i).
Proof.
  intros Hi. unfold occursAt, blockOffset.
  exists (concatBlocks (map answerBlock (take i answers))),
         (concatBlocks (map answerBlock (drop (S i) answers))).
  split; [|done].
  rewrite <- (take_drop_middle answers i a Hi) at 1.
  rewrite map_app, concatBlocks_app. reflexivity.
Qed.

Lemma answerBlock_fields (a : QueryAnswer.t Num) :
  occursIn (fileReference a) (answerBlock a) /\
  occursIn (num_toFixed2 (QueryAnswer.score a)) (answerBlock a) /\
  occursIn (QueryAnswer.code a) (answerBlock a) /\
  (QueryAnswer.explanation a <> "" ->
   occursIn (QueryAnswer.explanation a) (answerBlock a)).
Proof.
  unfold occursIn, answerBlock. repeat split.
  - exists "". eexists. reflexivity.
  - exists (fileReference a +:+ " [score: "). eexists.
    rewrite !append_assoc. reflexivity.
  - exists (fileReference a +:+ " [score: " +:+ num_toFixed2 (QueryAnswer.score a)
            +:+ "]" +:+ newline +:+ newline +:+ "```"
            +:+ default "text" (getLanguageId (QueryAnswer.file a)) +:+ newline).
    eexists. rewrite !append_assoc. reflexivity.
  - intros Hne. apply String.eqb_neq in Hne. rewrite Hne.
    exists (fileReference a +:+ " [score: " +:+ num_toFixed2 (QueryAnswer.score a)
            +:+ "]" +:+ newline +:+ newline +:+ "```"
            +:+ default "text" (getLanguageId (QueryAnswer.file a)) +:+ newline
            +:+ QueryAnswer.code a +:+ newline +:+ "```" +:+ newline +:+ newline).
    eexists. rewrite !append_assoc. reflexivity.
Qed.

Lemma answerBlock_opens (a : QueryAnswer.t Num) :
  exists rest, answerBlock a = fileReference a +:+ rest.
Proof. unfold answerBlock. eexists. reflexivity. Qed.

(** C8. For a well-formed answer list, [renderResponse] returns the blocks
    of the answers one after the other in the order of the list (the fixed
    message when the list is empty).  The block of the [i]-th answer, which
    opens with its file reference and line range and contains its score, its
    code and its explanation when there is one, stands at [blockOffset i],
    and these offsets are strictly increasing: no answer is moved, dropped
    or merged. *)
Theorem renderResponse_order_preserving (answers : list (QueryAnswer.t Num)) :
  renderResponse (responseOf answers) = Ok (renderedText answers) /\
  (forall i a, answers !! i = Some a ->
     occursAt (answerBlock a) (renderedText answers) (blockOffset answers i) /\
     occursAt (fileReference a) (renderedText answers) (blockOffset answers i)) /\
  (forall i j, i < j -> j < length answers ->
     blockOffset answers i < blockOffset answers j) /\
  (forall a,
     occursIn (fileReference a) (answerBlock a) /\
     occursIn (num_toFixed2 (QueryAnswer.score a)) (answerBlock a) /\
     occursIn (QueryAnswer.code a) (answerBlock a) /\
     (QueryAnswer.explanation a <> "" ->
      occursIn (QueryAnswer.explanation a) (answerBlock a))).
Proof.
  split; [apply renderResponse_wellformed|].
  split; [|split; [apply blockOffset_mono | apply answerBlock_fields]].
  intros i a Hi.
  assert (Hblock : occursAt (answerBlock a) (renderedText answers)
                            (blockOffset answers i)).
  { destruct answers as [|a0 answers]; [by rewrite lookup_nil in Hi|].
    by apply blockOffset_occurs. }
  split; [exact Hblock|].
  destruct Hblock as (pre & post & Htext & Hpre).
  destruct (answerBlock_opens a) as [rest Hopen].
  exists pre, (rest +:+ post). split; [|exact Hpre].
  by rewrite Htext, Hopen, append_assoc.
Qed.

End RendererOrder.

(** * The properties on the demo workspace and backend *)

Section DemoRuns.
Import JS Extension.

Example scenarioA_fingerprint :
  computeFingerprint Demo.scenarioA
  = "7689da8c5c06202901c79ff01227488b5d0f28dd36b2bf2bc04a4d3ba120a71b".
Proof. vm_compute. reflexivity. Qed.

Example demo_analysis :
  analyzeWorkspace Demo.workspace ∅
  = (Some Demo.analysis, {[ "file:///demo" := Demo.analysis ]}).
Proof. vm_compute. reflexivity. Qed.

Lemma computeFingerprint_permutation_demo :
  Demo.scenarioA ≡ₚ reverse Demo.scenarioA /\
  computeFingerprint Demo.scenarioA = computeFingerprint (reverse Demo.scenarioA).
Proof.
  split.
  - apply perm_swap.
  - apply (computeFingerprint_permutation Demo.scenarioA (reverse Demo.scenarioA)).
    apply perm_swap.
Defined.

Lemma computeFingerprint_ignores_sample_demo :
  Forall2 sameTriple Demo.scenarioA
    [ FileInfo.mk "a.ts" 100 1000 None (Some "let a = 1;");
      FileInfo.mk "b.ts" 200 2000 (Some "typescript") None ] /\
  computeFingerprint Demo.scenarioA
  = computeFingerprint
      [ FileInfo.mk "a.ts" 100 1000 None (Some "let a = 1;");
        FileInfo.mk "b.ts" 200 2000 (Some "typescript") None ].
Proof.
  assert (Hsame : Forall2 sameTriple Demo.scenarioA
            [ FileInfo.mk "a.ts" 100 1000 None (Some "let a = 1;");
              FileInfo.mk "b.ts" 200 2000 (Some "typescript") None ]).
  { repeat constructor. }
  split; [exact Hsame|].
  exact (computeFingerprint_ignores_sample _ _ Hsame).
Defined.

Lemma analyzeWorkspace_excludes_sensitive_demo :
  (fst (analyzeWorkspace Demo.workspace (run [EvAnalyze Demo.workspace]))
   = Some Demo.analysis /\
   matchesSensitivePattern ".env" = true) /\
  Forall (fun f => FileInfo.path f <> ".env") (WorkspaceAnalysis.files Demo.analysis).
Proof.
  assert (Hrun : fst (analyzeWorkspace Demo.workspace (run [EvAnalyze Demo.workspace]))
                 = Some Demo.analysis) by (vm_compute; reflexivity).
  assert (Hp : matchesSensitivePattern ".env" = true) by (vm_compute; reflexivity).
  split; [by split|].
  exact (analyzeWorkspace_excludes_sensitive
           [EvAnalyze Demo.workspace] Demo.workspace Demo.analysis ".env" Hrun Hp).
Defined.

Lemma cache_serves_until_invalidated_demo :
  (Running.cache
     (fold_left act [ActCall Demo.workspace; ActResume 0 Demo.workspace] Running.initial)
     !! "file:///demo" = Some Demo.analysis /\
   noCallInFlight "file:///demo"
     (fold_left act [ActCall Demo.workspace; ActResume 0 Demo.workspace] Running.initial) /\
   Forall (fun action => ~ invalidatesAction "file:///demo" action)
     [ActCall Demo.edited; ActRebuild Demo.otherWorkspace; ActCall Demo.otherWorkspace;
      ActResume 0 Demo.edited; ActResume 0 Demo.otherWorkspace]) /\
  Running.cache
    (fold_left act
       [ActCall Demo.edited; ActRebuild Demo.otherWorkspace; ActCall Demo.otherWorkspace;
        ActResume 0 Demo.edited; ActResume 0 Demo.otherWorkspace]
       (fold_left act [ActCall Demo.workspace; ActResume 0 Demo.workspace]
          Running.initial))
    !! "file:///demo" = Some Demo.analysis.
Proof.
  assert (Hget : Running.cache
            (fold_left act [ActCall Demo.workspace; ActResume 0 Demo.workspace]
               Running.initial) !! "file:///demo" = Some Demo.analysis)
    by (vm_compute; reflexivity).
  assert (Hcalls : noCallInFlight "file:///demo"
            (fold_left act [ActCall Demo.workspace; ActResume 0 Demo.workspace]
               Running.initial))
    by exact (Forall_nil_2 _).
  assert (Hacts : Forall (fun action => ~ invalidatesAction "file:///demo" action)
            [ActCall Demo.edited; ActRebuild Demo.otherWorkspace;
             ActCall Demo.otherWorkspace; ActResume 0 Demo.edited;
             ActResume 0 Demo.otherWorkspace]).
  { repeat constructor; cbn; try tauto; discriminate. }
  split; [split; [exact Hget|split; [exact Hcalls|exact Hacts]]|].
  exact (proj1 (cache_serves_until_invalidated "file:///demo" Demo.analysis _ _
                  Hget Hcalls Hacts)).
Defined.

(** Two calls miss and are in flight together ([activate] does not await
    its own).  The first stores its analysis; the second resumes after the
    files were saved again and replaces the entry, with no rebuild and no
    clear in between.  And a call in flight when the folders change stores
    its analysis after the clear. *)
Lemma call_in_flight_overwrites_cache :
  (Running.cache
     (fold_left act
        [ActCall Demo.workspace; ActCall Demo.workspace; ActResume 0 Demo.workspace]
        Running.initial) !! "file:///demo" = Some Demo.analysis /\
   Forall (fun action => ~ invalidatesAction "file:///demo" action)
     [ActResume 0 Demo.edited] /\
   Running.cache
     (fold_left act [ActResume 0 Demo.edited]
        (fold_left act
           [ActCall Demo.workspace; ActCall Demo.workspace; ActResume 0 Demo.workspace]
           Running.initial)) !! "file:///demo" = Some Demo.editedAnalysis /\
   Demo.editedAnalysis <> Demo.analysis) /\
  (Running.cache
     (fold_left act [ActCall Demo.workspace; ActFoldersChanged] Running.initial)
     !! "file:///demo" = None /\
   Running.cache
     (fold_left act [ActCall Demo.workspace; ActFoldersChanged; ActResume 0 Demo.workspace]
        Running.initial) !! "file:///demo" = Some Demo.analysis).
Proof.
  split; [split; [|split; [|split]]|split].
  - vm_compute. reflexivity.
  - repeat constructor. cbn. tauto.
  - vm_compute. reflexivity.
  - intros Heq. apply (f_equal WorkspaceAnalysis.files) in Heq. discriminate Heq.
  - reflexivity.
  - vm_compute. reflexivity.
Qed.

Lemma sample_truncation_demo :
  exists analysis f s,
    buildAnalysis Demo.workspace Demo.folder = Some analysis /\
    f ∈ WorkspaceAnalysis.files analysis /\
    FileInfo.path f = "a.ts" /\
    FileInfo.sample f = Some s /\
    ((Z.of_nat (String.length "hello world") > 5)%Z ->
       Z.of_nat (String.length s) = 5%Z /\ String.prefix s "hello world" = true) /\
    ((Z.of_nat (String.length "hello world") <= 5)%Z -> s = "hello world").
Proof.
  apply (sample_truncation Demo.workspace Demo.folder
           [Demo.uriOf ".env"; Demo.uriOf "a.ts"; Demo.uriOf "b.ts"; Demo.uriOf "c.ts"]
           (Demo.uriOf "a.ts") (FileStat.mk 11 1000) "hello world").
  - reflexivity.
  - vm_compute. apply list_elem_of_further, list_elem_of_here.
  - vm_compute. reflexivity.
  - reflexivity.
  - by vm_compute.
  - simpl. lia.
  - reflexivity.
Defined.

Lemma analyzeWorkspace_maxFiles_demo :
  fst (analyzeWorkspace Demo.workspace (run [])) = Some Demo.analysis /\
  WorkspaceAnalysis.fileCount Demo.analysis = 1%Z /\
  (Z.of_nat (length (WorkspaceAnalysis.files Demo.analysis)) <= 2)%Z.
Proof.
  assert (Hrun : fst (analyzeWorkspace Demo.workspace (run [])) = Some Demo.analysis)
    by (vm_compute; reflexivity).
  destruct (analyzeWorkspace_maxFiles [] Demo.workspace Demo.analysis Hrun)
    as [Hcount Hbound].
  split; [exact Hrun|]. split; [exact Hcount|].
  apply Hbound; [simpl; lia|].
  intros key _. apply lookup_empty.
Defined.

(** The limit is read after the cache: an analysis computed under
    [maxFiles = 3] is returned as it is when the setting is lowered to 1,
    with its two records, in a workspace of four files. *)
Lemma cached_analysis_exceeds_maxFiles :
  length <$> Workspace.findFiles (Demo.withMaxFiles 1) "**/*" excludePattern 1%Z = Some 4 /\
  exists analysis,
    fst (analyzeWorkspace (Demo.withMaxFiles 1) (run [EvAnalyze (Demo.withMaxFiles 3)]))
    = Some analysis /\
    map FileInfo.path (WorkspaceAnalysis.files analysis) = ["a.ts"; "b.ts"] /\
    (0 <= Configuration.maxFiles (Workspace.configuration (Demo.withMaxFiles 1))
       < Z.of_nat (length (WorkspaceAnalysis.files analysis)))%Z.
Proof.
  split; [reflexivity|].
  eexists. split; [vm_compute; reflexivity|].
  split; [reflexivity|]. cbn. lia.
Qed.

Lemma empty_answers_tolerated_demo :
  (ok (mkResponse 200 (Ok Demo.emptyResponse) (Ok "")) = true /\
   noAnswers Demo.emptyResponse) /\
  sendQuery Configuration.default (Demo.backendReturning Demo.emptyResponse)
    "where is b defined?" Demo.analysis None None = Ok Demo.emptyResponse /\
  renderResponse Demo.emptyResponse = Ok "No results found.".
Proof.
  assert (Hno : noAnswers Demo.emptyResponse) by exact I.
  split; [by split|].
  exact (empty_answers_tolerated Configuration.default
           (Demo.backendReturning Demo.emptyResponse)
           "where is b defined?" Demo.analysis None None
           (mkResponse 200 (Ok Demo.emptyResponse) (Ok "")) Demo.emptyResponse
           eq_refl eq_refl eq_refl Hno).
Defined.

(** Against C7 as stated: a 2xx body whose [answers] is an object, not a
    list, passes [sendQuery] and makes [renderResponse] throw. *)
Lemma malformed_answers_raise :
  sendQuery Configuration.default (Demo.backendReturning Demo.malformedResponse)
    "where is b defined?" Demo.analysis None None = Ok Demo.malformedResponse /\
  renderResponse Demo.malformedResponse
  = Throw (typeError "response.answers is not iterable").
Proof. split; reflexivity. Qed.


Lemma cache_frame_demo :
  cacheKeyOf Demo.workspace <> Some "file:///other" /\
  snd (analyzeWorkspace Demo.workspace {[ "file:///other" := Demo.analysis ]})
    !! "file:///other" = Some Demo.analysis /\
  rebuildAnalysis Demo.workspace {[ "file:///other" := Demo.analysis ]}
    !! "file:///other" = Some Demo.analysis.
Proof.
  assert (Hne : cacheKeyOf Demo.workspace <> Some "file:///other") by discriminate.
  split; [exact Hne|].
  destruct (cache_frame Demo.workspace {[ "file:///other" := Demo.analysis ]}
              "file:///other" Hne) as (Ha & Hr & _).
  rewrite Ha, Hr. split; apply lookup_singleton_eq.
Defined.

(** [slice(0, -1)] drops the last file only: the bound needs a limit that
    is not negative. *)
Example negative_maxFiles_keeps_files :
  (length <$> (WorkspaceAnalysis.files <$> fst (analyzeWorkspace Demo.negativeLimit ∅)))
  = Some 2.
Proof. vm_compute. reflexivity. Qed.

Example render_demo_answers :
  renderResponse (responseOf Demo.answers)
  = Ok ("**src/b.ts** (lines 10-20) [score: 7.00]" +:+ newline +:+ newline +:+
        "```typescript" +:+ newline +:+ "let b = 2;" +:+ newline +:+ "```" +:+
        newline +:+ newline +:+ "second file first" +:+ newline +:+ newline +:+
        "---" +:+ newline +:+ newline +:+
        "**src/a.ts** (lines 1-3) [score: 9.00]" +:+ newline +:+ newline +:+
        "```typescript" +:+ newline +:+ "let a = 1;" +:+ newline +:+ "```" +:+
        newline +:+ newline +:+
        "---" +:+ newline +:+ newline +:+
        "**src/b.ts** (lines 10-20) [score: 7.00]" +:+ newline +:+ newline +:+
        "```typescript" +:+ newline +:+ "let b = 2;" +:+ newline +:+ "```" +:+
        newline +:+ newline +:+ "second file first" +:+ newline +:+ newline +:+
        "---" +:+ newline +:+ newline).
Proof. vm_compute. reflexivity. Qed.

Example render_null_element :
  renderResponse (VObject [("answers", VArray [VNull (Num := Z)])])
  = Throw (typeError "Cannot read properties of null (reading 'file')").
Proof. vm_compute. reflexivity. Qed.

Example render_missing_score :
  renderResponse (VObject [("answers", VArray [VObject [("file", VString (Num := Z) "a.ts")]])])
  = Throw (typeError "Cannot read properties of undefined (reading 'toFixed')").
Proof. vm_compute. reflexivity. Qed.

Example sendQuery_null_body :
  sendQuery Configuration.default (Demo.backendReturning VNull)
    "q" Demo.analysis None None
  = Throw (typeError "Cannot read properties of null (reading 'answers')").
Proof. vm_compute. reflexivity. Qed.

Example sendQuery_unprintable_length :
  sendQuery Configuration.default
    (Demo.backendReturning
       (VObject [("answers", VObject [("length", VObject [("toString", VNumber 1%Z)])])]))
    "q" Demo.analysis None None
  = Throw (typeError "Cannot convert object to primitive value").
Proof. vm_compute. reflexivity. Qed.

Example sendQuery_http_404 :
  sendQuery (Num := Z) Configuration.default
    (fun _ _ => Resolved (mkResponse 404 (Throw (newError "Unexpected token")) (Ok "Not Found")))
    "q" Demo.analysis None None
  = Throw (newError (notFoundMessage 1)).
Proof. vm_compute. reflexivity. Qed.

End DemoRuns.

(** * Further properties of the analyzer and its cache *)

Section AnalyzerProperties.
Import JS Extension.

Lemma analyzeWorkspace_twice ws (c : Cache) :
  analyzeWorkspace ws (snd (analyzeWorkspace ws c)) = analyzeWorkspace ws c.
Proof.
  unfold analyzeWorkspace at 2 3.
  destruct (head (Workspace.workspaceFolders ws)) as [folder|] eqn:Hhead.
  2:{ simpl. by apply analyzeWorkspace_no_folder. }
  destruct (c !! Uri.toString (WorkspaceFolder.uri folder)) as [cached|] eqn:Hget.
  { simpl. by apply analyzeWorkspace_hit with folder. }
  destruct (buildAnalysis ws folder) as [a|] eqn:Hb; simpl.
  - apply analyzeWorkspace_hit with folder; [done|]. apply lookup_insert_eq.
  - rewrite (analyzeWorkspace_miss ws c folder Hhead Hget). by rewrite Hb.
Qed.

(** X1. Calling [analyzeWorkspace] again on an unchanged workspace gives the
    same result and leaves the cache as the first call left it. *)
Theorem analyzeWorkspace_idempotent ws (c : Cache) :
  analyzeWorkspace ws (snd (analyzeWorkspace ws c)) = analyzeWorkspace ws c.
Proof. apply analyzeWorkspace_twice. Qed.

(** A call that returns [null] has not written to the cache. *)
Lemma analyzeWorkspace_null_cache ws (c : Cache) :
  fst (analyzeWorkspace ws c) = None -> snd (analyzeWorkspace ws c) = c.
Proof.
  unfold analyzeWorkspace.
  destruct (head (Workspace.workspaceFolders ws)) as [folder|]; [|done].
  destruct (c !! Uri.toString (WorkspaceFolder.uri folder)); [done|].
  by destruct (buildAnalysis ws folder).
Qed.

(** X2. [analyzeWorkspace] returns [null] exactly when no folder is open or,
    on a cache miss, [findFiles] rejects; failing [stat] and [readFile]
    calls never make it fail.  A failed call leaves the cache as it was. *)
Theorem analyzeWorkspace_fails_iff ws (c : Cache) :
  (fst (analyzeWorkspace ws c) = None <->
   cacheKeyOf ws = None \/
   (exists key, cacheKeyOf ws = Some key /\ c !! key = None /\
      Workspace.findFiles ws "**/*" excludePattern
        (Configuration.maxFiles (Workspace.configuration ws)) = None)) /\
  (fst (analyzeWorkspace ws c) = None -> snd (analyzeWorkspace ws c) = c).
Proof.
  unfold cacheKeyOf, analyzeWorkspace.
  destruct (head (Workspace.workspaceFolders ws)) as [folder|]; simpl.
  2:{ split; [|done]. split; [by left|done]. }
  destruct (c !! Uri.toString (WorkspaceFolder.uri folder)) as [cached|] eqn:Hget; simpl.
  { split; [|done]. split; [done|].
    intros [?|(key & [= <-] & Hnone & _)]; [done|]. congruence. }
  unfold buildAnalysis.
  destruct (Workspace.findFiles ws _ _ _) as [files|] eqn:Hfind; simpl.
  - split; [|done]. split; [done|].
    intros [?|(key & _ & _ & ?)]; done.
  - split; [|done]. split; [|done]. intros _. right. eauto.
Qed.

(** X3. A rebuild does not depend on the entry it replaces, doing it twice
    is doing it once, and the analysis that follows a rebuild is served the
    rebuilt entry without touching the cache. *)
Theorem rebuildAnalysis_supersedes ws (c : Cache) folder old :
  head (Workspace.workspaceFolders ws) = Some folder ->
  rebuildAnalysis ws (<[Uri.toString (WorkspaceFolder.uri folder) := old]> c)
  = rebuildAnalysis ws c /\
  rebuildAnalysis ws (rebuildAnalysis ws c) = rebuildAnalysis ws c /\
  analyzeWorkspace ws (rebuildAnalysis ws c)
  = (buildAnalysis ws folder, rebuildAnalysis ws c).
Proof.
  intros Hhead.
  assert (Hreb : forall c0 : Cache,
             rebuildAnalysis ws c0
             = match buildAnalysis ws folder with
               | Some a => <[Uri.toString (WorkspaceFolder.uri folder) := a]> c0
               | None => delete (Uri.toString (WorkspaceFolder.uri folder)) c0
               end).
  { intros c0. unfold rebuildAnalysis. rewrite Hhead.
    rewrite (analyzeWorkspace_miss ws _ folder Hhead) by apply lookup_delete_eq.
    destruct (buildAnalysis ws folder); simpl; [|done].
    apply insert_delete_eq. }
  split; [|split].
  - rewrite !Hreb. destruct (buildAnalysis ws folder).
    + apply insert_insert_eq.
    + apply delete_insert_eq.
  - rewrite !Hreb. destruct (buildAnalysis ws folder).
    + apply insert_insert_eq.
    + apply delete_delete_eq.
  - rewrite Hreb. destruct (buildAnalysis ws folder) as [a|] eqn:Hb.
    + apply analyzeWorkspace_hit with folder; [done|]. apply lookup_insert_eq.
    + rewrite (analyzeWorkspace_miss ws _ folder Hhead) by apply lookup_delete_eq.
      by rewrite Hb.
Qed.

End AnalyzerProperties.

Section RecordProperties.
Import JS Extension.

(** The language table and the sampling allow-list name the same
    extensions. *)
Lemma langMap_dom : dom langMap = TEXT_FILE_EXTENSIONS.
Proof. apply (bool_decide_unpack _). by vm_compute. Qed.

Lemma getLanguageId_is_Some (filePath : string) :
  is_Some (getLanguageId filePath) <-> extensionOf filePath ∈ TEXT_FILE_EXTENSIONS.
Proof.
  unfold getLanguageId, extensionOf. rewrite <- langMap_dom.
  symmetry. apply elem_of_dom.
Qed.

(** X4. A path has a language id exactly when its extension is in the
    sampling allow-list. *)
Theorem getLanguageId_iff_sampled_extension (filePath : string) :
  is_Some (getLanguageId filePath) <-> extensionOf filePath ∈ TEXT_FILE_EXTENSIONS.
Proof. apply getLanguageId_is_Some. Qed.

Lemma sampleOf_length (text : string) (maxBytesPerFile : Z) :
  (0 <= maxBytesPerFile)%Z ->
  (Z.of_nat (String.length (sampleOf text maxBytesPerFile)) <= maxBytesPerFile)%Z /\
  String.prefix (sampleOf text maxBytesPerFile) text = true.
Proof.
  intros Hmax.
  destruct (Z.le_gt_cases (Z.of_nat (String.length text)) maxBytesPerFile) as [Hle|Hgt].
  - destruct (sampleOf_spec text maxBytesPerFile Hmax) as [_ Hfull].
    rewrite (Hfull Hle). split; [done|].
    rewrite <- (append_empty_r text) at 2. apply prefix_append.
  - destruct (sampleOf_spec text maxBytesPerFile Hmax) as [Hcut _].
    destruct Hcut as [Hlen Hpre]; [lia|]. split; [lia|done].
Qed.

Lemma processFile_record ws maxBytesPerFile fileUri f :
  processFile ws maxBytesPerFile fileUri = Some f ->
  exists st,
    Workspace.stat ws fileUri = Some st /\
    FileInfo.path f = Workspace.asRelativePath ws fileUri /\
    FileInfo.size f = FileStat.size st /\
    FileInfo.mtime f = FileStat.mtime st /\
    FileInfo.languageId f = getLanguageId (FileInfo.path f) /\
    (forall s, FileInfo.sample f = Some s ->
       extensionOf (FileInfo.path f) ∈ TEXT_FILE_EXTENSIONS /\
       (0 < FileInfo.size f <= maxBytesPerFile * 10)%Z /\
       exists text, Workspace.readFile ws fileUri = Some text /\
                    s = sampleOf text maxBytesPerFile).
Proof.
  unfold processFile.
  destruct (isSensitiveFile _); [discriminate|].
  destruct (Workspace.stat ws fileUri) as [st|]; [|discriminate].
  intros [= <-]. exists st. cbn [FileInfo.path FileInfo.size FileInfo.mtime
                                    FileInfo.languageId FileInfo.sample].
  do 5 (split; [reflexivity|]).
  intros smp Hs.
  destruct (bool_decide _) eqn:Hext; [|discriminate].
  destruct (FileStat.size st >? 0)%Z eqn:Hpos; [|discriminate].
  destruct (FileStat.size st <=? maxBytesPerFile * 10)%Z eqn:Hcap; [|discriminate].
  cbn [andb] in Hs.
  destruct (Workspace.readFile ws fileUri) as [text|]; [|discriminate].
  injection Hs as <-.
  apply bool_decide_eq_true in Hext. apply Z.gtb_lt in Hpos. apply Z.leb_le in Hcap.
  split; [exact Hext|]. split; [lia|]. exists text. split; reflexivity.
Qed.

(** X5. In an analysis built under [maxBytesPerFile], a record has a sample
    only if its extension is in the allow-list and its size is above zero
    and at most ten times the limit; the sample is then a prefix of the
    text of the file and has at most [maxBytesPerFile] characters. *)
Theorem sample_only_when_eligible ws folder analysis f s :
  buildAnalysis ws folder = Some analysis ->
  f ∈ WorkspaceAnalysis.files analysis ->
  FileInfo.sample f = Some s ->
  let maxBytesPerFile := Configuration.maxBytesPerFile (Workspace.configuration ws) in
  extensionOf (FileInfo.path f) ∈ TEXT_FILE_EXTENSIONS /\
  (0 < FileInfo.size f <= maxBytesPerFile * 10)%Z /\
  (Z.of_nat (String.length s) <= maxBytesPerFile)%Z /\
  exists fileUri text,
    Workspace.asRelativePath ws fileUri = FileInfo.path f /\
    Workspace.readFile ws fileUri = Some text /\
    String.prefix s text = true.
Proof.
  intros (files & _ & Hfiles & _)%buildAnalysis_files Hin Hs maxBytesPerFile.
  rewrite Hfiles in Hin. apply list_elem_of_omap in Hin as (u & _ & Hu).
  apply processFile_record in Hu as (st & _ & Hpath & _ & _ & _ & Hsample).
  destruct (Hsample s Hs) as (Hext & Hsize & text & Hread & ->).
  fold maxBytesPerFile in Hsize |- *.
  destruct (sampleOf_length text maxBytesPerFile) as [Hlen Hpre]; [lia|].
  split; [exact Hext|]. split; [exact Hsize|]. split; [exact Hlen|].
  exists u, text. split; [symmetry; exact Hpath|]. split; [exact Hread | exact Hpre].
Qed.


(** X7. The records of an analysis are in the order of discovery: their
    paths are a sublist of the relative paths of the files found, cut at
    [maxFiles]. *)
Theorem records_in_discovery_order ws folder analysis :
  buildAnalysis ws folder = Some analysis ->
  exists files,
    Workspace.findFiles ws "**/*" excludePattern
      (Configuration.maxFiles (Workspace.configuration ws)) = Some files /\
    sublist (map FileInfo.path (WorkspaceAnalysis.files analysis))
            (map (Workspace.asRelativePath ws)
                 (slice0 files (Configuration.maxFiles (Workspace.configuration ws)))).
Proof.
  intros (files & Hfind & Hfiles & _)%buildAnalysis_files.
  exists files. split; [done|]. rewrite Hfiles. clear Hfiles.
  induction (slice0 files _) as [|u l IH]; csimpl; [constructor|].
  destruct (processFile ws _ u) as [f|] eqn:Hu; cbn [map].
  - apply processFile_Some in Hu as [Hpath _]. rewrite Hpath.
    apply sublist_skip, IH.
  - apply sublist_cons, IH.
Qed.

Lemma buildAnalysis_wellFormed ws folder a :
  buildAnalysis ws folder = Some a -> wellFormed a.
Proof.
  intros Hb. split.
  { unfold buildAnalysis in Hb.
    destruct (Workspace.findFiles _ _ _ _); [|discriminate]. by injection Hb as <-. }
  apply Forall_forall. intros f Hin.
  apply buildAnalysis_files in Hb as (files & _ & Hfiles & _).
  rewrite Hfiles in Hin. apply list_elem_of_omap in Hin as (u & _ & Hu).
  apply processFile_record in Hu as (st & _ & _ & _ & _ & Hlang & Hsample).
  split; [done|]. intros [s Hs].
  destruct (Hsample s Hs) as (Hext & Hsize & _).
  split; [done|]. split; [|lia].
  rewrite Hlang. by apply getLanguageId_is_Some.
Qed.

(** X8. In every state the extension can reach, the analysis that
    [analyzeWorkspace] returns, cached or fresh, carries the fingerprint of
    its own records, gives each record the language of its path, and has
    samples only on records with an allow-listed extension, a language id
    and a size above zero. *)
Theorem analyzeWorkspace_wellFormed evs ws analysis :
  fst (analyzeWorkspace ws (run evs)) = Some analysis -> wellFormed analysis.
Proof.
  apply (analyzeWorkspace_reachable wellFormed buildAnalysis_wellFormed).
Qed.

End RecordProperties.

(** * Further properties of the file classifier *)

Section ClassifierProperties.
Import JS Extension.

Lemma append_cons (c : ascii) (a b : string) :
  String c a +:+ b = String c (a +:+ b).
Proof. reflexivity. Qed.

Lemma rev_app_append (s1 s2 : string) :
  String.rev_app s1 s2 = String.rev s1 +:+ s2.
Proof.
  unfold String.rev. revert s2.
  induction s1 as [|c s1 IH]; intros s2; [done|].
  cbn [String.rev_app]. rewrite (IH (String c "")), IH, append_assoc. reflexivity.
Qed.

Lemma rev_cons (c : ascii) (s : string) :
  String.rev (String c s) = String.rev s +:+ String c "".
Proof. unfold String.rev at 1. cbn [String.rev_app]. apply rev_app_append. Qed.

Lemma rev_append (a b : string) :
  String.rev (a +:+ b) = String.rev b +:+ String.rev a.
Proof.
  induction a as [|c a IH].
  - change ("" +:+ b) with b. cbn. by rewrite append_empty_r.
  - rewrite append_cons, !rev_cons, IH, append_assoc. reflexivity.
Qed.

Lemma rev_involutive (s : string) : String.rev (String.rev s) = s.
Proof.
  induction s as [|c s IH]; [done|].
  rewrite rev_cons, rev_append, IH. reflexivity.
Qed.

Lemma hasChar_append (c : ascii) (a b : string) :
  hasChar c (a +:+ b) = hasChar c a || hasChar c b.
Proof.
  induction a as [|x a IH]; [done|].
  rewrite append_cons. cbn [hasChar]. by rewrite IH, orb_assoc.
Qed.

Lemma hasChar_rev (c : ascii) (s : string) : hasChar c (String.rev s) = hasChar c s.
Proof.
  induction s as [|x s IH]; [done|].
  rewrite rev_cons, hasChar_append, IH. cbn [hasChar].
  by rewrite orb_false_r, orb_comm.
Qed.

Lemma rev_nonempty (s : string) : s <> "" -> String.rev s <> "".
Proof.
  intros Hs Hrev. apply Hs. by rewrite <- (rev_involutive s), Hrev.
Qed.

Lemma toLowerCase_append (a b : string) :
  toLowerCase (a +:+ b) = toLowerCase a +:+ toLowerCase b.
Proof.
  induction a as [|c a IH]; [done|].
  rewrite append_cons. cbn [toLowerCase]. by rewrite IH.
Qed.

Lemma replaceBackslashes_append (a b : string) :
  replaceBackslashes (a +:+ b) = replaceBackslashes a +:+ replaceBackslashes b.
Proof.
  induction a as [|c a IH]; [done|].
  rewrite append_cons. cbn [replaceBackslashes]. by rewrite IH.
Qed.

Lemma normalized_append (a b : string) :
  normalized (a +:+ b) = normalized a +:+ normalized b.
Proof. unfold normalized. by rewrite toLowerCase_append, replaceBackslashes_append. Qed.

(** Facts about single characters, by enumeration. *)
Lemma lowerChar_idempotent (c : ascii) : lowerChar (lowerChar c) = lowerChar c.
Proof. destruct c as [[] [] [] [] [] [] [] []]; reflexivity. Qed.

Lemma lowerChar_backslash (c : ascii) :
  Ascii.eqb (lowerChar c) "\" = Ascii.eqb c "\".
Proof. destruct c as [[] [] [] [] [] [] [] []]; reflexivity. Qed.

Lemma lowerChar_slash (c : ascii) :
  Ascii.eqb (lowerChar c) "/" = Ascii.eqb c "/".
Proof. destruct c as [[] [] [] [] [] [] [] []]; reflexivity. Qed.

Lemma toLowerCase_idempotent (s : string) : toLowerCase (toLowerCase s) = toLowerCase s.
Proof.
  induction s as [|c s IH]; [done|].
  cbn [toLowerCase]. by rewrite lowerChar_idempotent, IH.
Qed.

Lemma normalized_replaceBackslashes (s : string) :
  normalized (replaceBackslashes s) = normalized s.
Proof.
  unfold normalized. induction s as [|c s IH]; [done|].
  cbn [toLowerCase replaceBackslashes]. rewrite IH. f_equal.
  rewrite lowerChar_backslash.
  destruct (Ascii.eqb_spec c "\") as [->|Hc]; [reflexivity|].
  by rewrite lowerChar_backslash, (proj2 (Ascii.eqb_neq _ _) Hc).
Qed.

Lemma isSensitiveFile_normalized (p q : string) :
  normalized p = normalized q -> isSensitiveFile p = isSensitiveFile q.
Proof.
  intros Heq. unfold isSensitiveFile. fold (normalized p). fold (normalized q).
  by rewrite Heq.
Qed.

(** X9. The classification of a path does not depend on the case of its
    letters nor on the style of its separators: lower-casing a path, or
    writing its backslashes as slashes, leaves [isSensitiveFile] unchanged. *)
Theorem isSensitiveFile_case_and_separators (filePath : string) :
  isSensitiveFile (toLowerCase filePath) = isSensitiveFile filePath /\
  isSensitiveFile (replaceBackslashes filePath) = isSensitiveFile filePath.
Proof.
  split; apply isSensitiveFile_normalized.
  - unfold normalized. by rewrite toLowerCase_idempotent.
  - apply normalized_replaceBackslashes.
Qed.

Lemma takePart_append (s t : string) :
  hasChar "/" s = false -> path.takePart (s +:+ "/" +:+ t) = s.
Proof.
  induction s as [|c s IH]; intros Hs; [reflexivity|].
  cbn [hasChar] in Hs. apply orb_false_iff in Hs as [Hc Hs].
  rewrite append_cons. cbn [path.takePart]. unfold path.isSlash. rewrite Hc.
  by rewrite IH.
Qed.

Lemma dropPart_append (s t : string) :
  hasChar "/" s = false -> path.dropPart (s +:+ "/" +:+ t) = "/" +:+ t.
Proof.
  induction s as [|c s IH]; intros Hs; [reflexivity|].
  cbn [hasChar] in Hs. apply orb_false_iff in Hs as [Hc Hs].
  rewrite append_cons. cbn [path.dropPart]. unfold path.isSlash. rewrite Hc.
  by apply IH.
Qed.

Lemma takePart_plain (s : string) : hasChar "/" s = false -> path.takePart s = s.
Proof.
  induction s as [|c s IH]; intros Hs; [reflexivity|].
  cbn [hasChar] in Hs. apply orb_false_iff in Hs as [Hc Hs].
  cbn [path.takePart]. unfold path.isSlash. rewrite Hc. by rewrite IH.
Qed.

Lemma dropPart_plain (s : string) : hasChar "/" s = false -> path.dropPart s = "".
Proof.
  induction s as [|c s IH]; intros Hs; [reflexivity|].
  cbn [hasChar] in Hs. apply orb_false_iff in Hs as [Hc Hs].
  cbn [path.dropPart]. unfold path.isSlash. rewrite Hc. by apply IH.
Qed.

Lemma dropSlashes_plain (s : string) : hasChar "/" s = false -> path.dropSlashes s = s.
Proof.
  destruct s as [|c s]; intros Hs; [reflexivity|].
  cbn [hasChar] in Hs. apply orb_false_iff in Hs as [Hc Hs].
  cbn [path.dropSlashes]. unfold path.isSlash. by rewrite Hc.
Qed.

Lemma dropSlashes_append (s t : string) :
  s <> "" -> hasChar "/" s = false -> path.dropSlashes (s +:+ t) = s +:+ t.
Proof.
  destruct s as [|c s]; intros Hne Hs; [done|].
  cbn [hasChar] in Hs. apply orb_false_iff in Hs as [Hc Hs].
  rewrite append_cons. cbn [path.dropSlashes]. unfold path.isSlash. by rewrite Hc.
Qed.

(** The base name and the directory of [dir/name]. *)
Lemma basename_join (dir name : string) :
  name <> "" -> hasChar "/" name = false ->
  path.basename (dir +:+ "/" +:+ name) = name.
Proof.
  intros Hne Hs. unfold path.basename, path.lastPartRev.
  rewrite !rev_append, append_assoc.
  rewrite dropSlashes_append; [|by apply rev_nonempty|by rewrite hasChar_rev].
  change (String.rev "/") with "/".
  rewrite takePart_append by (by rewrite hasChar_rev).
  apply rev_involutive.
Qed.

Lemma basename_plain (name : string) :
  hasChar "/" name = false -> path.basename name = name.
Proof.
  intros Hs. unfold path.basename, path.lastPartRev.
  rewrite dropSlashes_plain, takePart_plain by (by rewrite hasChar_rev).
  apply rev_involutive.
Qed.

Lemma dirname_plain (name : string) :
  name <> "" -> hasChar "/" name = false -> path.dirname name = ".".
Proof.
  destruct name as [|c rest]; intros Hne Hs; [done|].
  cbn [hasChar] in Hs. apply orb_false_iff in Hs as [Hc Hs].
  unfold path.dirname.
  rewrite dropSlashes_plain, dropPart_plain by (by rewrite hasChar_rev).
  unfold path.isSlash. by rewrite Hc.
Qed.

Lemma dirname_join (dir name : string) :
  dir <> "" -> dir <> "/" -> name <> "" -> hasChar "/" name = false ->
  path.dirname (dir +:+ "/" +:+ name) = dir.
Proof.
  intros Hd Hroot Hne Hs. destruct dir as [|c0 rest]; [done|].
  rewrite append_cons. unfold path.dirname.
  rewrite !rev_append, append_assoc.
  rewrite dropSlashes_append; [|by apply rev_nonempty|by rewrite hasChar_rev].
  change (String.rev "/") with "/".
  rewrite dropPart_append by (by rewrite hasChar_rev).
  change ("/" +:+ String.rev rest) with (String "/" (String.rev rest)).
  destruct rest as [|c1 rest].
  - change (String.rev "") with "". cbv iota.
    unfold path.isSlash. destruct (Ascii.eqb_spec c0 "/") as [->|]; [done|reflexivity].
  - destruct (String.rev (String c1 rest)) as [|x r] eqn:Hrev.
    + exfalso. by apply (rev_nonempty (String c1 rest)).
    + rewrite <- Hrev, rev_involutive. reflexivity.
Qed.

Lemma normalized_fileName (name : string) :
  isFileName name ->
  normalized name <> "" /\ hasChar "/" (normalized name) = false.
Proof.
  intros (Hne & Hslash & Hback). split.
  - destruct name; [done|]. discriminate.
  - clear Hne. unfold normalized.
    induction name as [|c name IH]; [reflexivity|].
    cbn [hasChar] in Hslash, Hback.
    apply orb_false_iff in Hslash as [Hc Hslash].
    apply orb_false_iff in Hback as [Hb Hback].
    cbn [toLowerCase replaceBackslashes hasChar].
    rewrite (IH Hslash Hback), orb_false_r.
    rewrite lowerChar_backslash, Hb, lowerChar_slash. exact Hc.
Qed.

Lemma isSensitiveFile_checks (filePath : string) :
  isSensitiveFile filePath
  = nameCheck (path.basename (normalized filePath)) ||
    includes (path.dirname (normalized filePath)) "secrets" ||
    includes (path.dirname (normalized filePath)) "credentials".
Proof. rewrite isSensitiveFile_spec. reflexivity. Qed.

(** X10. A sensitive file name is sensitive in every directory, and every
    file below a directory whose path contains [secrets] or [credentials]
    (in any case) is sensitive, whatever its name. *)
Theorem isSensitiveFile_in_directory (dir name : string) :
  isFileName name ->
  isSensitiveFile name = true \/
  includes (normalized dir) "secrets" = true \/
  includes (normalized dir) "credentials" = true ->
  isSensitiveFile (dir +:+ "/" +:+ name) = true.
Proof.
  intros Hname Hcases.
  destruct (normalized_fileName name Hname) as [Hne Hslash].
  rewrite isSensitiveFile_checks, !normalized_append.
  change (normalized "/") with "/".
  rewrite basename_join by done.
  destruct Hcases as [Hsens|Hdir].
  - rewrite isSensitiveFile_checks in Hsens.
    rewrite basename_plain, dirname_plain in Hsens by done.
    change (includes "." "secrets") with false in Hsens.
    change (includes "." "credentials") with false in Hsens.
    rewrite !orb_false_r in Hsens. by rewrite Hsens.
  - assert (Hd : normalized dir <> "" /\ normalized dir <> "/").
    { split; intros Heq; rewrite Heq in Hdir; by destruct Hdir. }
    rewrite dirname_join by tauto.
    destruct Hdir as [-> | ->]; by rewrite ?orb_true_r.
Qed.

End ClassifierProperties.

(** * Further properties of the fingerprint *)

Section FingerprintProperties.
Import JS Extension.

Lemma append_empty_l (s : string) : "" +:+ s = s.
Proof. reflexivity. Qed.

Lemma uint_chars (c : ascii) (d : Decimal.uint) :
  hasChar c "-0123456789" = false ->
  hasChar c (NilEmpty.string_of_uint d) = false.
Proof.
  intros Hc. cbn [hasChar] in Hc.
  repeat (apply orb_false_iff in Hc as [? Hc]).
  induction d; cbn [NilEmpty.string_of_uint hasChar]; rewrite ?IHd;
    by rewrite ?orb_false_r.
Qed.

Lemma numberToString_chars (c : ascii) (z : Z) :
  hasChar c "-0123456789" = false -> hasChar c (numberToString z) = false.
Proof.
  intros Hc. pose proof (fun d => uint_chars c d Hc) as Hd.
  assert (Hu : forall d, hasChar c (NilZero.string_of_uint d) = false).
  { intros d. destruct d; try apply Hd. exact (Hd (Decimal.D0 Decimal.Nil)). }
  unfold numberToString, NilZero.string_of_int.
  destruct (Z.to_int z) as [d|d]; [apply Hu|].
  cbn [hasChar]. rewrite Hu, orb_false_r.
  cbn [hasChar] in Hc. by apply orb_false_iff in Hc as [? _].
Qed.

Lemma numberToString_inj (a b : Z) : numberToString a = numberToString b -> a = b.
Proof.
  unfold numberToString. intros Heq.
  assert (Hn : forall z, Z.to_int z <> Decimal.Pos Decimal.Nil /\
                         Z.to_int z <> Decimal.Neg Decimal.Nil).
  { intros [|p|p]; cbn; split; try discriminate;
      intros [= Hp]; by apply (DecimalPos.Unsigned.to_uint_nonnil p). }
  apply DecimalZ.to_int_inj.
  apply (f_equal NilZero.int_of_string) in Heq.
  rewrite !NilZero.isi in Heq by apply Hn. congruence.
Qed.

(** Cutting at the last bar. *)
Lemma split_last_bar (x y a b : string) :
  hasChar "|" a = false -> hasChar "|" b = false ->
  x +:+ "|" +:+ a = y +:+ "|" +:+ b -> x = y /\ a = b.
Proof.
  intros Ha Hb. revert y.
  induction x as [|c x IH]; intros [|c' y] Heq;
    rewrite ?append_cons, ?append_empty_l in Heq.
  - by injection Heq.
  - injection Heq as <- Heq.
    rewrite Heq, hasChar_append in Ha. cbn [hasChar] in Ha.
    rewrite ?Ascii.eqb_refl in Ha. by rewrite orb_true_r in Ha.
  - injection Heq as -> Heq.
    rewrite <- Heq, hasChar_append in Hb. cbn [hasChar] in Hb.
    rewrite ?Ascii.eqb_refl in Hb. by rewrite orb_true_r in Hb.
  - injection Heq as -> Heq.
    destruct (IH y Heq) as [-> ->]. done.
Qed.

(** The hashed line of a triple. *)
Lemma fingerprintEntry_inj (f g : FileInfo.t) :
  fingerprintEntry f = fingerprintEntry g -> tripleOf f = tripleOf g.
Proof.
  unfold fingerprintEntry, tripleOf. intros Heq.
  assert (Hbar : forall z, hasChar "|" (numberToString z) = false)
    by (intros z; by apply numberToString_chars).
  rewrite <- !(append_assoc (FileInfo.path _) "|") in Heq.
  rewrite <- !(append_assoc (FileInfo.path _ +:+ "|")) in Heq.
  apply split_last_bar in Heq as [Heq Hm]; [|apply Hbar..].
  rewrite !append_assoc in Heq.
  apply split_last_bar in Heq as [Hp Hs]; [|apply Hbar..].
  apply numberToString_inj in Hm, Hs. by rewrite Hp, Hs, Hm.
Qed.

Lemma fingerprintEntry_chars (f : FileInfo.t) :
  noLineBreak (FileInfo.path f) ->
  fingerprintEntry f <> "" /\ hasChar "010" (fingerprintEntry f) = false.
Proof.
  intros Hp. unfold fingerprintEntry. split.
  - destruct (FileInfo.path f); discriminate.
  - rewrite !hasChar_append, Hp, !numberToString_chars by reflexivity. reflexivity.
Qed.

(** Cutting at the first line feed. *)

Lemma split_first_line (x y t t' : string) :
  hasChar "010" x = false -> hasChar "010" y = false ->
  lineTail t -> lineTail t' ->
  x +:+ t = y +:+ t' -> x = y /\ t = t'.
Proof.
  intros Hx Hy Ht Ht'. revert y Hy.
  induction x as [|c x IH]; intros [|c' y] Hy Heq;
    rewrite ?append_cons, ?append_empty_l in Heq.
  - done.
  - exfalso. cbn [hasChar] in Hy. apply orb_false_iff in Hy as [Hc _].
    destruct Ht as [->|[r ->]]; [discriminate|].
    unfold newline in Heq. rewrite append_cons in Heq.
    injection Heq as <- _. discriminate.
  - exfalso. cbn [hasChar] in Hx. apply orb_false_iff in Hx as [Hc _].
    destruct Ht' as [->|[r ->]]; [discriminate|].
    unfold newline in Heq. rewrite append_cons in Heq.
    injection Heq as -> _. discriminate.
  - injection Heq as -> Heq.
    cbn [hasChar] in Hx, Hy.
    apply orb_false_iff in Hx as [_ Hx]. apply orb_false_iff in Hy as [_ Hy].
    destruct (IH Hx y Hy Heq) as [-> ->]. done.
Qed.

Lemma join_cons (x : string) (l : list string) :
  join newline (x :: l)
  = x +:+ match l with [] => "" | _ => newline +:+ join newline l end.
Proof.
  unfold join. destruct l as [|y l]; [|reflexivity].
  cbn [String.concat]. by rewrite append_empty_r.
Qed.

Lemma join_tail (l : list string) :
  lineTail (match l with [] => "" | _ => newline +:+ join newline l end).
Proof. destruct l; [by left|right; eauto]. Qed.

(** Lines without line feeds can be read back from their join. *)
Lemma join_inj (l1 l2 : list string) :
  Forall (fun e => e <> "" /\ hasChar "010" e = false) l1 ->
  Forall (fun e => e <> "" /\ hasChar "010" e = false) l2 ->
  join newline l1 = join newline l2 -> l1 = l2.
Proof.
  intros H1. revert l2.
  induction H1 as [|x l1 [Hx Hxn] H1 IH]; intros l2 H2 Heq.
  - destruct H2 as [|y l2 [Hy _] _]; [done|].
    rewrite join_cons in Heq. change (join newline []) with "" in Heq.
    destruct y; [done|]. rewrite append_cons in Heq. discriminate.
  - destruct H2 as [|y l2 [Hy Hyn] H2].
    { rewrite join_cons in Heq. change (join newline []) with "" in Heq.
      destruct x; [done|]. rewrite append_cons in Heq. discriminate. }
    rewrite !join_cons in Heq.
    apply split_first_line in Heq as [-> Htail]; [|done|done|apply join_tail..].
    f_equal. unfold newline in Htail.
    destruct l1 as [|x1 l1], l2 as [|y1 l2];
      rewrite ?append_cons, ?append_empty_l in Htail; try discriminate.
    + reflexivity.
    + apply IH; [done|]. by injection Htail.
Qed.

Lemma map_inj_eq {A B} (e : A -> B) (l1 l2 : list A) :
  (forall a b, e a = e b -> a = b) -> map e l1 = map e l2 -> l1 = l2.
Proof.
  intros He. revert l2.
  induction l1 as [|a l1 IH]; intros [|b l2] Heq; try done.
  cbn [map] in Heq. injection Heq as Hab Heq. f_equal; [by apply He | by apply IH].
Qed.

(** X11. When no path contains a line feed, the text that is hashed
    determines the multiset of (path, size, mtime) triples: two inventories
    with the same hashed text have the same triples up to order, so any
    difference between their fingerprints' inputs is a difference of
    inventories. *)
Theorem fingerprintText_determines_triples (files files' : list FileInfo.t) :
  Forall (fun f => noLineBreak (FileInfo.path f)) files ->
  Forall (fun f => noLineBreak (FileInfo.path f)) files' ->
  fingerprintText files = fingerprintText files' ->
  map tripleOf files ≡ₚ map tripleOf files'.
Proof.
  intros Hn Hn' Heq. unfold fingerprintText in Heq.
  assert (Hlines : forall l : list FileInfo.t,
             Forall (fun f => noLineBreak (FileInfo.path f)) l ->
             Forall (fun e => e <> "" /\ hasChar "010" e = false)
                    (sort (map fingerprintEntry l))).
  { intros l Hl. unfold sort.
    rewrite (merge_sort_Permutation String.le (map fingerprintEntry l)).
    apply List.Forall_map. eapply Forall_impl; [exact Hl|].
    intros f Hf. by apply fingerprintEntry_chars. }
  apply join_inj in Heq; [|by apply Hlines..].
  assert (Hperm : map fingerprintEntry files ≡ₚ map fingerprintEntry files').
  { unfold sort in Heq.
    rewrite <- (merge_sort_Permutation String.le (map fingerprintEntry files)).
    rewrite <- (merge_sort_Permutation String.le (map fingerprintEntry files')).
    by rewrite Heq. }
  set (entryOf := fun t : string * Z * Z =>
         t.1.1 +:+ "|" +:+ numberToString t.1.2 +:+ "|" +:+ numberToString t.2).
  assert (Hentry : forall l, map fingerprintEntry l = map entryOf (map tripleOf l)).
  { intros l. rewrite List.map_map. apply map_ext. by intros []. }
  assert (Hinj : forall a b, entryOf a = entryOf b -> a = b).
  { intros [[p s] m] [[p' s'] m'] Hab.
    exact (fingerprintEntry_inj (FileInfo.mk p s m None None)
             (FileInfo.mk p' s' m' None None) Hab). }
  rewrite !Hentry in Hperm.
  apply Permutation_map_inv in Hperm as (l3 & Hmap & Hperm).
  apply map_inj_eq in Hmap; [|exact Hinj]. subst l3. by symmetry.
Qed.

Lemma sort_pair (a b : string) : String.le a b -> sort [a; b] = [a; b].
Proof.
  intros Hab. unfold sort. apply (Sorted_unique String.le).
  - apply Sorted_merge_sort; apply _.
  - repeat constructor. exact Hab.
  - apply merge_sort_Permutation.
Qed.

(** X12. A path that contains a line feed breaks this: the record
    [mergedRecord f g] alone has the fingerprint of the two records [f] and
    [g] (taken in the order of their hashed lines). *)
Theorem computeFingerprint_line_feed_collision (f g : FileInfo.t) :
  String.le (fingerprintEntry f) (fingerprintEntry g) ->
  computeFingerprint [mergedRecord f g] = computeFingerprint [f; g].
Proof.
  intros Hle. unfold computeFingerprint. f_equal.
  cbn [map]. rewrite sort_pair by exact Hle.
  assert (Hone : forall e, sort [e] = [e]) by reflexivity.
  rewrite Hone. unfold join. cbn [String.concat].
  unfold mergedRecord, fingerprintEntry at 1.
  cbn [FileInfo.path FileInfo.size FileInfo.mtime].
  rewrite !append_assoc. reflexivity.
Qed.

End FingerprintProperties.

(** * Further properties of the query client *)

Section QueryFailures.
Import JS Extension.
Context {Num : Type} `{JSNumber Num}.

Lemma mismatch_prefix (u p x : string) :
  mismatch u p = true -> String.prefix p (u +:+ x) = false.
Proof.
  revert p. induction u as [|c u IH]; intros [|d p] Hm; try done.
  rewrite append_cons. cbn [mismatch] in Hm. cbn [String.prefix].
  destruct (ascii_dec d c) as [->|Hne].
  - rewrite Ascii.eqb_refl in Hm. by apply IH.
  - reflexivity.
Qed.

Lemma includes_cons (c : ascii) (s p : string) :
  includes (String c s) p = String.prefix p (String c s) || includes s p.
Proof. reflexivity. Qed.

(** Skipping a text in which no occurrence can start. *)
Lemma includes_skip (a x p : string) :
  cannotStart a p = true -> includes (a +:+ x) p = includes x p.
Proof.
  induction a as [|c a IH]; intros Ha; [reflexivity|].
  cbn [cannotStart] in Ha. apply andb_true_iff in Ha as [Hm Ha].
  rewrite append_cons, includes_cons, <- append_cons.
  rewrite (mismatch_prefix _ _ _ Hm). by apply IH.
Qed.

Lemma cannotStart_other_chars (c : ascii) (p d : string) :
  hasChar c d = false -> cannotStart d (String c p) = true.
Proof.
  induction d as [|x d IH]; intros Hd; [reflexivity|].
  cbn [hasChar] in Hd. apply orb_false_iff in Hd as [Hx Hd].
  cbn [cannotStart mismatch]. rewrite Hx. by rewrite IH.
Qed.

Lemma includes_skip_number (z : Z) (x p : string) :
  hasChar "f" "-0123456789" = false ->
  includes (numberToString z +:+ x) (String "f" p) = includes x (String "f" p).
Proof.
  intros Hf. apply includes_skip, cannotStart_other_chars.
  by apply numberToString_chars.
Qed.

Lemma notFoundMessage_no_fetch_failed (fileCount : Z) :
  includes (notFoundMessage fileCount) "fetch failed" = false.
Proof.
  unfold notFoundMessage.
  rewrite includes_skip by (vm_compute; reflexivity).
  rewrite includes_skip_number by reflexivity.
  reflexivity.
Qed.

Lemma httpMessage_fetch_failed (status : Z) (errorText : string) :
  includes (httpMessage status errorText) "fetch failed"
  = includes errorText "fetch failed".
Proof.
  unfold httpMessage.
  rewrite includes_skip by (vm_compute; reflexivity).
  rewrite includes_skip_number by reflexivity.
  by rewrite includes_skip by (vm_compute; reflexivity).
Qed.

(** X13. A response outside 2xx whose body can be read makes [sendQuery]
    throw: for status 404 the fixed endpoint-not-found error with the file
    count, whatever the body; otherwise [HTTP <status>: <body>], except that
    a body containing [fetch failed] turns the failure into the
    cannot-connect error. *)
Theorem sendQuery_http_failure (config : Configuration.t)
    (fetch : string -> QueryRequest.t -> FetchOutcome (Num := Num))
    query analysis activeFile selection response errorText :
  fetch (Configuration.serverUrl config +:+ "/query")
        (requestOf query analysis activeFile selection) = Resolved response ->
  ok response = false ->
  text response = Ok errorText ->
  sendQuery config fetch query analysis activeFile selection
  = Throw (newError
      (if (status response =? 404)%Z then
         notFoundMessage (WorkspaceAnalysis.fileCount analysis)
       else if includes errorText "fetch failed" then
         connectMessage (Configuration.serverUrl config)
       else httpMessage (status response) errorText)).
Proof.
  intros Hfetch Hok Htext. unfold sendQuery. rewrite Hfetch.
  unfold queryTry. rewrite Hok, Htext. cbn [mbind Result_bind].
  destruct (status response =? 404)%Z.
  - unfold queryCatch, messageIncludes, codeIs, newError.
    cbn [Error.name Error.message Error.code].
    rewrite notFoundMessage_no_fetch_failed. reflexivity.
  - unfold queryCatch, messageIncludes, codeIs, newError.
    cbn [Error.name Error.message Error.code].
    rewrite httpMessage_fetch_failed.
    change (String.eqb "Error" "AbortError") with false. cbv iota.
    by destruct (includes errorText "fetch failed").
Qed.

End QueryFailures.

(** * Further properties of the renderer *)

Section RendererFailures.
Import JS Extension.
Context {Num : Type} `{JSNumber Num}.

Lemma bind_Throw {A B} (e : Error.t) (k : A -> Result B) :
  (Throw e ≫= k) = Throw e.
Proof. reflexivity. Qed.

Lemma bind_Ok {A B} (a : A) (k : A -> Result B) : (Ok a ≫= k) = k a.
Proof. reflexivity. Qed.

Lemma bind_throws {A B} (r : Result A) (k : A -> Result B) :
  (forall a, exists e, k a = Throw e) -> exists e, (r ≫= k) = Throw e.
Proof. intros Hk. destruct r as [a|e]; [apply Hk|by exists e]. Qed.

Lemma renderAnswer_malformed (x : Value Num) :
  malformedAnswer x -> exists e, renderAnswer x = Throw e.
Proof.
  intros Hx. unfold renderAnswer.
  destruct (getProperty x "file") as [file|e] eqn:Hfile.
  2:{ exists e. reflexivity. }
  rewrite bind_Ok.
  destruct (getLanguageIdOf file) as [language|e] eqn:Hlang.
  2:{ exists e. reflexivity. }
  rewrite bind_Ok.
  assert (Hstring : exists s, file = Some (VString s)).
  { unfold getLanguageIdOf in Hlang.
    destruct file as [[| | |s| |]|]; try discriminate. by exists s. }
  destruct Hstring as [s ->].
  destruct Hx as [->|[Hnofile|Hnoscore]]; [discriminate| |].
  { exfalso. by apply (Hnofile s). }
  destruct (getProperty x "start_line") as [start_line|e]; [|by exists e].
  destruct (getProperty x "end_line") as [end_line|e]; [|by exists e].
  destruct (getProperty x "score") as [score|e] eqn:Hscore; [|by exists e].
  rewrite !bind_Ok.
  destruct (getProperty x "code") as [code|e]; [|by exists e].
  destruct (getProperty x "explanation") as [explanation|e]; [|by exists e].
  rewrite !bind_Ok.
  do 3 (apply bind_throws; intros ?).
  assert (Hfixed : exists e, toFixed2 "answer.score" score = Throw e).
  { destruct score as [[| |n| | |]|]; cbn [toFixed2]; eauto.
    exfalso. by apply (Hnoscore n). }
  destruct Hfixed as [e ->]. by exists e.
Qed.

Lemma renderAnswers_throws (markdown : string) (items : list (Value Num)) x :
  x ∈ items -> malformedAnswer x ->
  exists e, renderAnswers markdown items = Throw e.
Proof.
  intros Hin Hx. revert markdown.
  induction Hin as [x items|x y items Hin IH]; intros markdown;
    cbn [renderAnswers].
  - destruct (renderAnswer_malformed x Hx) as [e ->]. by exists e.
  - destruct (renderAnswer y) as [block|e]; [|by exists e].
    rewrite bind_Ok. by apply IH.
Qed.

(** X14. Rendering is all or nothing: when one element of the answer list
    is [null], has no string [file] or has no numeric [score],
    [renderResponse] throws and returns no text, wherever the element
    stands and however well-formed the other answers are. *)
Theorem renderResponse_all_or_nothing (items : list (Value Num)) (x : Value Num) :
  x ∈ items -> malformedAnswer x ->
  exists e, renderResponse (VObject [("answers", VArray items)]) = Throw e.
Proof.
  intros Hin Hx. unfold renderResponse.
  cbn [getProperty lookupField String.eqb Ascii.eqb Bool.eqb].
  rewrite bind_Ok. cbn [truthy negb orb lengthIsZero].
  destruct items as [|y items]; [by apply elem_of_nil in Hin|].
  cbn [iterate]. rewrite bind_Ok. by apply renderAnswers_throws with x.
Qed.

End RendererFailures.

(** * Properties of the connection test, the editor context and the chat
      participant *)

Section ChatProperties.
Import JS Extension.
Context {Num : Type} `{JSNumber Num}.

Lemma connectionCatch_fails (timeoutMs : Z) (error : Error.t) :
  fst (connectionCatch timeoutMs error) = false /\
  exists message, snd (connectionCatch timeoutMs error) = ErrorMessage message.
Proof.
  unfold connectionCatch.
  destruct (String.eqb (Error.name error) "AbortError"); cbn; eauto.
Qed.

Lemma testConnection_succeeds_iff (config : Configuration.t)
    (fetch : string -> FetchOutcome (Num := Num)) :
  fst (testConnection config fetch) = true <->
  exists response data,
    fetch (Configuration.serverUrl config +:+ "/health") = Resolved response /\
    ok response = true /\ json response = Ok data.
Proof.
  unfold testConnection.
  destruct (fetch _) as [response|error] eqn:Hfetch.
  2:{ rewrite (proj1 (connectionCatch_fails _ error)).
      split; [done|]. by intros (? & ? & ? & _). }
  destruct (ok response) eqn:Hok.
  2:{ cbn [fst]. split; [done|]. intros (r & d & [= <-] & Hok' & _). congruence. }
  destruct (json response) as [data|error] eqn:Hjson.
  - cbn [fst]. split; [|done]. intros _. by exists response, data.
  - rewrite (proj1 (connectionCatch_fails _ error)).
    split; [done|]. intros (r & d & [= <-] & _ & Hjson'). congruence.
Qed.

(** X15. [testConnection] returns [true] exactly when the health request
    resolves with a 2xx status and a body that parses as JSON; it then shows
    the success notification, and in every other case it returns [false]
    and shows an error notification. *)
Theorem testConnection_true_iff (config : Configuration.t)
    (fetch : string -> FetchOutcome (Num := Num)) :
  (fst (testConnection config fetch) = true <->
   exists response data,
     fetch (Configuration.serverUrl config +:+ "/health") = Resolved response /\
     ok response = true /\ json response = Ok data) /\
  (fst (testConnection config fetch) = true ->
   snd (testConnection config fetch)
   = Information ("AI Code Snippet RAG: Connection successful to " +:+
                  Configuration.serverUrl config)) /\
  (fst (testConnection config fetch) = false ->
   exists message, snd (testConnection config fetch) = ErrorMessage message).
Proof.
  split; [apply testConnection_succeeds_iff|].
  unfold testConnection.
  destruct (fetch _) as [response|error].
  2:{ destruct (connectionCatch_fails (Configuration.requestTimeoutMs config) error)
        as [Hf Hm]. rewrite Hf. split; [done|intros _; exact Hm]. }
  destruct (ok response).
  2:{ cbn [fst snd]. split; [done|eauto]. }
  destruct (json response) as [data|error].
  - cbn [fst snd]. split; done.
  - destruct (connectionCatch_fails (Configuration.requestTimeoutMs config) error)
      as [Hf Hm]. rewrite Hf. split; [done|intros _; exact Hm].
Qed.

(** X16. For a selection whose start is not after its end (zero-based
    lines, as the editor gives them), [getActiveEditorContext] names the
    relative path of the document; it gives no range when the selection is
    empty, and otherwise the one-based range of lines, with
    [1 <= startLine <= endLine]. *)
Theorem getActiveEditorContext_range (ws : Workspace.t) (editor : TextEditor.t) :
  let sel := TextEditor.selection editor in
  (0 <= Position.line (EditorSelection.start sel)
     <= Position.line (EditorSelection.end_ sel))%Z ->
  let context := getActiveEditorContext ws (Some editor) in
  fst context = Some (Workspace.asRelativePath ws (TextEditor.documentUri editor)) /\
  (EditorSelection.isEmpty sel = true -> snd context = None) /\
  (EditorSelection.isEmpty sel = false ->
   exists range,
     snd context = Some range /\
     Selection.startLine range = (Position.line (EditorSelection.start sel) + 1)%Z /\
     Selection.endLine range = (Position.line (EditorSelection.end_ sel) + 1)%Z /\
     (1 <= Selection.startLine range <= Selection.endLine range)%Z).
Proof.
  intros sel Hlines context. subst context. unfold getActiveEditorContext.
  fold sel. destruct (EditorSelection.isEmpty sel); cbn [negb fst snd].
  - split; [done|]. split; [done|discriminate].
  - split; [done|]. split; [discriminate|]. intros _.
    eexists. split; [reflexivity|]. cbn [Selection.startLine Selection.endLine].
    split; [done|]. split; [done|]. lia.
Qed.

Lemma logAnswerCount_wellformed (answers : list (QueryAnswer.t Num)) :
  logAnswerCount (responseOf answers) = Ok tt.
Proof. reflexivity. Qed.

(** X17. End to end: when the analysis is available and the backend answers
    2xx with a well-formed answer list, [handleChatRequest] shows the blocks
    of the answers in the backend's order (the fixed message for an empty
    list), and leaves the cache as [analyzeWorkspace] left it. *)
Theorem handleChatRequest_renders_answers (ws : Workspace.t) (c : Cache)
    (editor : option TextEditor.t)
    (fetch : string -> QueryRequest.t -> FetchOutcome (Num := Num))
    (prompt : string) analysis response (answers : list (QueryAnswer.t Num)) :
  fst (analyzeWorkspace ws c) = Some analysis ->
  fetch (Configuration.serverUrl (Workspace.configuration ws) +:+ "/query")
        (requestOf prompt analysis
           (fst (getActiveEditorContext ws editor))
           (snd (getActiveEditorContext ws editor))) = Resolved response ->
  ok response = true ->
  json response = Ok (responseOf answers) ->
  handleChatRequest ws c editor fetch prompt
  = (renderedText answers, snd (analyzeWorkspace ws c)).
Proof.
  intros Ha Hfetch Hok Hjson. unfold handleChatRequest.
  destruct (analyzeWorkspace ws c) as [[a|] c'] eqn:Hrun; [|discriminate].
  cbn [fst snd] in *. injection Ha as ->.
  rewrite (sendQuery_returns_body _ fetch prompt analysis _ _ response
             (responseOf answers) Hfetch Hok Hjson (logAnswerCount_wellformed answers)).
  change (truthy (Some (responseOf answers))) with true. cbn [negb].
  by rewrite renderResponse_wellformed.
Qed.

Lemma includes_app_r (a s p : string) :
  includes s p = true -> includes (a +:+ s) p = true.
Proof.
  intros Hs. induction a as [|x a IH]; [exact Hs|].
  rewrite append_cons, includes_cons, IH. apply orb_true_r.
Qed.

Lemma connectMessage_includes (serverUrl : string) :
  includes (connectMessage serverUrl) "Cannot connect to backend" = true.
Proof. apply includes_prefix. reflexivity. Qed.

(** The branch of the [catch] clause that would add the troubleshooting
    steps is never taken. *)
Lemma errorMarkdown_cases error analysis file :
  errorMarkdown error analysis file
  = ("**Error:** " +:+ messageText error) +:+
    match analysis with Some a => contextSection a file | None => "" end +:+
    (if messageIncludes error "Cannot connect to backend" || messageIncludes error "404"
     then notImplementedNote analysis else "") +:+
    outputPanelHint.
Proof.
  unfold errorMarkdown.
  destruct analysis as [a|];
    destruct (messageIncludes error "Cannot connect to backend");
    destruct (messageIncludes error "404"); cbn [orb];
    rewrite ?append_assoc, ?append_empty_l; reflexivity.
Qed.

(** X18. When the backend cannot be reached (the request is rejected, not
    by the timer, with [fetch failed], [ECONNREFUSED] or [ENOTFOUND]), the
    chat shows the cannot-connect error, the collected context and the note
    that the [/query] endpoint is not yet implemented; the troubleshooting
    steps are not shown, in this case or in any other. *)
Theorem handleChatRequest_cannot_connect (ws : Workspace.t) (c : Cache)
    (editor : option TextEditor.t)
    (fetch : string -> QueryRequest.t -> FetchOutcome (Num := Num))
    (prompt : string) analysis error :
  fst (analyzeWorkspace ws c) = Some analysis ->
  fetch (Configuration.serverUrl (Workspace.configuration ws) +:+ "/query")
        (requestOf prompt analysis
           (fst (getActiveEditorContext ws editor))
           (snd (getActiveEditorContext ws editor))) = Rejected error ->
  Error.name error <> "AbortError" ->
  messageIncludes error "fetch failed" || codeIs error "ECONNREFUSED" ||
    codeIs error "ENOTFOUND" = true ->
  fst (handleChatRequest ws c editor fetch prompt)
  = ("**Error:** " +:+
     connectMessage (Configuration.serverUrl (Workspace.configuration ws))) +:+
    contextSection analysis (fst (getActiveEditorContext ws editor)) +:+
    notImplementedNote (Some analysis) +:+ outputPanelHint /\
  (forall e a file,
     errorMarkdown e a file
     = ("**Error:** " +:+ messageText e) +:+
       match a with Some a' => contextSection a' file | None => "" end +:+
       (if messageIncludes e "Cannot connect to backend" || messageIncludes e "404"
        then notImplementedNote a else "") +:+
       outputPanelHint).
Proof.
  intros Ha Hfetch Hname Hconn. split; [|apply errorMarkdown_cases].
  unfold handleChatRequest.
  destruct (analyzeWorkspace ws c) as [[a|] c'] eqn:Hrun; [|discriminate].
  cbn [fst snd] in *. injection Ha as ->.
  unfold sendQuery. rewrite Hfetch. cbn [queryTry].
  unfold queryCatch. apply String.eqb_neq in Hname. rewrite Hname, Hconn.
  cbn [fst]. rewrite errorMarkdown_cases.
  unfold messageIncludes at 1. unfold newError at 2. cbn [Error.message].
  rewrite connectMessage_includes. cbn [orb]. reflexivity.
Qed.

(** X19. A query that fails does not lose the analysis: the chat message
    opens with the error, reports the number of files analyzed, and the
    analysis stays in the cache, from where the next request is served. *)
Theorem handleChatRequest_failure_keeps_analysis (ws : Workspace.t) (c : Cache)
    (editor : option TextEditor.t)
    (fetch : string -> QueryRequest.t -> FetchOutcome (Num := Num))
    (prompt : string) analysis error :
  fst (analyzeWorkspace ws c) = Some analysis ->
  sendQuery (Workspace.configuration ws) fetch prompt analysis
    (fst (getActiveEditorContext ws editor))
    (snd (getActiveEditorContext ws editor)) = Throw error ->
  let result := handleChatRequest ws c editor fetch prompt in
  String.prefix ("**Error:** " +:+ messageText error) (fst result) = true /\
  includes (fst result)
    ("- **Files analyzed:** " +:+
     numberToString (WorkspaceAnalysis.fileCount analysis)) = true /\
  analyzeWorkspace ws (snd result) = (Some analysis, snd result).
Proof.
  intros Ha Hsend result. subst result. unfold handleChatRequest.
  pose proof (analyzeWorkspace_twice ws c) as Hidem.
  destruct (analyzeWorkspace ws c) as [[a|] c'] eqn:Hrun; [|discriminate].
  cbn [fst snd] in *. injection Ha as ->. rewrite Hsend. cbn [fst snd].
  split; [|split; [|exact Hidem]].
  - rewrite errorMarkdown_cases. apply prefix_append.
  - rewrite errorMarkdown_cases. unfold contextSection.
    rewrite !append_assoc.
    do 6 apply includes_app_r.
    rewrite <- (append_assoc "- **Files analyzed:** ").
    apply includes_prefix, prefix_append.
Qed.

(** X20. When [analyzeWorkspace] returns [null] (no folder is open, or
    [findFiles] rejects on a cache miss), the chat shows the fixed
    could-not-analyze message whatever the backend would answer, and the
    cache is unchanged. *)
Theorem handleChatRequest_without_analysis (ws : Workspace.t) (c : Cache)
    (editor : option TextEditor.t)
    (fetch : string -> QueryRequest.t -> FetchOutcome (Num := Num))
    (prompt : string) :
  fst (analyzeWorkspace ws c) = None ->
  handleChatRequest ws c editor fetch prompt
  = ("Error: Could not analyze workspace. Please ensure a workspace is open.", c).
Proof.
  intros Hnone. unfold handleChatRequest.
  pose proof (analyzeWorkspace_null_cache ws c Hnone) as Hsame.
  destruct (analyzeWorkspace ws c) as [[a|] c']; [discriminate|].
  cbn [snd] in Hsame. by rewrite Hsame.
Qed.

End ChatProperties.

(** * The form of the fingerprint *)

Section FingerprintFormat.
Import JS Extension.
Local Open Scope Z_scope.

Lemma round_length (st : list Z) (kw : Z * Z) :
  length (sha256.round st kw) = length st.
Proof.
  unfold sha256.round.
  destruct st as [|a [|b [|c [|d [|e [|f [|g [|h [|i st]]]]]]]]]; reflexivity.
Qed.

Lemma rounds_length (kws : list (Z * Z)) (st : list Z) :
  length (fold_left sha256.round kws st) = length st.
Proof.
  revert st. induction kws as [|kw kws IH]; intros st; [reflexivity|].
  cbn [fold_left]. by rewrite IH, round_length.
Qed.

Lemma compress_length (h block : list Z) :
  length (sha256.compress h block) = length h.
Proof.
  unfold sha256.compress. rewrite length_zip_with, rounds_length. lia.
Qed.

Lemma compress_all_length (bs : list (list Z)) (h : list Z) :
  length (fold_left sha256.compress bs h) = length h.
Proof.
  revert h. induction bs as [|b bs IH]; intros h; [reflexivity|].
  cbn [fold_left]. by rewrite IH, compress_length.
Qed.

Lemma bytesBE_bytes (n : nat) (x : Z) :
  Forall (fun b => 0 <= b < 256) (sha256.bytesBE n x).
Proof.
  induction n as [|n IH]; [constructor|].
  cbn [sha256.bytesBE]. constructor; [|exact IH].
  change 0xff with (Z.ones 8). rewrite Z.land_ones by lia.
  apply Z.mod_pos_bound. lia.
Qed.

Lemma bytesBE_length (n : nat) (x : Z) : length (sha256.bytesBE n x) = n.
Proof. induction n as [|n IH]; [reflexivity|]. cbn [sha256.bytesBE length]. by rewrite IH. Qed.

Lemma digest_bytes (msg : list Z) :
  length (sha256.digest msg) = 32%nat /\
  Forall (fun b => 0 <= b < 256) (sha256.digest msg).
Proof.
  unfold sha256.digest.
  set (h := fold_left sha256.compress _ _).
  assert (Hlen : length h = 8%nat).
  { subst h. rewrite compress_all_length. by vm_compute. }
  clearbody h.
  destruct h as [|a [|b [|c [|d [|e [|f [|g [|i [|j h]]]]]]]]]; try discriminate.
  split.
  - cbn [flat_map]. rewrite !length_app, !bytesBE_length. reflexivity.
  - cbn [flat_map]. rewrite !Forall_app.
    repeat split; try apply bytesBE_bytes. constructor.
Qed.

Lemma hexDigit_hex (x : Z) :
  0 <= x < 16 -> isHexDigit (sha256.hexDigit x) = true.
Proof.
  intros Hx.
  assert (Hcases : x = 0 \/ x = 1 \/ x = 2 \/ x = 3 \/ x = 4 \/ x = 5 \/ x = 6 \/
                   x = 7 \/ x = 8 \/ x = 9 \/ x = 10 \/ x = 11 \/ x = 12 \/
                   x = 13 \/ x = 14 \/ x = 15) by lia.
  repeat destruct Hcases as [->|Hcases]; try subst x; reflexivity.
Qed.

Lemma hex_format (bs : list Z) :
  Forall (fun b => 0 <= b < 256) bs ->
  String.length (sha256.hex bs) = (2 * length bs)%nat /\
  allChars isHexDigit (sha256.hex bs) = true.
Proof.
  induction 1 as [|b bs Hb _ [IHlen IHhex]]; [done|].
  cbn [sha256.hex String.length allChars length]. split; [lia|].
  rewrite IHhex, !hexDigit_hex; [done| |].
  - change 0xf with (Z.ones 4). rewrite Z.land_ones by lia.
    apply Z.mod_pos_bound. lia.
  - rewrite Z.shiftr_div_pow2 by lia. change (2 ^ 4) with 16.
    split; [apply Z.div_pos; lia|apply Z.div_lt_upper_bound; lia].
Qed.

(** X21. Whatever the files are, the fingerprint is a text of exactly 64
    characters, each a digit or a lower-case letter from [a] to [f]. *)
Theorem computeFingerprint_format (files : list FileInfo.t) :
  String.length (computeFingerprint files) = 64%nat /\
  allChars isHexDigit (computeFingerprint files) = true.
Proof.
  change (computeFingerprint files)
    with (sha256.hex (sha256.digest (sha256.bytesOf (fingerprintText files)))).
  destruct (digest_bytes (sha256.bytesOf (fingerprintText files))) as [Hlen Hbytes].
  destruct (hex_format _ Hbytes) as [Hl Hh].
  split; [|exact Hh]. rewrite Hl, Hlen. reflexivity.
Qed.

End FingerprintFormat.

(** * Properties of the webview provider *)

Section WebviewProperties.
Import JS Extension.
Context {Num : Type} `{JSNumber Num}.

Lemma allChars_append (P : ascii -> bool) (a b : string) :
  allChars P (a +:+ b) = allChars P a && allChars P b.
Proof.
  induction a as [|x a IH]; [reflexivity|].
  rewrite append_cons. cbn [allChars]. rewrite IH. apply andb_assoc.
Qed.

Lemma allChars_rev (P : ascii -> bool) (s : string) :
  allChars P (String.rev s) = allChars P s.
Proof.
  induction s as [|x s IH]; [reflexivity|].
  rewrite rev_cons, allChars_append, IH. cbn [allChars].
  rewrite andb_true_r. apply andb_comm.
Qed.

Lemma trimStart_empty (s : string) : trimStart s = "" <-> isBlank s = true.
Proof.
  unfold isBlank. induction s as [|c s IH]; [done|].
  cbn [trimStart allChars]. destruct (isWhiteSpace c); [exact IH|].
  split; discriminate.
Qed.

Lemma trimStart_blank (s : string) : isBlank (trimStart s) = isBlank s.
Proof.
  unfold isBlank. induction s as [|c s IH]; [reflexivity|].
  cbn [trimStart allChars]. destruct (isWhiteSpace c) eqn:Hc; [exact IH|].
  cbn [allChars]. by rewrite Hc.
Qed.

Lemma rev_empty (s : string) : String.rev s = "" <-> s = "".
Proof.
  split; [|by intros ->].
  intros Hrev. destruct s as [|c s]; [done|].
  by destruct (rev_nonempty (String c s)).
Qed.

Lemma trim_empty (s : string) : trim s = "" <-> isBlank s = true.
Proof.
  unfold trim. rewrite rev_empty, trimStart_empty.
  unfold isBlank. rewrite allChars_rev. fold (isBlank (trimStart s)).
  by rewrite trimStart_blank.
Qed.

(** The test that opens [_handleQuery]. *)
Lemma blank_test (queryText : string) :
  String.eqb queryText "" || String.eqb (trim queryText) "" = isBlank queryText.
Proof.
  destruct (isBlank queryText) eqn:Hb.
  - apply trim_empty in Hb. rewrite Hb. apply orb_true_r.
  - apply orb_false_iff. split; apply String.eqb_neq; intros Hq.
    + by rewrite Hq in Hb.
    + apply trim_empty in Hq. congruence.
Qed.

(** The [try] block of [_handleQuery] ends at its first statement. *)
Lemma handleQueryTry_throws (queryText : string) :
  exists error, handleQueryTry (Num := Num) queryText = Throw error.
Proof. eexists. reflexivity. Qed.

(** The shape of every run of [_handleQuery] on a text that is not blank. *)
Lemma handleQuery_shape clock this queryText :
  isBlank queryText = false ->
  exists error,
    let this1 :=
      push this (HistoryEntry.mk HistoryEntry.user queryText (clock 0%nat)) in
    let this2 :=
      push this1
        (HistoryEntry.mk HistoryEntry.assistant ("**Error:** " +:+ messageText error)
           (clock 1%nat)) in
    _handleQuery (Num := Num) clock this queryText
    = (this2,
       (_sendToWebview this1
          (PostConversationHistory (WebviewProvider._conversationHistory this1)) ++
        _sendToWebview this1 (PostQueryLoading true) ++
        _sendToWebview this2 (PostError (Error.message error)) ++
        _sendToWebview this2
          (PostConversationHistory (WebviewProvider._conversationHistory this2)) ++
        _sendToWebview this2 (PostQueryLoading false))%list).
Proof.
  intros Hb. destruct (handleQueryTry_throws queryText) as [error Htry].
  exists error. cbv zeta. unfold _handleQuery. rewrite blank_test, Hb, Htry.
  unfold queryFailed. cbn [fst snd]. by rewrite <- !app_assoc.
Qed.

Lemma handleQuery_blank clock this queryText :
  isBlank queryText = true ->
  _handleQuery (Num := Num) clock this queryText = (this, []).
Proof. intros Hb. unfold _handleQuery. by rewrite blank_test, Hb. Qed.

Lemma error_prefix (message : string) :
  String.prefix "**Error:** " ("**Error:** " +:+ message) = true.
Proof. apply prefix_append. Qed.

(** X22. [_handleQuery] ignores a query exactly when its text is blank
    (empty, or white space only): the provider stays as it is and nothing
    is posted; every other text changes the history. *)
Theorem handleQuery_ignores_blank clock this queryText :
  _handleQuery (Num := Num) clock this queryText = (this, [])
  <-> isBlank queryText = true.
Proof.
  split; [|apply handleQuery_blank].
  intros Hsame. destruct (isBlank queryText) eqn:Hb; [done|].
  destruct (handleQuery_shape clock this queryText Hb) as (error & Hrun).
  cbv zeta in Hrun. rewrite Hsame in Hrun.
  injection Hrun as Hthis _.
  apply (f_equal (fun p => length (WebviewProvider._conversationHistory p))) in Hthis.
  cbn in Hthis. rewrite !length_app in Hthis. cbn in Hthis. lia.
Qed.

(** X23. A query that is not blank adds exactly one exchange to the
    history: the user's text as it was typed, then one entry of the
    assistant, stamped by the first two readings of the clock.  As
    extension.ts exports none of the functions the provider imports, the
    entry of the assistant always reports an error.  The entries before are
    kept, and the view and the connection status are not touched. *)
Theorem handleQuery_adds_one_exchange clock this queryText :
  isBlank queryText = false ->
  let result := _handleQuery (Num := Num) clock this queryText in
  (exists reply,
     String.prefix "**Error:** " reply = true /\
     WebviewProvider._conversationHistory (fst result)
     = (WebviewProvider._conversationHistory this ++
        [HistoryEntry.mk HistoryEntry.user queryText (clock 0%nat);
         HistoryEntry.mk HistoryEntry.assistant reply (clock 1%nat)])%list) /\
  WebviewProvider._webview (fst result) = WebviewProvider._webview this /\
  WebviewProvider._connectionStatus (fst result)
  = WebviewProvider._connectionStatus this.
Proof.
  intros Hb result. subst result.
  destruct (handleQuery_shape clock this queryText Hb) as (error & ->).
  cbn [fst snd push WebviewProvider._conversationHistory
       WebviewProvider._webview WebviewProvider._connectionStatus].
  split; [|done]. exists ("**Error:** " +:+ messageText error).
  split; [apply error_prefix|]. by rewrite <- app_assoc.
Qed.

(** X24. What the webview sees of a query that is not blank: nothing when
    the view is not resolved; otherwise five messages, the history with the
    user's entry, the loading flag set, an error, the history again, now
    ending with the assistant's entry whose text is that of the error, and
    the loading flag cleared.  No response is ever posted. *)
Theorem handleQuery_posts clock this queryText :
  isBlank queryText = false ->
  let result := _handleQuery (Num := Num) clock this queryText in
  let history := WebviewProvider._conversationHistory this in
  let history' := WebviewProvider._conversationHistory (fst result) in
  if WebviewProvider._webview this then
    exists message,
      HistoryEntry.content <$> last history' = outcomeText (Num := Num) (PostError message) /\
      snd result
      = [PostConversationHistory
           (history ++ [HistoryEntry.mk HistoryEntry.user queryText (clock 0%nat)])%list;
         PostQueryLoading true;
         PostError message;
         PostConversationHistory history';
         PostQueryLoading false]
  else snd result = [].
Proof.
  intros Hb result history history'. subst result history history'.
  destruct (handleQuery_shape clock this queryText Hb) as (error & ->).
  unfold _sendToWebview.
  cbn [fst snd push WebviewProvider._conversationHistory WebviewProvider._webview].
  destruct (WebviewProvider._webview this); [|reflexivity].
  exists (Error.message error). split; [|reflexivity].
  by rewrite last_snoc.
Qed.

Lemma handleMessage_status this (message : Incoming) :
  WebviewProvider._connectionStatus this <> connected ->
  WebviewProvider._connectionStatus (fst (_handleMessage (Num := Num) this message))
  <> connected.
Proof.
  intros Hs. destruct message as [clock data| |]; cbn [_handleMessage fst]; [|done|done].
  destruct (isBlank data) eqn:Hb.
  - by rewrite handleQuery_blank.
  - by destruct (handleQuery_shape clock this data Hb) as (error & ->).
Qed.

(** X25. As extension.ts does not export [testConnection], the call in
    [_handleTestConnection] throws: the status stays [checking], a resolved
    view is told [checking] and no result, the history is not touched and
    the promise of the handler is rejected; [_updateConnectionStatus] leaves
    the provider as it is.  So whatever messages arrive, a provider that is
    not [connected] never becomes [connected]. *)
Theorem handleTestConnection_status (this : WebviewProvider.t)
    (messages : list Incoming) :
  let result := _handleTestConnection (Num := Num) this in
  WebviewProvider._connectionStatus (fst (fst result)) = checking /\
  WebviewProvider._conversationHistory (fst (fst result))
  = WebviewProvider._conversationHistory this /\
  snd (fst result)
  = (if WebviewProvider._webview this then [PostConnectionStatus checking] else []) /\
  (exists error, snd result = Throw error) /\
  fst (fst (_updateConnectionStatus (Num := Num) this)) = this /\
  (WebviewProvider._connectionStatus this <> connected ->
   WebviewProvider._connectionStatus (fst (handleMessages (Num := Num) this messages))
   <> connected).
Proof.
  cbv zeta. split; [reflexivity|]. split; [reflexivity|].
  split; [by destruct this as [[] ? ?]|]. split; [by eexists|].
  split; [reflexivity|].
  revert this. induction messages as [|m ms IH]; intros this Hs; [exact Hs|].
  cbn [handleMessages fst]. apply IH. by apply handleMessage_status.
Qed.

Lemma exchanges_app (history more : list HistoryEntry.t) :
  exchanges history = true -> exchanges (history ++ more) = exchanges more.
Proof.
  enough (Hboth : (exchanges history = true ->
                   exchanges (history ++ more) = exchanges more) /\
                  (forall q, exchanges (q :: history) = true ->
                             exchanges (q :: history ++ more) = exchanges more))
    by apply Hboth.
  induction history as [|a history [IH0 IH1]].
  - split; [done|]. intros q. cbn [exchanges]. discriminate.
  - split; [apply IH1|].
    intros q. cbn [exchanges app]. intros Hq.
    apply andb_true_iff in Hq as [-> Hrest]. by apply IH0.
Qed.

Lemma handleMessage_history this (message : Incoming) :
  exists more,
    exchanges more = true /\
    forallb noAnswerEntry more = true /\
    WebviewProvider._conversationHistory (fst (_handleMessage (Num := Num) this message))
    = (WebviewProvider._conversationHistory this ++ more)%list.
Proof.
  destruct message as [clock data| |]; cbn [_handleMessage fst].
  - destruct (isBlank data) eqn:Hb.
    + rewrite handleQuery_blank by done. exists []. by rewrite app_nil_r.
    + destruct (handleQuery_shape clock this data Hb) as (error & ->).
      exists [HistoryEntry.mk HistoryEntry.user data (clock 0%nat);
              HistoryEntry.mk HistoryEntry.assistant
                ("**Error:** " +:+ messageText error) (clock 1%nat)].
      split; [reflexivity|]. split.
      * cbn [forallb]. unfold noAnswerEntry at 2. cbn [HistoryEntry.content].
        rewrite error_prefix. by rewrite orb_true_r.
      * cbn. by rewrite <- app_assoc.
  - exists []. by rewrite app_nil_r.
  - exists []. by rewrite app_nil_r.
Qed.

(** X26. Whatever [query], [testConnection] and [rebuildAnalysis] messages
    the webview sends, the conversation history of a provider that starts
    empty is a sequence of exchanges, an entry of the user followed by one
    of the assistant, in which every entry of the assistant reports an
    error; and no message removes or rewrites an entry: the history after
    the first messages is a prefix of the history after all of them. *)
Theorem handleMessages_history (resolved : bool)
    (messages more : list Incoming) :
  let history ms :=
    WebviewProvider._conversationHistory
      (fst (handleMessages (Num := Num)
              (WebviewProvider.mk resolved [] disconnected) ms)) in
  exchanges (history messages) = true /\
  forallb noAnswerEntry (history messages) = true /\
  history messages `prefix_of` history (messages ++ more)%list.
Proof.
  cbv zeta.
  assert (Hgen : forall (ms : list Incoming) this,
            exists added,
              exchanges added = true /\
              forallb noAnswerEntry added = true /\
              WebviewProvider._conversationHistory
                (fst (handleMessages (Num := Num) this ms))
              = (WebviewProvider._conversationHistory this ++ added)%list).
  { induction ms as [|m ms IH]; intros this.
    - exists []. by rewrite app_nil_r.
    - cbn [handleMessages fst snd].
      destruct (handleMessage_history this m) as (a1 & Ha1 & Hn1 & Hm).
      destruct (IH (fst (_handleMessage this m))) as (a2 & Ha2 & Hn2 & Hms).
      exists (a1 ++ a2)%list. split; [by rewrite exchanges_app|].
      split; [by rewrite forallb_app, Hn1, Hn2|].
      by rewrite Hms, Hm, <- app_assoc. }
  assert (Happ : forall (ms ms' : list Incoming) this,
            fst (handleMessages (Num := Num) this (ms ++ ms'))
            = fst (handleMessages (fst (handleMessages this ms)) ms')).
  { induction ms as [|m ms IH]; intros ms' this; [reflexivity|].
    cbn [handleMessages app fst]. apply IH. }
  destruct (Hgen messages (WebviewProvider.mk resolved [] disconnected))
    as (added & Hadded & Hnone & Hhist).
  cbn [WebviewProvider._conversationHistory app] in Hhist.
  split; [by rewrite Hhist|]. split; [by rewrite Hhist|].
  rewrite Happ.
  destruct (Hgen more (fst (handleMessages (WebviewProvider.mk resolved [] disconnected)
                              messages))) as (added' & _ & _ & ->).
  by exists added'.
Qed.

End WebviewProperties.

(** * The further properties on the demo workspace and backend *)

Section FurtherRuns.
Import JS Extension.

Lemma rebuildAnalysis_supersedes_demo :
  head (Workspace.workspaceFolders Demo.workspace) = Some Demo.folder /\
  rebuildAnalysis Demo.workspace
    (<[Uri.toString (WorkspaceFolder.uri Demo.folder) := Demo.analysis]> ∅)
  = rebuildAnalysis Demo.workspace ∅.
Proof.
  split; [reflexivity|].
  exact (proj1 (rebuildAnalysis_supersedes Demo.workspace ∅ Demo.folder Demo.analysis
                  eq_refl)).
Defined.

Lemma sample_only_when_eligible_demo :
  (buildAnalysis Demo.workspace Demo.folder = Some Demo.analysis /\
   Demo.fileA ∈ WorkspaceAnalysis.files Demo.analysis /\
   FileInfo.sample Demo.fileA = Some "hello") /\
  extensionOf (FileInfo.path Demo.fileA) ∈ TEXT_FILE_EXTENSIONS.
Proof.
  assert (Hbuild : buildAnalysis Demo.workspace Demo.folder = Some Demo.analysis)
    by (vm_compute; reflexivity).
  assert (Hin : Demo.fileA ∈ WorkspaceAnalysis.files Demo.analysis)
    by apply list_elem_of_here.
  split; [split; [exact Hbuild|split; [exact Hin|reflexivity]]|].
  exact (proj1 (sample_only_when_eligible Demo.workspace Demo.folder Demo.analysis
                  Demo.fileA "hello" Hbuild Hin eq_refl)).
Defined.


Lemma records_in_discovery_order_demo :
  buildAnalysis Demo.workspace Demo.folder = Some Demo.analysis /\
  exists files,
    Workspace.findFiles Demo.workspace "**/*" excludePattern
      (Configuration.maxFiles (Workspace.configuration Demo.workspace)) = Some files /\
    sublist (map FileInfo.path (WorkspaceAnalysis.files Demo.analysis))
            (map (Workspace.asRelativePath Demo.workspace)
                 (slice0 files
                    (Configuration.maxFiles (Workspace.configuration Demo.workspace)))).
Proof.
  assert (Hbuild : buildAnalysis Demo.workspace Demo.folder = Some Demo.analysis)
    by (vm_compute; reflexivity).
  split; [exact Hbuild|].
  exact (records_in_discovery_order Demo.workspace Demo.folder Demo.analysis Hbuild).
Defined.

Lemma analyzeWorkspace_wellFormed_demo :
  fst (analyzeWorkspace Demo.workspace (run [EvAnalyze Demo.workspace]))
  = Some Demo.analysis /\
  wellFormed Demo.analysis.
Proof.
  assert (Hrun : fst (analyzeWorkspace Demo.workspace (run [EvAnalyze Demo.workspace]))
                 = Some Demo.analysis) by (vm_compute; reflexivity).
  split; [exact Hrun|].
  exact (analyzeWorkspace_wellFormed [EvAnalyze Demo.workspace] Demo.workspace
           Demo.analysis Hrun).
Defined.

Lemma isSensitiveFile_in_directory_demo :
  (isFileName "notes.txt" /\
   includes (normalized "Config\Secrets") "secrets" = true) /\
  isSensitiveFile ("Config\Secrets" +:+ "/" +:+ "notes.txt") = true.
Proof.
  assert (Hname : isFileName "notes.txt").
  { split; [discriminate|]. split; reflexivity. }
  assert (Hdir : includes (normalized "Config\Secrets") "secrets" = true)
    by (vm_compute; reflexivity).
  split; [by split|].
  exact (isSensitiveFile_in_directory "Config\Secrets" "notes.txt" Hname
           (or_intror (or_introl Hdir))).
Defined.

Lemma fingerprintText_determines_triples_demo :
  (Forall (fun f => noLineBreak (FileInfo.path f)) Demo.scenarioA /\
   Forall (fun f => noLineBreak (FileInfo.path f)) (reverse Demo.scenarioA) /\
   fingerprintText Demo.scenarioA = fingerprintText (reverse Demo.scenarioA)) /\
  map tripleOf Demo.scenarioA ≡ₚ map tripleOf (reverse Demo.scenarioA).
Proof.
  assert (H1 : Forall (fun f => noLineBreak (FileInfo.path f)) Demo.scenarioA).
  { repeat constructor. }
  assert (H2 : Forall (fun f => noLineBreak (FileInfo.path f)) (reverse Demo.scenarioA)).
  { repeat constructor. }
  assert (H3 : fingerprintText Demo.scenarioA = fingerprintText (reverse Demo.scenarioA))
    by (vm_compute; reflexivity).
  split; [split; [exact H1|split; [exact H2|exact H3]]|].
  exact (fingerprintText_determines_triples _ _ H1 H2 H3).
Defined.

Lemma computeFingerprint_line_feed_collision_demo :
  String.le (fingerprintEntry Demo.fileA)
    (fingerprintEntry (FileInfo.mk "b.ts" 200%Z 2000%Z None None)) /\
  computeFingerprint
    [mergedRecord Demo.fileA (FileInfo.mk "b.ts" 200%Z 2000%Z None None)]
  = computeFingerprint [Demo.fileA; FileInfo.mk "b.ts" 200%Z 2000%Z None None].
Proof.
  assert (Hle : String.le (fingerprintEntry Demo.fileA)
                  (fingerprintEntry (FileInfo.mk "b.ts" 200%Z 2000%Z None None))).
  { apply (bool_decide_unpack _). vm_compute. reflexivity. }
  split; [exact Hle|].
  exact (computeFingerprint_line_feed_collision _ _ Hle).
Defined.

Lemma sendQuery_http_failure_demo :
  (Demo.backendFailing "http://localhost:8000/query"
     (requestOf "find b" Demo.analysis None None) = Resolved Demo.failure /\
   ok Demo.failure = false /\
   text Demo.failure = Ok "Internal Server Error") /\
  sendQuery (Workspace.configuration Demo.workspace) Demo.backendFailing "find b"
    Demo.analysis None None
  = Throw (newError (httpMessage 500%Z "Internal Server Error")).
Proof.
  split; [split; [reflexivity|split; reflexivity]|].
  exact (sendQuery_http_failure (Workspace.configuration Demo.workspace)
           Demo.backendFailing "find b" Demo.analysis None None Demo.failure
           "Internal Server Error" eq_refl eq_refl eq_refl).
Defined.

Lemma renderResponse_all_or_nothing_demo :
  (VNull ∈ (map QueryAnswer.toValue Demo.answers ++ [VNull (Num := Z)])%list /\
   malformedAnswer (VNull (Num := Z))) /\
  exists e,
    renderResponse
      (VObject
         [("answers", VArray (map QueryAnswer.toValue Demo.answers ++ [VNull])%list)])
    = Throw e.
Proof.
  assert (Hin : VNull ∈ (map QueryAnswer.toValue Demo.answers ++ [VNull (Num := Z)])%list).
  { apply elem_of_app. right. apply list_elem_of_here. }
  assert (Hbad : malformedAnswer (VNull (Num := Z))) by (left; reflexivity).
  split; [by split|].
  exact (renderResponse_all_or_nothing _ _ Hin Hbad).
Defined.

Lemma getActiveEditorContext_range_demo :
  (0 <= 2 <= 4)%Z /\
  exists range,
    snd (getActiveEditorContext Demo.workspace (Some Demo.editor)) = Some range /\
    Selection.startLine range = 3%Z /\
    Selection.endLine range = 5%Z /\
    (1 <= Selection.startLine range <= Selection.endLine range)%Z.
Proof.
  assert (Hlines : (0 <= 2 <= 4)%Z) by lia.
  split; [exact Hlines|].
  exact (proj2 (proj2 (getActiveEditorContext_range Demo.workspace Demo.editor Hlines))
           eq_refl).
Defined.

Lemma handleChatRequest_renders_answers_demo :
  (fst (analyzeWorkspace Demo.workspace ∅) = Some Demo.analysis /\
   ok (mkResponse 200%Z (Ok (responseOf Demo.answers)) (Ok "")) = true) /\
  handleChatRequest Demo.workspace ∅ (Some Demo.editor)
    (Demo.backendReturning (responseOf Demo.answers)) "find b"
  = (renderedText Demo.answers, snd (analyzeWorkspace Demo.workspace ∅)).
Proof.
  assert (Ha : fst (analyzeWorkspace Demo.workspace ∅) = Some Demo.analysis)
    by (vm_compute; reflexivity).
  split; [split; [exact Ha|reflexivity]|].
  exact (handleChatRequest_renders_answers Demo.workspace ∅ (Some Demo.editor)
           (Demo.backendReturning (responseOf Demo.answers)) "find b" Demo.analysis
           (mkResponse 200%Z (Ok (responseOf Demo.answers)) (Ok "")) Demo.answers
           Ha eq_refl eq_refl eq_refl).
Defined.

Lemma handleChatRequest_cannot_connect_demo :
  (fst (analyzeWorkspace Demo.workspace ∅) = Some Demo.analysis /\
   messageIncludes (Error.mk "TypeError" (Some "fetch failed") None) "fetch failed"
   = true) /\
  fst (handleChatRequest Demo.workspace ∅ (Some Demo.editor) Demo.backendUnreachable
         "find b")
  = ("**Error:** " +:+ connectMessage "http://localhost:8000") +:+
    contextSection Demo.analysis (Some "a.ts") +:+
    notImplementedNote (Some Demo.analysis) +:+ outputPanelHint.
Proof.
  assert (Ha : fst (analyzeWorkspace Demo.workspace ∅) = Some Demo.analysis)
    by (vm_compute; reflexivity).
  assert (Hname : Error.name (Error.mk "TypeError" (Some "fetch failed") None)
                  <> "AbortError") by discriminate.
  split; [split; [exact Ha|reflexivity]|].
  exact (proj1 (handleChatRequest_cannot_connect Demo.workspace ∅ (Some Demo.editor)
                  Demo.backendUnreachable "find b" Demo.analysis
                  (Error.mk "TypeError" (Some "fetch failed") None)
                  Ha eq_refl Hname eq_refl)).
Defined.

Lemma handleChatRequest_failure_keeps_analysis_demo :
  (fst (analyzeWorkspace Demo.workspace ∅) = Some Demo.analysis /\
   sendQuery (Workspace.configuration Demo.workspace) Demo.backendTimingOut "find b"
     Demo.analysis (Some "a.ts") (Some (Selection.mk 3%Z 5%Z))
   = Throw (newError "Request timeout after 20000ms")) /\
  analyzeWorkspace Demo.workspace
    (snd (handleChatRequest Demo.workspace ∅ (Some Demo.editor) Demo.backendTimingOut
            "find b"))
  = (Some Demo.analysis,
     snd (handleChatRequest Demo.workspace ∅ (Some Demo.editor) Demo.backendTimingOut
            "find b")).
Proof.
  assert (Ha : fst (analyzeWorkspace Demo.workspace ∅) = Some Demo.analysis)
    by (vm_compute; reflexivity).
  assert (Hsend : sendQuery (Workspace.configuration Demo.workspace)
                    Demo.backendTimingOut "find b" Demo.analysis (Some "a.ts")
                    (Some (Selection.mk 3%Z 5%Z))
                  = Throw (newError "Request timeout after 20000ms"))
    by (vm_compute; reflexivity).
  split; [by split|].
  exact (proj2 (proj2 (handleChatRequest_failure_keeps_analysis Demo.workspace ∅
                         (Some Demo.editor) Demo.backendTimingOut "find b"
                         Demo.analysis (newError "Request timeout after 20000ms")
                         Ha Hsend))).
Defined.

Lemma handleChatRequest_without_analysis_demo :
  fst (analyzeWorkspace Demo.noFolder ∅) = None /\
  handleChatRequest Demo.noFolder ∅ None
    (Demo.backendReturning (responseOf Demo.answers)) "find b"
  = ("Error: Could not analyze workspace. Please ensure a workspace is open.", ∅).
Proof.
  split; [reflexivity|].
  exact (handleChatRequest_without_analysis Demo.noFolder ∅ None
           (Demo.backendReturning (responseOf Demo.answers)) "find b" eq_refl).
Defined.

Lemma handleQuery_adds_one_exchange_demo :
  isBlank "find b" = false /\
  exists reply,
    String.prefix "**Error:** " reply = true /\
    WebviewProvider._conversationHistory
      (fst (_handleQuery (Num := Z) Demo.clock Demo.provider "find b"))
    = [HistoryEntry.mk HistoryEntry.user "find b" (Demo.clock 0%nat);
       HistoryEntry.mk HistoryEntry.assistant reply (Demo.clock 1%nat)].
Proof.
  split; [reflexivity|].
  exact (proj1 (handleQuery_adds_one_exchange (Num := Z) Demo.clock Demo.provider
                  "find b" eq_refl)).
Defined.

Lemma handleQuery_posts_demo :
  isBlank "find b" = false /\
  exists message,
    HistoryEntry.content <$>
      last (WebviewProvider._conversationHistory
              (fst (_handleQuery (Num := Z) Demo.clock Demo.provider "find b")))
    = outcomeText (Num := Z) (PostError message) /\
    snd (_handleQuery (Num := Z) Demo.clock Demo.provider "find b")
    = [PostConversationHistory
         [HistoryEntry.mk HistoryEntry.user "find b" (Demo.clock 0%nat)];
       PostQueryLoading true;
       PostError message;
       PostConversationHistory
         (WebviewProvider._conversationHistory
            (fst (_handleQuery (Num := Z) Demo.clock Demo.provider "find b")));
       PostQueryLoading false].
Proof.
  split; [reflexivity|].
  exact (handleQuery_posts (Num := Z) Demo.clock Demo.provider "find b" eq_refl).
Defined.

End FurtherRuns.
